(** * WSJ FX API: a shallow embedding of the request handler

    The repository holds one HTTP handler in two versions:
    - [src/api/fx.js], the batch handler with coverage presets, a worker pool
      of six fetches, counters and sorted items (module [Batch] below);
    - [src/API/fx.js], the earlier handler that fetches every symbol at once
      (module [Simple] below).

    JavaScript strings are modelled as [string] (sequences of octets).  The
    string builtins are written out for the ASCII range, in which every date,
    symbol and CSV field of the protocol lives; octets above 127 are opaque
    characters that are neither letters, digits nor white space.  The
    fields of a request hold the values the platform can hand over: a
    string, or an array when a parameter of the query is repeated, and any
    JSON value in a body. *)

From Stdlib Require Import ZArith NArith Bool List Ascii String Lia.
From Stdlib Require Import DecimalString Permutation Sorted Wf_nat.
Import ListNotations.

Open Scope list_scope.
Open Scope string_scope.

Ltac Zify.zify_post_hook ::= Z.to_euclidean_division_equations.

(** ** JavaScript string builtins *)

Module Js.

Definition code (c : ascii) : N := N_of_ascii c.

Definition isDigit (c : ascii) : bool :=
  (48 <=? code c)%N && (code c <=? 57)%N.

Definition isUpper (c : ascii) : bool :=
  (65 <=? code c)%N && (code c <=? 90)%N.

Definition isLower (c : ascii) : bool :=
  (97 <=? code c)%N && (code c <=? 122)%N.

(** WhiteSpace and LineTerminator of ECMAScript, ASCII part:
    TAB, LF, VT, FF, CR and SP. *)
Definition isSpace (c : ascii) : bool :=
  ((9 <=? code c)%N && (code c <=? 13)%N) || (code c =? 32)%N.

Definition upperChar (c : ascii) : ascii :=
  if isLower c then ascii_of_N (code c - 32) else c.

Definition lowerChar (c : ascii) : ascii :=
  if isUpper c then ascii_of_N (code c + 32) else c.

Fixpoint mapChars (f : ascii -> ascii) (s : string) : string :=
  match s with
  | EmptyString => EmptyString
  | String c r => String (f c) (mapChars f r)
  end.

Definition toUpperCase : string -> string := mapChars upperChar.
Definition toLowerCase : string -> string := mapChars lowerChar.

Fixpoint trimStart (s : string) : string :=
  match s with
  | String c r => if isSpace c then trimStart r else s
  | EmptyString => EmptyString
  end.

Fixpoint trimEnd (s : string) : string :=
  match s with
  | EmptyString => EmptyString
  | String c r =>
      match trimEnd r with
      | EmptyString => if isSpace c then EmptyString else String c EmptyString
      | r' => String c r'
      end
  end.

Definition trim (s : string) : string := trimEnd (trimStart s).

(** Empty, or without a leading blank. *)
Definition trimmedStart (s : string) : Prop :=
  match s with
  | String c _ => isSpace c = false
  | EmptyString => True
  end.

(** [s.split(c)] for a one-character separator: never the empty list. *)
Fixpoint split (sep : ascii) (s : string) : list string :=
  match s with
  | EmptyString => [EmptyString]
  | String c r =>
      if Ascii.eqb c sep then EmptyString :: split sep r
      else match split sep r with
           | h :: t => String c h :: t
           | [] => [String c EmptyString]
           end
  end.

Definition LF : ascii := ascii_of_N 10.
Definition CR : ascii := ascii_of_N 13.

(** Drops one trailing CR: the optional [\r] of the separator [/\r?\n/]. *)
Fixpoint dropLastCR (s : string) : string :=
  match s with
  | EmptyString => EmptyString
  | String c EmptyString => if Ascii.eqb c CR then EmptyString else s
  | String c r => String c (dropLastCR r)
  end.

Fixpoint mapInit {A : Type} (f : A -> A) (l : list A) : list A :=
  match l with
  | [] => []
  | [x] => [x]
  | x :: r => f x :: mapInit f r
  end.

(** [s.split(/\r?\n/)]: the pieces between line feeds; a piece that is
    followed by a separator loses the CR the separator has consumed. *)
Definition splitLines (s : string) : list string :=
  mapInit dropLastCR (split LF s).

Fixpoint includesChar (c : ascii) (s : string) : bool :=
  match s with
  | EmptyString => false
  | String x r => Ascii.eqb x c || includesChar c r
  end.

Definition startsWith (p s : string) : bool := String.prefix p s.

Definition endsWith (suf s : string) : bool :=
  (String.length suf <=? String.length s)%nat &&
  String.eqb (substring (String.length s - String.length suf)
                        (String.length suf) s) suf.

Fixpoint repeatChar (n : nat) (c : ascii) : string :=
  match n with
  | O => EmptyString
  | S k => String c (repeatChar k c)
  end.

(** [s.padStart(n, c)] for a one-character filler. *)
Definition padStart (n : nat) (c : ascii) (s : string) : string :=
  repeatChar (n - String.length s) c ++ s.

(** [s.slice(0, n)]. *)
Definition slice0 (n : nat) (s : string) : string := substring 0 n s.

(** [arr.indexOf(x)] on an array of strings, [-1] when absent. *)
Fixpoint indexOf (x : string) (l : list string) : Z :=
  match l with
  | [] => (-1)%Z
  | y :: r =>
      if String.eqb y x then 0%Z
      else let i := indexOf x r in
           if (i <? 0)%Z then (-1)%Z else (i + 1)%Z
  end.

(** [String(n)] for an integer [n]. *)
Definition ofInt (n : Z) : string := NilZero.string_of_int (Z.to_int n).

(** A thrown value, as far as [String(e?.message || e)] reads it. *)
Record Thrown : Type := mkThrown { message : string; asString : string }.

Definition describe (e : Thrown) : string :=
  if String.eqb (message e) "" then asString e else message e.

(** *** [Number(s)] and [parseFloat(s)] as far as [isNaN] reads them *)

Fixpoint chars (s : string) : list ascii :=
  match s with
  | EmptyString => []
  | String c r => c :: chars r
  end.

Fixpoint dropDigits (l : list ascii) : list ascii :=
  match l with
  | c :: r => if isDigit c then dropDigits r else l
  | [] => []
  end.

Definition startsWithDigit (l : list ascii) : bool :=
  match l with
  | c :: _ => isDigit c
  | [] => false
  end.

Definition isSign (c : ascii) : bool :=
  Ascii.eqb c "+" || Ascii.eqb c "-".

(** ExponentPart, or nothing. *)
Definition exponentOpt (l : list ascii) : bool :=
  match l with
  | [] => true
  | e :: r =>
      (Ascii.eqb e "e" || Ascii.eqb e "E") &&
      let r' := match r with
                | s :: r'' => if isSign s then r'' else r
                | [] => r
                end in
      startsWithDigit r' &&
      match dropDigits r' with [] => true | _ => false end
  end.

(** StrUnsignedDecimalLiteral. *)
Definition unsignedDecimal (l : list ascii) : bool :=
  if String.eqb (string_of_list_ascii l) "Infinity" then true
  else
    let r := dropDigits l in
    match r with
    | dot :: r1 =>
        if Ascii.eqb dot "." then
          (startsWithDigit l || startsWithDigit r1) &&
          exponentOpt (dropDigits r1)
        else startsWithDigit l && exponentOpt r
    | [] => startsWithDigit l
    end.

Definition isHexDigit (c : ascii) : bool :=
  isDigit c || ((65 <=? code c)%N && (code c <=? 70)%N)
            || ((97 <=? code c)%N && (code c <=? 102)%N).
Definition isOctDigit (c : ascii) : bool :=
  (48 <=? code c)%N && (code c <=? 55)%N.
Definition isBinDigit (c : ascii) : bool :=
  (48 <=? code c)%N && (code c <=? 49)%N.

Definition nonEmptyAll (p : ascii -> bool) (l : list ascii) : bool :=
  match l with [] => false | _ => forallb p l end.

(** NonDecimalIntegerLiteral: [0x], [0o] and [0b] forms, unsigned. *)
Definition nonDecimalInteger (l : list ascii) : bool :=
  match l with
  | z :: k :: r =>
      Ascii.eqb z "0" &&
      (((Ascii.eqb k "x" || Ascii.eqb k "X") && nonEmptyAll isHexDigit r) ||
       ((Ascii.eqb k "o" || Ascii.eqb k "O") && nonEmptyAll isOctDigit r) ||
       ((Ascii.eqb k "b" || Ascii.eqb k "B") && nonEmptyAll isBinDigit r))
  | _ => false
  end.

(** StringNumericLiteral, white space stripped: the strings on which
    [Number] is not [NaN].  The empty string converts to [0]. *)
Definition numeric (s : string) : bool :=
  match chars (trim s) with
  | [] => true
  | (c :: r) as l =>
      if isSign c then unsignedDecimal r
      else unsignedDecimal l || nonDecimalInteger l
  end.

(** [isNaN(Number(s))]. *)
Definition isNaN_Number (s : string) : bool := negb (numeric s).

(** [isNaN(parseFloat(s))]: [parseFloat] reads the longest prefix of the
    left-trimmed string that is a StrDecimalLiteral. *)
Definition isNaN_parseFloat (s : string) : bool :=
  let l := chars (trimStart s) in
  let u := match l with
           | c :: r => if isSign c then r else l
           | [] => l
           end in
  negb (startsWith "Infinity" (string_of_list_ascii u) ||
        startsWithDigit u ||
        match u with
        | dot :: r => Ascii.eqb dot "." && startsWithDigit r
        | [] => false
        end).

(** [arr.join(sep)] for a one-character separator. *)
Fixpoint joinChar (sep : ascii) (l : list string) : string :=
  match l with
  | [] => EmptyString
  | [x] => x
  | x :: r => x ++ String sep (joinChar sep r)
  end.

End Js.

(** ** The CSV row matcher of [src/api/fx.js] *)

Module Csv.
Import Js.

Record Parsed : Type := mkParsed { p_date : string; p_close : string }.

(** Lines 170-175: the date column of one row, normalised to ISO, when it
    has three [/]-separated parts. *)
Definition rowISO (raw : string) : option string :=
  match split "/" raw with
  | [mm; dd; yy] =>
      let yy := if (String.length yy =? 2)%nat
                then (match String.compare yy "50" with
                      | Gt => "19"
                      | _ => "20"
                      end) ++ yy
                else yy in
      Some (yy ++ "-" ++ padStart 2 "0" mm ++ "-" ++ padStart 2 "0" dd)
  | _ => None
  end.

Definition cells (line : string) : list string := map trim (split "," line).

(** Line 179: [close == null || close === "" || isNaN(Number(close))]. *)
Definition badClose (close : option string) : bool :=
  match close with
  | None => true
  | Some c => String.eqb c "" || isNaN_Number c
  end.

(** The [for] loop of lines 166-182 over [lines[1..]]. *)
Fixpoint scanRows (iDate iClose : nat) (isoWanted : string)
    (rows : list string) : option Parsed :=
  match rows with
  | [] => None
  | line :: rest =>
      let cols := cells line in
      if (List.length cols <? Nat.max iDate iClose + 1)%nat
      then scanRows iDate iClose isoWanted rest
      else
        match rowISO (nth iDate cols "") with
        | None => scanRows iDate iClose isoWanted rest
        | Some iso =>
            if String.eqb iso isoWanted then
              let close := nth_error cols iClose in
              if badClose close then None
              else Some (mkParsed iso (nth iClose cols ""))
            else scanRows iDate iClose isoWanted rest
        end
  end.

Definition headerCells (line : string) : list string :=
  map (fun s => toLowerCase (trim s)) (split "," line).

Definition parseWSJCSV (csv isoWanted : string) : option Parsed :=
  if String.eqb csv "" || negb (includesChar LF csv) then None
  else
    match splitLines (trim csv) with
    | [] => None
    | head :: rows =>
        let header := headerCells head in
        let iDate := indexOf "date" header in
        let iClose := indexOf "close" header in
        if (iDate <? 0)%Z || (iClose <? 0)%Z then None
        else scanRows (Z.to_nat iDate) (Z.to_nat iClose) isoWanted rows
    end.

End Csv.


(** ** The [Date] builtin

    Time values are milliseconds since the epoch, [None] is the invalid date
    ([NaN]).  [getDay], [getDate] and [setDate] work in the local time zone
    of the process, which the model takes as a fixed offset [tz] in minutes
    east of UTC (0 on Vercel, whose functions run in UTC).  The date-time
    strings accepted are those of the ECMAScript format; on a day of the
    month that the month does not have (but at most 31) the parser follows
    V8 and lets the date roll over into the next month. *)

Module JsDate.
Import Js.
Local Open Scope Z_scope.

Inductive Res (A : Type) : Type :=
| Ok (a : A)
| Throw (e : Thrown).
Arguments Ok {A} a.
Arguments Throw {A} e.

(** A statement that throws leaves the block: the statements after it are
    not run. *)
Definition bind {A B : Type} (r : Res A) (k : A -> Res B) : Res B :=
  match r with
  | Ok a => k a
  | Throw e => Throw e
  end.

Notation "'let*' x ':=' r 'in' k" := (bind r (fun x => k))
  (at level 10, x name, r at level 100, k at level 200).

Definition RangeError_invalid_time : Thrown :=
  mkThrown "Invalid time value" "RangeError: Invalid time value".

Definition msPerDay : Z := 86400000.
Definition msPerHour : Z := 3600000.
Definition msPerMinute : Z := 60000.
Definition msPerSecond : Z := 1000.

Definition Day (t : Z) : Z := t / msPerDay.
Definition TimeWithinDay (t : Z) : Z := t mod msPerDay.
Definition WeekDay (t : Z) : Z := (Day t + 4) mod 7.

(** Day number of the civil date [y]-[m]-[d] (proleptic Gregorian calendar,
    [m] from 1 to 12); linear in [d]. *)
Definition daysFromCivil (y m d : Z) : Z :=
  let y' := if m <=? 2 then y - 1 else y in
  let era := y' / 400 in
  let yoe := y' - era * 400 in
  let doy := (153 * (if m >? 2 then m - 3 else m + 9) + 2) / 5 + d - 1 in
  let doe := yoe * 365 + yoe / 4 - yoe / 100 + doy in
  era * 146097 + doe - 719468.

(** Year, month (from 1) and day of the month of a day number. *)
Definition civilFromDays (n : Z) : Z * Z * Z :=
  let z := n + 719468 in
  let era := z / 146097 in
  let doe := z - era * 146097 in
  let yoe := (doe - doe / 1460 + doe / 36524 - doe / 146096) / 365 in
  let y := yoe + era * 400 in
  let doy := doe - (365 * yoe + yoe / 4 - yoe / 100) in
  let mp := (5 * doy + 2) / 153 in
  let d := doy - (153 * mp + 2) / 5 + 1 in
  let m := if mp <? 10 then mp + 3 else mp - 9 in
  (if m <=? 2 then y + 1 else y, m, d).

Definition YearFromTime (t : Z) : Z := fst (fst (civilFromDays (Day t))).
Definition MonthFromTime (t : Z) : Z := snd (fst (civilFromDays (Day t))) - 1.
Definition DateFromTime (t : Z) : Z := snd (civilFromDays (Day t)).

Definition MakeDay (year month date : Z) : Z :=
  let ym := year + month / 12 in
  let mn := month mod 12 in
  daysFromCivil ym (mn + 1) 1 + date - 1.

Definition MakeDate (day time : Z) : Z := day * msPerDay + time.

Definition TimeClip (t : Z) : option Z :=
  if Z.abs t <=? 8640000000000000 then Some t else None.

(** *** Parsing the date part of a date-time string *)

Definition digitVal (c : ascii) : Z := Z.of_N (code c) - 48.

Fixpoint digitsVal (acc : Z) (l : list ascii) : option Z :=
  match l with
  | [] => Some acc
  | c :: r => if isDigit c then digitsVal (10 * acc + digitVal c) r else None
  end.

Definition isDash (c : ascii) : bool := Ascii.eqb c "-".

(** [-MM] and [-MM-DD], or nothing: month and day, 1 when left out. *)
Definition parseMonthDay (l : list ascii) : option (Z * Z) :=
  match l with
  | [] => Some (1, 1)
  | [h; m1; m0] =>
      if isDash h then
        match digitsVal 0 [m1; m0] with
        | Some m => Some (m, 1)
        | None => None
        end
      else None
  | [h; m1; m0; k; d1; d0] =>
      if isDash h && isDash k then
        match digitsVal 0 [m1; m0], digitsVal 0 [d1; d0] with
        | Some m, Some d => Some (m, d)
        | _, _ => None
        end
      else None
  | _ => None
  end.

Definition legalFields (ymd : Z * Z * Z) : bool :=
  let '(_, m, d) := ymd in
  (1 <=? m) && (m <=? 12) && (1 <=? d) && (d <=? 31).

(** Year, month and day of [YYYY], [YYYY-MM], [YYYY-MM-DD] and of the same
    with an expanded year [+YYYYYY] or [-YYYYYY] ([-000000] is refused). *)
Definition parseDateOnly (s : string) : option (Z * Z * Z) :=
  let fields (sign : Z) (year : option Z) (rest : list ascii) :=
    match year, parseMonthDay rest with
    | Some y, Some (m, d) =>
        if legalFields (sign * y, m, d) then Some (sign * y, m, d) else None
    | _, _ => None
    end in
  match chars s with
  | c :: r =>
      if isSign c then
        match r with
        | y5 :: y4 :: y3 :: y2 :: y1 :: y0 :: rest =>
            let year := digitsVal 0 [y5; y4; y3; y2; y1; y0] in
            if isDash c && match year with Some 0 => true | _ => false end
            then None
            else fields (if isDash c then -1 else 1) year rest
        | _ => None
        end
      else
        match c :: r with
        | y3 :: y2 :: y1 :: y0 :: rest =>
            fields 1 (digitsVal 0 [y3; y2; y1; y0]) rest
        | _ => None
        end
  | [] => None
  end.

(** [new Date(datePart + "T00:00:00" + offset)], the offset being [Z]
    ([east = 0]) or [-04:00] ([east = -240]). *)
Definition newDate (datePart : string) (east : Z) : option Z :=
  match parseDateOnly datePart with
  | Some (y, m, d) =>
      TimeClip (MakeDate (MakeDay y (m - 1) d) 0 - east * msPerMinute)
  | None => None
  end.

(** *** Formatting *)

Definition digitChar (v : Z) : ascii := ascii_of_N (Z.to_N (48 + v mod 10)).

Definition pad2 (v : Z) : string :=
  String (digitChar (v / 10)) (String (digitChar v) EmptyString).
Definition pad3 (v : Z) : string := String (digitChar (v / 100)) (pad2 v).
Definition pad4 (v : Z) : string := String (digitChar (v / 1000)) (pad3 v).
Definition pad6 (v : Z) : string :=
  String (digitChar (v / 100000)) (String (digitChar (v / 10000)) (pad4 v)).

Definition isoYear (y : Z) : string :=
  if (0 <=? y) && (y <=? 9999) then pad4 y
  else String (if y <? 0 then "-"%char else "+"%char) (pad6 (Z.abs y)).

Definition isoDateOf (ymd : Z * Z * Z) : string :=
  let '(y, m, d) := ymd in
  isoYear y ++ String "-" (pad2 m ++ String "-" (pad2 d)).

Definition isoTimeOf (tod : Z) : string :=
  String "T" (pad2 (tod / msPerHour) ++
  String ":" (pad2 (tod mod msPerHour / msPerMinute) ++
  String ":" (pad2 (tod mod msPerMinute / msPerSecond) ++
  String "." (pad3 (tod mod msPerSecond) ++ "Z")))).

Section Local.

(** Offset of the local time zone of the process, minutes east of UTC. *)
Variable tz : Z.

Definition LocalTime (t : Z) : Z := t + tz * msPerMinute.
Definition UTC (t : Z) : Z := t - tz * msPerMinute.

Definition getDay (d : option Z) : option Z :=
  option_map (fun t => WeekDay (LocalTime t)) d.

Definition getDate (d : option Z) : option Z :=
  option_map (fun t => DateFromTime (LocalTime t)) d.

(** [d.setDate(dt)]: the new time value of [d]. *)
Definition setDate (d : option Z) (dt : option Z) : option Z :=
  match d, dt with
  | Some u, Some dt =>
      let t := LocalTime u in
      let newDate :=
        MakeDate (MakeDay (YearFromTime t) (MonthFromTime t) dt)
                 (TimeWithinDay t) in
      TimeClip (UTC newDate)
  | _, _ => None
  end.

End Local.

Definition toISOString (d : option Z) : Res string :=
  match d with
  | Some t =>
      Ok (isoDateOf (civilFromDays (Day t)) ++ isoTimeOf (TimeWithinDay t))
  | None => Throw RangeError_invalid_time
  end.

Definition getUTCFullYear (d : option Z) : option Z :=
  option_map YearFromTime d.
Definition getUTCMonth (d : option Z) : option Z :=
  option_map MonthFromTime d.
Definition getUTCDate (d : option Z) : option Z :=
  option_map DateFromTime d.

(** [String(x)] for a number that may be [NaN]. *)
Definition ofNumber (x : option Z) : string :=
  match x with
  | Some z => ofInt z
  | None => "NaN"
  end.

Definition numSub (x : option Z) (k : Z) : option Z :=
  option_map (fun v => v - k) x.
Definition numAdd (x : option Z) (k : Z) : option Z :=
  option_map (fun v => v + k) x.
Definition numIs (x : option Z) (k : Z) : bool :=
  match x with
  | Some v => v =? k
  | None => false
  end.

End JsDate.

(** ** Date helpers, the same in both versions of the handler *)

Module Dates.
Import Js JsDate.
Local Open Scope Z_scope.

(** [/^\d{4}-\d{2}-\d{2}$/.test(s)]. *)
Definition matchesDate (s : string) : bool :=
  match chars s with
  | [y3; y2; y1; y0; h; m1; m0; k; d1; d0] =>
      isDigit y3 && isDigit y2 && isDigit y1 && isDigit y0 && isDash h &&
      isDigit m1 && isDigit m0 && isDash k && isDigit d1 && isDigit d0
  | _ => false
  end.

Section Local.
Variable tz : Z.

(** [priorBizIfWeekend] (src/api/fx.js 95-101, src/API/fx.js 33-39). *)
Definition priorBizIfWeekend (iso : string) : Res string :=
  let d := newDate iso (-240) in
  let wd := getDay tz d in
  let d := if numIs wd 6 then setDate tz d (numSub (getDate tz d) 1) else d in
  let d := if numIs wd 0 then setDate tz d (numSub (getDate tz d) 2) else d in
  match toISOString d with
  | Ok s => Ok (slice0 10 s)
  | Throw e => Throw e
  end.

End Local.

(** [toMMDDYYYY] (src/api/fx.js 102-108), [mmddyyyy] of src/API/fx.js. *)
Definition toMMDDYYYY (iso : string) : string :=
  let d := newDate iso 0 in
  let mm := padStart 2 "0" (ofNumber (numAdd (getUTCMonth d) 1)) in
  let dd := padStart 2 "0" (ofNumber (getUTCDate d)) in
  let yy := ofNumber (getUTCFullYear d) in
  mm ++ "/" ++ dd ++ "/" ++ yy.

End Dates.

(** ** The upstream provider, as [fetch] sees it *)

Module Http.
Import Js.
Local Open Scope Z_scope.

(** [await resp.text()]: the body, or a rejection while reading it. *)
Inductive BodyOutcome : Type :=
| Text (csv : string)
| BodyFails (e : Thrown).

(** [await fetch(url, ...)]: a rejection (network failure) or a response.
    Every fetch settles; the source sets no timeout, and a fetch that never
    settles would leave the handler without an answer. *)
Inductive FetchOutcome : Type :=
| Rejected (e : Thrown)
| Responded (status : Z) (body : BodyOutcome).

(** [resp.ok]. *)
Definition ok (status : Z) : bool := (200 <=? status) && (status <=? 299).

Definition hexDigit (v : N) : ascii :=
  if (v <? 10)%N then ascii_of_N (48 + v) else ascii_of_N (55 + v).

Definition percent (v : N) : string :=
  String "%" (String (hexDigit (v / 16)) (String (hexDigit (v mod 16)) "")).

Definition unreserved (c : ascii) : bool :=
  isUpper c || isLower c || isDigit c ||
  includesChar c "-_.!~*'()".

(** [encodeURIComponent]; an octet above 127 is read as the Latin-1
    character of that code and escaped as its two UTF-8 bytes. *)
Fixpoint encodeURIComponent (s : string) : string :=
  match s with
  | EmptyString => EmptyString
  | String c r =>
      (if unreserved c then String c EmptyString
       else if (code c <? 128)%N then percent (code c)
       else percent (192 + code c / 64) ++ percent (128 + code c mod 64))
      ++ encodeURIComponent r
  end.

End Http.

(** ** Results and responses *)

Module Result.

Inductive Status : Type := StatusOk | StatusError.

Record SymbolResult : Type := mkResult {
  symbol : string;
  status : Status;
  close : option string;
  date : option string;
  error : option string;
  source_url : option string
}.

Definition failure (symbol msg : string) (url : option string)
  : SymbolResult :=
  mkResult symbol StatusError None None (Some msg) url.

Definition isOk (r : SymbolResult) : bool :=
  match status r with
  | StatusOk => true
  | StatusError => false
  end.

Inductive Response : Type :=
| Batch200 (cacheControl resolvedDate : string) (total ok fail : nat)
           (items : list SymbolResult)
| Plain200 (cacheControl resolvedDate : string) (items : list SymbolResult)
| ErrorReply (code : Z) (error : string).

Definition statusCode (r : Response) : Z :=
  match r with
  | Batch200 _ _ _ _ _ _ => 200
  | Plain200 _ _ _ => 200
  | ErrorReply c _ => c
  end.

Definition resolvedDateOf (r : Response) : option string :=
  match r with
  | Batch200 _ d _ _ _ _ => Some d
  | Plain200 _ d _ => Some d
  | ErrorReply _ _ => None
  end.

Definition itemsOf (r : Response) : list SymbolResult :=
  match r with
  | Batch200 _ _ _ _ _ items => items
  | Plain200 _ _ items => items
  | ErrorReply _ _ => []
  end.

(** A value of a request, by what the handlers do with it: they test it
    for truth, call [String] on it, ask whether it is an array, and call the
    methods of a string on it.  A query parameter is a string, or an array
    of strings when the name is repeated; a field of a JSON body is any JSON
    value.  [VTruthy] stands for [true], a number other than zero and an
    object, which differ here by the text [String] gives them only;
    [VNoText] is an object that [String] cannot convert, because a property
    of its own hides [toString]. *)
#[warnings="-register-all"]
Inductive Value : Type :=
| VStr (s : string)
| VArr (l : list Value)
| VNull
| VFalse
| VZero
| VTruthy (text : string)
| VNoText.

Definition TypeError_convert : Js.Thrown :=
  Js.mkThrown "Cannot convert object to primitive value"
              "TypeError: Cannot convert object to primitive value".

(** [String(v)]; an array joins the texts of its elements with commas,
    [null] counting as the empty text there. *)
Fixpoint stringOf (v : Value) : JsDate.Res string :=
  match v with
  | VStr s => JsDate.Ok s
  | VArr l =>
      (fix joined (l : list Value) : JsDate.Res string :=
         match l with
         | [] => JsDate.Ok ""
         | e :: r =>
             match (match e with
                    | VNull => JsDate.Ok ""
                    | _ => stringOf e
                    end) with
             | JsDate.Throw x => JsDate.Throw x
             | JsDate.Ok a =>
                 match r with
                 | [] => JsDate.Ok a
                 | _ :: _ =>
                     match joined r with
                     | JsDate.Throw x => JsDate.Throw x
                     | JsDate.Ok b => JsDate.Ok (a ++ "," ++ b)
                     end
                 end
             end
         end) l
  | VNull => JsDate.Ok "null"
  | VFalse => JsDate.Ok "false"
  | VZero => JsDate.Ok "0"
  | VTruthy text => JsDate.Ok text
  | VNoText => JsDate.Throw TypeError_convert
  end.

(** [arr.map(v => String(v))]: the texts of the elements, in order. *)
Fixpoint textsOf (l : list Value) : JsDate.Res (list string) :=
  match l with
  | [] => JsDate.Ok []
  | v :: r =>
      match stringOf v with
      | JsDate.Throw e => JsDate.Throw e
      | JsDate.Ok s =>
          match textsOf r with
          | JsDate.Throw e => JsDate.Throw e
          | JsDate.Ok t => JsDate.Ok (s :: t)
          end
      end
  end.

(** The request as the platform hands it over.  [None] is an absent field
    ([undefined]). *)
Record Query : Type := rawQuery {
  q_date : option Value;
  q_coverage : option Value;
  q_symbols : option Value
}.

Record Body : Type := rawBody {
  b_date : option Value;
  b_coverage : option Value;
  b_symbols : option Value
}.

(** What reading [req.body] gives: nothing, the body the platform has
    parsed, or the exception of the platform when the body cannot be
    parsed. *)
Inductive BodyRead : Type :=
| NoBody
| Parsed (b : Body)
| Unreadable (e : Js.Thrown).

Record Request : Type := rawRequest {
  method : string;
  query : Query;
  body : BodyRead
}.

(** The requests of the header comment: every parameter of the query given
    once, a body of two strings and an array of strings. *)
Definition mkQuery (date coverage symbols : option string) : Query :=
  rawQuery (option_map VStr date) (option_map VStr coverage)
           (option_map VStr symbols).

Definition mkBody (date coverage : option string)
    (symbols : option (list string)) : Body :=
  rawBody (option_map VStr date) (option_map VStr coverage)
          (option_map (fun l => VArr (map VStr l)) symbols).

Definition mkRequest (method : string) (query : Query) (body : option Body)
  : Request :=
  rawRequest method query
             (match body with
              | Some b => Parsed b
              | None => NoBody
              end).

(** [req.body?.f]. *)
Definition bodyField (f : Body -> option Value) (req : Request)
  : JsDate.Res (option Value) :=
  match body req with
  | NoBody => JsDate.Ok None
  | Parsed b => JsDate.Ok (f b)
  | Unreadable e => JsDate.Throw e
  end.

(** [!x] on a field that may be absent. *)
Definition falsy (x : option Value) : bool :=
  match x with
  | Some (VStr s) => String.eqb s ""
  | Some (VArr _) => false
  | Some (VTruthy _) => false
  | Some VNoText => false
  | Some VNull => true
  | Some VFalse => true
  | Some VZero => true
  | None => true
  end.

(** The test of the date in both handlers,
    [!date || !/^\d{4}-\d{2}-\d{2}$/.test(date)]: [None] when the test
    sends the request back, and the text of the date when it lets it
    through, which is the text the resolver adds the time of day to. *)
Definition validDate (date : option Value) : JsDate.Res (option string) :=
  if falsy date then JsDate.Ok None
  else
    match date with
    | Some v =>
        match stringOf v with
        | JsDate.Throw e => JsDate.Throw e
        | JsDate.Ok s =>
            if Dates.matchesDate s then JsDate.Ok (Some s)
            else JsDate.Ok None
        end
    | None => JsDate.Ok None
    end.

(** The [TypeError] of a call of something that is no function; [what] is
    the text of the callee as the engine prints it. *)
Definition notAFunction (what : string) : Js.Thrown :=
  Js.mkThrown (what ++ " is not a function")
              ("TypeError: " ++ what ++ " is not a function").

(** A text between double quotes. *)
Definition quoted (s : string) : string :=
  String "034" (s ++ String "034" EmptyString).

(** [/^[A-Z]{6}$/.test(s)]. *)
Definition sixLetters (s : string) : bool :=
  match Js.chars s with
  | [a; b; c; d; e; f] =>
      Js.isUpper a && Js.isUpper b && Js.isUpper c &&
      Js.isUpper d && Js.isUpper e && Js.isUpper f
  | _ => false
  end.

Definition nonEmpty (s : string) : bool := negb (String.eqb s "").

Definition downloadURL (symbol mdy : string) : string :=
  "https://www.wsj.com/market-data/quotes/FX/" ++ symbol ++
  "/historical-prices/download" ++
  "?startDate=" ++ Http.encodeURIComponent mdy ++
  "&endDate=" ++ Http.encodeURIComponent mdy ++ "&num_rows=50".

End Result.

(** ** [src/api/fx.js]: the batch handler *)

Module Batch.
Import Js JsDate Dates Http Csv Result.

Definition DEFAULT_SEED : list string :=
  ["EURUSD";"GBPUSD";"AUDUSD";"NZDUSD";"JPYUSD";"CADUSD";"CHFUSD";"SEKUSD";
   "NOKUSD";"DKKUSD";
   "MXNUSD";"BRLUSD";"CNYUSD";"KRWUSD";"INRUSD";"ZARUSD";"TRYUSD";"PLNUSD";
   "HUFUSD";"CZKUSD";
   "ILSUSD";"AEDUSD";"SARUSD";"CLPUSD";"COPUSD";"PENUSD";"ARSUSD";"THBUSD";
   "PHPUSD";"MYRUSD";
   "IDRUSD";"TWDUSD";"SGDUSD";"HKDUSD";"RONUSD";"BGNUSD";"QARUSD";"MADUSD";
   "AOAUSD";"VNDUSD";
   "GHSUSD";"NGNUSD"].

(** What [symbols] can hold after line 36 or 41: an array, or the object
    that a property inherited from [Object.prototype] evaluates to. *)
Inductive Symbols : Type :=
| Arr (l : list string)
| NotArray.

Definition COVERAGE_full : list string := DEFAULT_SEED.

(** [COVERAGE[k] || COVERAGE.full].  [COVERAGE] is an object literal, so
    besides its own three keys the lookup finds the properties it inherits:
    of those, [constructor] and [__proto__] are the ones spelled in lower
    case, which is what [k] is. *)
Definition COVERAGE_or_full (k : string) : Symbols :=
  if String.eqb k "majors" then
    Arr ["EURUSD";"GBPUSD";"JPYUSD";"AUDUSD";"NZDUSD";"CADUSD";"CHFUSD";
         "CNYUSD";"SEKUSD";"NOKUSD"]
  else if String.eqb k "extended" then Arr (firstn 30 DEFAULT_SEED)
  else if String.eqb k "full" then Arr COVERAGE_full
  else if String.eqb k "constructor" || String.eqb k "__proto__"
       then NotArray
  else Arr COVERAGE_full.

Definition TypeError_map : Thrown :=
  mkThrown "(symbols || []).map is not a function"
           "TypeError: (symbols || []).map is not a function".

(** [clean], line 93, on the texts [String(v)] of the elements. *)
Definition clean (arr : list string) : list string :=
  filter nonEmpty (map trim arr).

(** [parseSymbolList], lines 89-92; [split] is a method of strings only. *)
Definition parseSymbolList (s : option Value) : Res (option (list string)) :=
  if falsy s then Ok None
  else
    match s with
    | Some (VStr t) => Ok (Some (clean (split "," t)))
    | _ => Throw (notAFunction "s.split")
    end.

(** [(c || "full").toLowerCase()], lines 34 and 39, [what] being the text of
    [c] in the source; [toLowerCase] is a method of strings only. *)
Definition coverageOf (what : string) (c : option Value) : Res string :=
  if falsy c then Ok (toLowerCase "full")
  else
    match c with
    | Some (VStr s) => Ok (toLowerCase s)
    | _ =>
        Throw (notAFunction
                 ("(" ++ what ++ " || " ++ quoted "full" ++ ").toLowerCase"))
    end.

(** [Array.isArray(v) ? clean(v) : null], line 40. *)
Definition cleanIfArray (v : option Value) : Res (option (list string)) :=
  match v with
  | Some (VArr l) =>
      let* texts := textsOf l in
      Ok (Some (clean texts))
  | _ => Ok None
  end.

(** Lines 36 and 41. *)
Definition orCoverage (symbols : option (list string)) (coverage : string)
  : Symbols :=
  match symbols with
  | Some ((_ :: _) as l) => Arr l
  | _ => COVERAGE_or_full coverage
  end.

(** Lines 32-44: the date and the symbols of a request, [None] for a method
    that is neither GET nor POST.  The coverage is read before the symbols,
    and both before the date is looked at. *)
Definition parseInput (req : Request) : Res (option (option Value * Symbols)) :=
  if String.eqb (method req) "GET" then
    let date := q_date (query req) in
    let* coverage :=
      coverageOf "req.query.coverage" (q_coverage (query req)) in
    let* symbols := parseSymbolList (q_symbols (query req)) in
    Ok (Some (date, orCoverage symbols coverage))
  else if String.eqb (method req) "POST" then
    let* date := bodyField b_date req in
    let* c := bodyField b_coverage req in
    let* coverage := coverageOf "req.body?.coverage" c in
    let* s := bodyField b_symbols req in
    let* symbols := cleanIfArray s in
    Ok (Some (date, orCoverage symbols coverage))
  else Ok None.

Definition normalize (s : string) : string := trim (toUpperCase s).

(** [fetchWSJ] (lines 110-155) with the result of its [fetch] call as a
    function of the URL; the second component lists the URLs requested. *)
Definition fetchWSJ (fetch : string -> FetchOutcome)
    (symbolRaw mdy iso : string) : SymbolResult * list string :=
  let symbol := normalize symbolRaw in
  if negb (sixLetters symbol) then
    (failure symbol "invalid symbol" None, [])
  else if negb (endsWith "USD" symbol) then
    (failure symbol "not XXXUSD (reciprocals disabled)" None, [])
  else
    let url := downloadURL symbol mdy in
    (match fetch url with
     | Rejected e => failure symbol (describe e) (Some url)
     | Responded st body =>
         if negb (ok st) then
           failure symbol ("HTTP " ++ ofInt st) (Some url)
         else
           match body with
           | BodyFails e => failure symbol (describe e) (Some url)
           | Text csv =>
               match parseWSJCSV csv iso with
               | None => failure symbol "row not found" (Some url)
               | Some parsed =>
                   mkResult symbol StatusOk (Some (p_close parsed))
                            (Some (p_date parsed)) None (Some url)
               end
           end
     end, [url]).

(** *** The worker pool of lines 54-72 *)

Definition CONCURRENCY : nat := 6.

(** A call of [runOne]: its place in the request and its symbol. *)
Record Task : Type := mkTask { t_id : nat; t_sym : string }.

(** A promise [p] of [running]: the call of [runOne] behind it, and whether
    that call has pushed its result.  The promise leaves [running] in the
    [finally] callback, which runs after the push. *)
Record Promise : Type := mkPromise { p_task : Task; p_pushed : bool }.

(** Where the handler stands: in the refill loop of lines 66-70, or
    suspended at the [await] of line 71, where [woken] says that a promise
    of [running] has settled. *)
Inductive Phase : Type :=
| Fill
| Await (woken : bool).

Record Pool : Type := mkPool {
  queue : list string;
  nextId : nat;
  running : list Promise;
  results : list SymbolResult;
  fetched : list string;
  phase : Phase
}.

Definition initial (queue : list string) : Pool :=
  mkPool queue 0 [] [] [] Fill.

(** The loop is left when both tests of line 65 fail. *)
Definition finished (p : Pool) : Prop :=
  phase p = Fill /\ queue p = [] /\ running p = [].

Section Run.

(** What the [n]-th call of [fetch] of a request resolves to. *)
Variable upstream : nat -> string -> FetchOutcome.
Variables mdy resolvedISO : string.

Definition runOne (t : Task) : SymbolResult :=
  fst (fetchWSJ (upstream (t_id t)) (t_sym t) mdy resolvedISO).

Definition requests (t : Task) : list string :=
  snd (fetchWSJ (upstream (t_id t)) (t_sym t) mdy resolvedISO).

(** One step of the loop.  A launch calls [fetchWSJ] up to its [fetch] and
    adds the promise.  While the handler is suspended, a running call
    pushes its result, and later its promise is deleted from [running],
    which wakes the handler; any number of pushes and deletions happen
    before the handler resumes. *)
Inductive step : Pool -> Pool -> Prop :=
| step_launch sym q n r res f :
    (List.length r < CONCURRENCY)%nat ->
    step (mkPool (sym :: q) n r res f Fill)
         (mkPool q (S n) (r ++ [mkPromise (mkTask n sym) false]) res
                 (f ++ requests (mkTask n sym)) Fill)
| step_wait q n r res f :
    ~ (q <> [] /\ (List.length r < CONCURRENCY)%nat) ->
    r <> [] ->
    step (mkPool q n r res f Fill) (mkPool q n r res f (Await false))
| step_push q n r1 t r2 res f w :
    step (mkPool q n (r1 ++ mkPromise t false :: r2) res f (Await w))
         (mkPool q n (r1 ++ mkPromise t true :: r2) (res ++ [runOne t]) f
                 (Await w))
| step_delete q n r1 t r2 res f w :
    step (mkPool q n (r1 ++ mkPromise t true :: r2) res f (Await w))
         (mkPool q n (r1 ++ r2) res f (Await true))
| step_resume q n r res f :
    step (mkPool q n r res f (Await true)) (mkPool q n r res f Fill).

Inductive steps : Pool -> Pool -> Prop :=
| steps_refl p : steps p p
| steps_step p1 p2 p3 : steps p1 p2 -> step p2 p3 -> steps p1 p3.

(** The same loop run by a scheduler: while the handler waits, [pick]
    chooses the promise that moves on, to its push or, once pushed, to its
    deletion.  [None] when no step is left. *)
Definition advance (pick : nat) (p : Pool) : option Pool :=
  match phase p with
  | Fill =>
      match queue p with
      | sym :: q =>
          if (List.length (running p) <? CONCURRENCY)%nat then
            let t := mkTask (nextId p) sym in
            Some (mkPool q (S (nextId p))
                         (running p ++ [mkPromise t false]) (results p)
                         (fetched p ++ requests t) Fill)
          else
            Some (mkPool (queue p) (nextId p) (running p) (results p)
                         (fetched p) (Await false))
      | [] =>
          match running p with
          | [] => None
          | _ :: _ =>
              Some (mkPool (queue p) (nextId p) (running p) (results p)
                           (fetched p) (Await false))
          end
      end
  | Await false =>
      let i := (pick mod List.length (running p))%nat in
      match nth_error (running p) i with
      | Some (mkPromise t false) =>
          Some (mkPool (queue p) (nextId p)
                       (firstn i (running p) ++
                        mkPromise t true :: skipn (S i) (running p))
                       (results p ++ [runOne t]) (fetched p) (Await false))
      | Some (mkPromise t true) =>
          Some (mkPool (queue p) (nextId p)
                       (firstn i (running p) ++ skipn (S i) (running p))
                       (results p) (fetched p) (Await true))
      | None => None
      end
  | Await true =>
      Some (mkPool (queue p) (nextId p) (running p) (results p)
                   (fetched p) Fill)
  end.

Fixpoint runPool (fuel : nat) (sched : list nat) (p : Pool) : Pool :=
  match fuel with
  | O => p
  | S k =>
      match advance (hd O sched) p with
      | None => p
      | Some p' =>
          runPool k (match phase p with
                     | Await false => tl sched
                     | _ => sched
                     end) p'
      end
  end.

End Run.

(** *** The response of lines 74-81 *)

Section Respond.

(** [a.localeCompare(b)], by its sign.  The collation is that of the
    default locale of the engine. *)
Variable localeCompare : string -> string -> comparison.

Definition before (a b : SymbolResult) : bool :=
  match localeCompare (symbol a) (symbol b) with
  | Gt => false
  | _ => true
  end.

Fixpoint insert (x : SymbolResult) (l : list SymbolResult)
  : list SymbolResult :=
  match l with
  | [] => [x]
  | y :: r => if before x y then x :: l else y :: insert x r
  end.

(** [Array.prototype.sort] is stable; insertion from the right is. *)
Definition sort (l : list SymbolResult) : list SymbolResult :=
  fold_right insert [] l.

Definition respond (resolvedISO : string) (symbols : list string)
    (results : list SymbolResult) : Response :=
  Batch200 "no-store" resolvedISO
           (List.length symbols)
           (List.length (filter isOk results))
           (List.length (filter (fun r => negb (isOk r)) results))
           (sort results).

Variable tz : Z.

(** What the handler has decided before the first [fetch]: a reply, or the
    batch to run. *)
Inductive Prepared : Type :=
| Reply (code : Z) (error : string)
| Fanout (resolvedISO mdy : string) (symbols : list string).

Definition prepare (req : Request) : Prepared :=
  match parseInput req with
  | Throw e => Reply 500 (describe e)
  | Ok None => Reply 405 "Use GET or POST"
  | Ok (Some (date, symbols)) =>
      match validDate date with
      | Throw e => Reply 500 (describe e)
      | Ok None => Reply 400 "date must be YYYY-MM-DD"
      | Ok (Some date) =>
          match priorBizIfWeekend tz date with
          | Throw e => Reply 500 (describe e)
          | Ok resolvedISO =>
              match symbols with
              | NotArray => Reply 500 (describe TypeError_map)
              | Arr l => Fanout resolvedISO (toMMDDYYYY resolvedISO) l
              end
          end
      end
  end.

Variable upstream : nat -> string -> FetchOutcome.

(** A run of the handler: its response and the URLs it has requested. *)
Inductive handler (req : Request) : Response -> list string -> Prop :=
| handler_reply code msg :
    prepare req = Reply code msg ->
    handler req (ErrorReply code msg) []
| handler_batch iso mdy symbols p :
    prepare req = Fanout iso mdy symbols ->
    steps upstream mdy iso (initial (map normalize symbols)) p ->
    finished p ->
    handler req (respond iso symbols (results p)) (fetched p).

(** The handler under a scheduler. *)
Definition serve (sched : list nat) (req : Request)
  : Response * list string :=
  match prepare req with
  | Reply code msg => (ErrorReply code msg, [])
  | Fanout iso mdy symbols =>
      let p := runPool upstream mdy iso (5 * List.length symbols + 1) sched
                       (initial (map normalize symbols)) in
      (respond iso symbols (results p), fetched p)
  end.

End Respond.

End Batch.

(** ** [src/API/fx.js]: the handler that fetches every symbol at once *)

Module Simple.
Import Js JsDate Dates Http Result.

(** Lines 10-19.  The symbols of a GET are strings; those of a POST are the
    elements of the array as they are, and [fetchWSJ] calls [String] on
    them. *)
Definition parseInput (req : Request)
  : Res (option (option Value * list Value)) :=
  if String.eqb (method req) "GET" then
    let s := q_symbols (query req) in
    if falsy s then
      Ok (Some (q_date (query req),
                map VStr (filter nonEmpty (map trim (split "," "")))))
    else
      match s with
      | Some (VStr t) =>
          Ok (Some (q_date (query req),
                    map VStr (filter nonEmpty (map trim (split "," t)))))
      | _ => Throw (notAFunction "s.split")
      end
  else if String.eqb (method req) "POST" then
    let* date := bodyField b_date req in
    let* s := bodyField b_symbols req in
    Ok (Some (date, match s with
                    | Some (VArr l) => l
                    | _ => []
                    end))
  else Ok None.

(** [s.slice(-2)]. *)
Definition lastTwo (s : string) : string :=
  substring (String.length s - 2) 2 s.

(** [mmddyy], lines 47-53. *)
Definition mmddyy (iso : string) : string :=
  let d := newDate iso 0 in
  let mm := padStart 2 "0" (ofNumber (numAdd (getUTCMonth d) 1)) in
  let dd := padStart 2 "0" (ofNumber (getUTCDate d)) in
  let yy := lastTwo (ofNumber (getUTCFullYear d)) in
  mm ++ "/" ++ dd ++ "/" ++ yy.

Definition normalize (s : string) : string := trim (toUpperCase s).

(** [fetchWSJ], lines 60-101, with the dates it closes over as arguments. *)
Definition fetchWSJ (fetch : string -> FetchOutcome)
    (d_mdy d_mdy_short symbolRaw : string) : SymbolResult * list string :=
  let symbol := normalize symbolRaw in
  if negb (sixLetters symbol) then
    (failure symbol "invalid symbol" None, [])
  else if negb (endsWith "USD" symbol) then
    (failure symbol "not XXXUSD (reciprocals disabled)" None, [])
  else
    let url := downloadURL symbol d_mdy in
    (match fetch url with
     | Rejected e => failure symbol (asString e) (Some url)
     | Responded st body =>
         if negb (ok st) then
           failure symbol ("HTTP " ++ ofInt st) (Some url)
         else
           match body with
           | BodyFails e => failure symbol (asString e) (Some url)
           | Text t =>
               let lines := filter nonEmpty (splitLines (trim t)) in
               let row :=
                 find (fun line => startsWith (d_mdy_short ++ ",") line ||
                                   startsWith (d_mdy ++ ",") line) lines in
               match row with
               | None => failure symbol "date row missing" (Some url)
               | Some row =>
                   match nth_error (split "," row) 4 with
                   | Some close =>
                       if String.eqb close "" || isNaN_parseFloat close then
                         failure symbol "close parse failed" (Some url)
                       else
                         mkResult symbol StatusOk (Some close) None None
                                  (Some url)
                   | None => failure symbol "close parse failed" (Some url)
                   end
               end
           end
     end, [url]).

Fixpoint mapFrom {A B : Type} (i : nat) (f : nat -> A -> B) (l : list A)
  : list B :=
  match l with
  | [] => []
  | x :: r => f i x :: mapFrom (S i) f r
  end.

(** A call [fetchWSJ(s)] on an element of [symbols]: the [String] of line
    60 runs before anything else, and the promise is rejected when it
    throws. *)
Definition call (fetch : string -> FetchOutcome) (d_mdy d_mdy_short : string)
    (s : Value) : Res SymbolResult * list string :=
  match stringOf s with
  | Throw e => (Throw e, [])
  | Ok symbolRaw =>
      (Ok (fst (fetchWSJ fetch d_mdy d_mdy_short symbolRaw)),
       snd (fetchWSJ fetch d_mdy d_mdy_short symbolRaw))
  end.

(** [Promise.all]: the values of the promises in their order, or the
    reason of the first one that is rejected. *)
Fixpoint all {A : Type} (l : list (Res A)) : Res (list A) :=
  match l with
  | [] => Ok []
  | Throw e :: _ => Throw e
  | Ok a :: r =>
      match all r with
      | Throw e => Throw e
      | Ok t => Ok (a :: t)
      end
  end.

Section Handler.
Variable tz : Z.
Variable upstream : nat -> string -> FetchOutcome.

(** The handler; [Promise.all] keeps the results in the order of the
    request, and every [fetch] is issued before the first one settles,
    also when a call is rejected at once. *)
Definition handler (req : Request) : Response * list string :=
  match parseInput req with
  | Throw e => (ErrorReply 500 (asString e), [])
  | Ok None => (ErrorReply 405 "Use GET or POST", [])
  | Ok (Some (date, symbols)) =>
      match validDate date with
      | Throw e => (ErrorReply 500 (asString e), [])
      | Ok None => (ErrorReply 400 "date must be YYYY-MM-DD", [])
      | Ok (Some date) =>
        match symbols with
        | [] => (ErrorReply 400 "symbols[] required", [])
        | _ :: _ =>
            match priorBizIfWeekend tz date with
            | Throw e => (ErrorReply 500 (asString e), [])
            | Ok iso =>
                let outs :=
                  mapFrom 0 (fun i s => call (upstream i) (toMMDDYYYY iso)
                                             (mmddyy iso) s)
                          symbols in
                (match all (map fst outs) with
                 | Throw e => ErrorReply 500 (asString e)
                 | Ok items =>
                     Plain200 "s-maxage=120, stale-while-revalidate=300" iso
                              items
                 end,
                 List.concat (map snd outs))
            end
        end
      end
  end.

End Handler.

End Simple.

(** ** The properties, in the words of the specification *)

Module CsvSpec.
Import Js Csv.

(** Position of the first header cell that reads [name] once trimmed and
    put in lower case. *)
Fixpoint columnOf (name : string) (header : list string) : option nat :=
  match header with
  | [] => None
  | c :: r =>
      if String.eqb (toLowerCase (trim c)) name then Some O
      else option_map S (columnOf name r)
  end.

(** The date of a row, normalised to ISO. *)
Definition normalisedDate (iDate : nat) (line : string) : option string :=
  match nth_error (cells line) iDate with
  | Some raw => rowISO raw
  | None => None
  end.

Definition dated (iDate : nat) (target line : string) : bool :=
  match normalisedDate iDate line with
  | Some iso => String.eqb iso target
  | None => false
  end.

(** The row has a cell in both columns. *)
Definition wide (iDate iClose : nat) (line : string) : bool :=
  (Nat.max iDate iClose + 1 <=? List.length (cells line))%nat.

(** The close of the chosen row: not-found when there is no row, when the
    cell is missing, empty, or not a number. *)
Definition closeOf (iClose : nat) (target : string) (row : option string)
  : option Parsed :=
  match row with
  | Some line =>
      match nth_error (cells line) iClose with
      | Some c =>
          if String.eqb c "" || isNaN_Number c then None
          else Some (mkParsed target c)
      | None => None
      end
  | None => None
  end.

(** "The first row whose normalized date equals the target is taken." *)
Definition firstDated (iDate iClose : nat) (target : string)
    (rows : list string) : option Parsed :=
  closeOf iClose target (find (dated iDate target) rows).

(** The same among the rows that have a cell in both columns. *)
Definition firstWideDated (iDate iClose : nat) (target : string)
    (rows : list string) : option Parsed :=
  closeOf iClose target
    (find (fun line => wide iDate iClose line && dated iDate target line)
          rows).

(** Header cells and data rows of a text that holds a line feed. *)
Definition table (csv : string) : option (list string * list string) :=
  if includesChar LF csv then
    match splitLines (trim csv) with
    | head :: rows => Some (split "," head, rows)
    | [] => None
    end
  else None.

Definition matcher
    (pick : nat -> nat -> string -> list string -> option Parsed)
    (csv target : string) : option Parsed :=
  match table csv with
  | Some (header, rows) =>
      match columnOf "date" header, columnOf "close" header with
      | Some iDate, Some iClose => pick iDate iClose target rows
      | _, _ => None
      end
  | None => None
  end.

(** The year of a row: two digits go to 19xx above 50, else to 20xx. *)
Definition pivotYear (yy : string) : string :=
  match chars yy with
  | [a; b] =>
      (if (50 <? 10 * JsDate.digitVal a + JsDate.digitVal b)%Z
       then "19" else "20") ++ yy
  | _ => yy
  end.

(** If the year has two characters, they are digits. *)
Definition twoCharsAreDigits (yy : string) : Prop :=
  match chars yy with
  | [a; b] => isDigit a = true /\ isDigit b = true
  | _ => True
  end.

Definition nl : string := String LF EmptyString.

Definition sample : string :=
  "Date,Open,High,Low,Close,Volume" ++ nl ++
  "06/07/24,1.08,1.09,1.07,1.085,1000".

Definition sampleNA : string :=
  "Date,Open,High,Low,Close,Volume" ++ nl ++
  "06/07/24,1.08,1.09,1.07,N/A,1000".

Definition sampleNoClose : string :=
  "Date,Open,High,Low,Close,Volume" ++ nl ++
  "06/07/24,1.08,1.09,1.07,,1000".

(** The columns in another order and another case. *)
Definition sampleShuffled : string :=
  "VOLUME, Close ,low,high,open,DATE" ++ nl ++
  "1000,1.085,1.07,1.09,1.08,06/07/2024".

(** A short row for the wanted date, then a full one. *)
Definition sampleShortRow : string :=
  "Date,Close" ++ nl ++ "06/07/24" ++ nl ++ "06/07/24,1.085".

End CsvSpec.

Module DateSpec.
Import Js JsDate Dates.
Local Open Scope Z_scope.

Definition isLeap (y : Z) : bool :=
  ((y mod 4 =? 0) && negb (y mod 100 =? 0)) || (y mod 400 =? 0).

Definition daysInMonth (y m : Z) : Z :=
  if m =? 2 then (if isLeap y then 29 else 28)
  else if (m =? 4) || (m =? 6) || (m =? 9) || (m =? 11) then 30
  else 31.

(** The calendar as ECMAScript defines it: the day number of the first day
    of a year, and the day within the year of the first day of a month. *)
Definition DayFromYear (y : Z) : Z :=
  365 * (y - 1970) + (y - 1969) / 4 - (y - 1901) / 100 + (y - 1601) / 400.

Definition monthStart (leap : bool) (m : Z) : Z :=
  if m =? 1 then 0
  else if m =? 2 then 31
  else (if leap then 1 else 0) +
       (if m =? 3 then 59 else if m =? 4 then 90 else if m =? 5 then 120
        else if m =? 6 then 151 else if m =? 7 then 181
        else if m =? 8 then 212 else if m =? 9 then 243
        else if m =? 10 then 273 else if m =? 11 then 304 else 334).

(** The day number of an ISO date [YYYY-MM-DD] of the calendar. *)
Definition isoDay (s : string) : option Z :=
  if matchesDate s then
    match parseDateOnly s with
    | Some (y, m, d) =>
        if d <=? daysInMonth y m then Some (daysFromCivil y m d) else None
    | None => None
    end
  else None.

(** The ISO date of a day number. *)
Definition isoOfDay (n : Z) : string := isoDateOf (civilFromDays n).

(** 0 is Sunday, 6 is Saturday. *)
Definition weekday (n : Z) : Z := (n + 4) mod 7.

(** Days to go back: one from a Saturday, two from a Sunday. *)
Definition rollback (wd : Z) : Z :=
  if wd =? 6 then 1 else if wd =? 0 then 2 else 0.

(** 0000-01-01 and 9999-12-31. *)
Definition firstDay : Z := -719528.
Definition lastDay : Z := 2932896.

(** Days between the date of the request and the local date the resolver
    looks at: the request is read as midnight at UTC-4. *)
Definition localShift (tz : Z) : Z :=
  (240 + tz) * msPerMinute / msPerDay.

(** Offsets of the time zones in use, in minutes: UTC-12 to UTC+14. *)
Definition zone (tz : Z) : Prop := -720 <= tz <= 840.

End DateSpec.

Module PoolSpec.
Import Http Result Batch.

(** The calls of [runOne] a queue gives rise to, numbered from [i]. *)
Fixpoint tasksFrom (i : nat) (l : list string) : list Task :=
  match l with
  | [] => []
  | s :: r => mkTask i s :: tasksFrom (S i) r
  end.

Section Run.
Variable upstream : nat -> string -> FetchOutcome.
Variables mdy resolvedISO : string.

(** The result of every task of a request, in the order of the request. *)
Definition perTask (symbols : list string) : list SymbolResult :=
  map (runOne upstream mdy resolvedISO) (tasksFrom 0 (map normalize symbols)).

(** The running calls that have not pushed their result. *)
Definition fetching (r : list Promise) : list Task :=
  map p_task (filter (fun p => negb (p_pushed p)) r).

(** The results still to come: of the running calls and of the queue. *)
Definition outstanding (p : Pool) : list SymbolResult :=
  map (runOne upstream mdy resolvedISO) (fetching (running p)) ++
  map (runOne upstream mdy resolvedISO) (tasksFrom (nextId p) (queue p)).

(** The running calls that have a request at the provider. *)
Definition attempted (t : Task) : bool :=
  match requests upstream mdy resolvedISO t with
  | [] => false
  | _ :: _ => true
  end.

Definition inFlight (p : Pool) : list Task :=
  filter attempted (fetching (running p)).

End Run.

(** A bound on the steps a pool has left. *)
Fixpoint load (r : list Promise) : nat :=
  match r with
  | [] => 0
  | p :: r' => (if p_pushed p then 3 else 4) + load r'
  end.

Definition weight (p : Pool) : nat :=
  5 * List.length (queue p) + load (running p) +
  match phase p with
  | Fill => 1
  | Await false => 0
  | Await true => 2
  end.

(** The handler only waits for promises that exist. *)
Definition waitsForSome (p : Pool) : Prop :=
  phase p = Await false -> running p <> [].

(** Twenty symbols, for the example of the specification. *)
Definition twenty : list string := firstn 20 DEFAULT_SEED.

End PoolSpec.

Module SortSpec.
Import Result.

Section Order.
Variable localeCompare : string -> string -> comparison.

(** A consistent comparator, as [Array.prototype.sort] wants it. *)
Definition consistent : Prop :=
  (forall a b, localeCompare b a = CompOpp (localeCompare a b)) /\
  (forall a b c, localeCompare a b <> Gt -> localeCompare b c <> Gt ->
                 localeCompare a c <> Gt).

(** [a] may stand before [b]. *)
Definition ordered (a b : SymbolResult) : Prop :=
  localeCompare (symbol a) (symbol b) <> Gt.

(** The comparator does not tell the symbols of [a] and [b] apart. *)
Definition tied (a b : SymbolResult) : Prop :=
  localeCompare (symbol a) (symbol b) = Eq.

(** The comparator tells apart the different symbols of the items. *)
Definition separates (items : list SymbolResult) : Prop :=
  forall a b, In a items -> In b items ->
              localeCompare (symbol a) (symbol b) = Eq ->
              symbol a = symbol b.

(** On the symbols of the items the comparator is the order of the code
    units, [String.compare]. *)
Definition byCodeUnits (items : list SymbolResult) : Prop :=
  forall a b, In a items -> In b items ->
              localeCompare (symbol a) (symbol b) =
              String.compare (symbol a) (symbol b).

End Order.

(** The item is a result for the symbol [s]. *)
Definition hasSymbol (s : string) (r : SymbolResult) : bool :=
  String.eqb (symbol r) s.

End SortSpec.

Module RequestSpec.
Import Dates Result.

(** The date of a request: of the query for GET, of the body otherwise. *)
Definition requestDate (req : Request) : option Value :=
  if String.eqb (method req) "GET" then q_date (query req)
  else match body req with
       | Parsed b => b_date b
       | _ => None
       end.

(** The date is missing, or it is a value that counts as false, or its
    text does not match the pattern. *)
Definition dateRejected (d : option Value) : bool :=
  match d with
  | Some v =>
      falsy d ||
      match stringOf v with
      | JsDate.Ok s => negb (matchesDate s)
      | JsDate.Throw _ => false
      end
  | None => true
  end.

(** The exception of the platform, when the body of a POST cannot be
    read. *)
Definition bodyError (req : Request) : option Js.Thrown :=
  if String.eqb (method req) "POST" then
    match body req with
    | Unreadable e => Some e
    | _ => None
    end
  else None.

(** The array a POST holds as its symbols. *)
Definition postedSymbols (req : Request) : option (list Value) :=
  if String.eqb (method req) "POST" then
    match body req with
    | Parsed b =>
        match b_symbols b with
        | Some (VArr l) => Some l
        | _ => None
        end
    | _ => None
    end
  else None.

Definition getOrPost (req : Request) : bool :=
  String.eqb (method req) "GET" || String.eqb (method req) "POST".

(** The coverage of a request: of the query for GET, of the body
    otherwise. *)
Definition coverageField (req : Request) : option Value :=
  if String.eqb (method req) "GET" then q_coverage (query req)
  else match body req with
       | Parsed b => b_coverage b
       | _ => None
       end.

(** The [TypeError] of line 34 or 39, when the coverage has no method
    [toLowerCase]. *)
Definition coverageError (req : Request) : Js.Thrown :=
  notAFunction
    ("(" ++ (if String.eqb (method req) "GET" then "req.query.coverage"
             else "req.body?.coverage")
         ++ " || " ++ quoted "full" ++ ").toLowerCase").

(** The symbols a GET holds in its query. *)
Definition symbolsField (req : Request) : option Value :=
  if String.eqb (method req) "GET" then q_symbols (query req) else None.

(** A field on which the methods of a string can be called after
    [x || dflt]: it is absent, falsy or a string.  An array, which a
    parameter of the query given twice is, is none, nor is a number or an
    object of a body. *)
Definition stringOrFalsy (c : option Value) : bool :=
  match c with
  | Some (VArr _) => false
  | Some (VTruthy _) => false
  | Some VNoText => false
  | _ => true
  end.

(** Every value of the list has a text. *)
Definition printable (l : list Value) : bool :=
  match textsOf l with
  | JsDate.Ok _ => true
  | JsDate.Throw _ => false
  end.

(** The requests that lines 32-44 of [src/api/fx.js] cannot read: the body
    of a POST cannot be parsed, the coverage is neither absent nor a
    string, the symbols of a GET are neither absent nor a string, or an
    element of the symbols of a POST has no text. *)
Definition malformed (req : Request) : bool :=
  match bodyError req with
  | Some _ => true
  | None =>
      negb (stringOrFalsy (coverageField req)) ||
      negb (stringOrFalsy (symbolsField req)) ||
      match postedSymbols req with
      | Some l => negb (printable l)
      | None => false
      end
  end.

(** The requests that lines 10-16 of [src/API/fx.js] cannot read: the body
    of a POST cannot be parsed, or the symbols of a GET are neither absent
    nor a string. *)
Definition malformedSimple (req : Request) : bool :=
  match bodyError req with
  | Some _ => true
  | None => negb (stringOrFalsy (symbolsField req))
  end.

End RequestSpec.

(** A provider and a request for the examples: the first fetch finds the
    row, the second is refused, the third fails, the others find a row
    without a close. *)
Module Samples.
Import Js Http Result CsvSpec.

Definition sampleUpstream (n : nat) (url : string) : FetchOutcome :=
  match n with
  | 0%nat => Responded 200 (Text sample)
  | 1%nat => Responded 403 (Text "")
  | 2%nat => Rejected (mkThrown "fetch failed" "TypeError: fetch failed")
  | _ => Responded 200 (Text sampleNA)
  end.

Definition sampleRequest : Request :=
  mkRequest "GET"
    (mkQuery (Some "2024-06-08") None
             (Some "eurusd, GBPUSD,USDEUR,EU,,CADUSD,JPYUSD,eurusd"))
    None.

(** Two symbols in descending order. *)
Definition descendingRequest : Request :=
  mkRequest "GET" (mkQuery (Some "2024-06-07") None (Some "GBPUSD,EURUSD"))
            None.

(** A symbol asked for twice, in two spellings. *)
Definition repeatedRequest : Request :=
  mkRequest "GET"
    (mkQuery (Some "2024-06-07") None (Some "EURUSD,EU,eurusd")) None.

(** A symbol with an underscore beside the one without. *)
Definition underscoreRequest : Request :=
  mkRequest "GET"
    (mkQuery (Some "2024-06-07") None (Some "EURUSD,EUR_USD")) None.

(** A collation that, as the root collation of ICU does, puts the
    underscore before the letters: the texts are compared by code unit
    after every underscore has been turned into a space. *)
Fixpoint weigh (s : string) : string :=
  match s with
  | EmptyString => EmptyString
  | String c r => String (if Ascii.eqb c "_" then " "%char else c) (weigh r)
  end.

Definition underscoreFirst (a b : string) : comparison :=
  String.compare (weigh a) (weigh b).

(** A date with slashes, and the parameter [coverage] given twice. *)
Definition twiceCoverageRequest : Request :=
  mkRequest "GET"
    (rawQuery (Some (VStr "06/07/2024"))
              (Some (VArr [VStr "majors"; VStr "full"])) None)
    None.

(** A date with slashes, and the parameter [symbols] given twice. *)
Definition twiceSymbolsRequest : Request :=
  mkRequest "GET"
    (rawQuery (Some (VStr "06/07/2024")) None
              (Some (VArr [VStr "EURUSD"; VStr "GBPUSD"])))
    None.

(** A provider that always answers with the same text. *)
Definition always (csv : string) (n : nat) (url : string) : FetchOutcome :=
  Responded 200 (Text csv).

End Samples.

(** ** Further properties of the two handlers: the words they are stated in *)

Module InputSpec.
Import Js JsDate Result Batch RequestSpec.

(** The symbols a request gives, before any coverage is looked at: lines 35
    and 40. *)
Definition givenSymbols (req : Request) : Res (option (list string)) :=
  if String.eqb (method req) "GET" then
    parseSymbolList (q_symbols (query req))
  else if String.eqb (method req) "POST" then
    let* s := bodyField b_symbols req in
    cleanIfArray s
  else Ok None.

(** The request gives no symbol. *)
Definition noSymbols (req : Request) : Prop :=
  givenSymbols req = Ok None \/ givenSymbols req = Ok (Some []).

(** The same request with another coverage, in the query and in the body. *)
Definition withCoverage (c : option Value) (req : Request) : Request :=
  rawRequest (method req)
             (rawQuery (q_date (query req)) c (q_symbols (query req)))
             (match body req with
              | Parsed b => Parsed (rawBody (b_date b) c (b_symbols b))
              | other => other
              end).

(** The coverage of a request as line 34 or 39 reads it. *)
Definition requestCoverage (req : Request) : Res string :=
  if String.eqb (method req) "GET" then
    coverageOf "req.query.coverage" (q_coverage (query req))
  else
    let* c := bodyField b_coverage req in
    coverageOf "req.body?.coverage" c.

(** The names [COVERAGE] inherits from [Object.prototype] that a lower-case
    key can spell. *)
Definition inherited (k : string) : bool :=
  String.eqb k "constructor" || String.eqb k "__proto__".

(** The symbols the fetcher takes to the provider: six letters, the last
    three of them USD. *)
Definition accepted (s : string) : bool := sixLetters s && endsWith "USD" s.

(** The URLs a list of symbols gives rise to, in the order of the list. *)
Definition urlsOf (mdy : string) (symbols : list string) : list string :=
  map (fun s => downloadURL s mdy) (filter accepted (map normalize symbols)).

(** A symbol the fetcher accepts as it stands. *)
Definition presetOk (s : string) : bool :=
  accepted s && String.eqb (normalize s) s.

End InputSpec.

Module TextSpec.
Import Js.

(** The text with every line feed turned into carriage return and line
    feed. *)
Fixpoint crlf (s : string) : string :=
  match s with
  | EmptyString => EmptyString
  | String c r =>
      if Ascii.eqb c LF then String CR (String LF (crlf r))
      else String c (crlf r)
  end.

(** The list with [c] put at the end of its last string. *)
Fixpoint appLast (c : ascii) (l : list string) : list string :=
  match l with
  | [] => []
  | [x] => [x ++ String c EmptyString]
  | x :: r => x :: appLast c r
  end.

End TextSpec.

Module FormatSpec.
Import Js JsDate Dates DateSpec.
Local Open Scope Z_scope.

(** The fields of a string of the shape [YYYY-MM-DD], as numbers. *)
Definition fieldAt (start len : nat) (s : string) : Z :=
  match digitsVal 0 (chars (substring start len s)) with
  | Some v => v
  | None => -1
  end.

Definition yearOf (s : string) : Z := fieldAt 0 4 s.
Definition monthOf (s : string) : Z := fieldAt 5 2 s.
Definition dayOf (s : string) : Z := fieldAt 8 2 s.

(** The month is one of twelve and the day at most 31: the dates the
    [Date] constructor takes, whether or not the month has the day. *)
Definition plausible (s : string) : bool :=
  (1 <=? monthOf s) && (monthOf s <=? 12) &&
  (1 <=? dayOf s) && (dayOf s <=? 31).

(** [CsvSpec.twoCharsAreDigits] as a test. *)
Definition twoCharsOk (yy : string) : bool :=
  match chars yy with
  | [a; b] => isDigit a && isDigit b
  | _ => true
  end.

End FormatSpec.

Module UrlSpec.
Import Js Http.

(** The characters of a URL that need no escape where the handler puts
    them: the unreserved ones, the percent sign of an escape, and the
    delimiters of scheme, path and query. *)
Definition urlChar (c : ascii) : bool :=
  unreserved c || includesChar c "%/:?=&".

Fixpoint allChars (p : ascii -> bool) (s : string) : bool :=
  match s with
  | EmptyString => true
  | String c r => p c && allChars p r
  end.

(** Where the history of a pair lives at the provider. *)
Definition fxPath : string := "https://www.wsj.com/market-data/quotes/FX/".

End UrlSpec.

Module QuoteSpec.
Import Js Csv CsvSpec.

(** A close as the provider writes it: a number with nothing around it. *)
Definition plainNumber (c : string) : Prop :=
  c <> "" /\ trim c = c /\ includesChar "," c = false /\
  includesChar LF c = false /\ isNaN_Number c = false.

(** A text of the provider with one row, for a date and a close. *)
Definition quoteText (mdy close : string) : string :=
  "Date,Open,High,Low,Close,Volume" ++ nl ++
  mdy ++ ",1.08,1.09,1.07," ++ close ++ ",1000".

(** The characters of a date with slashes. *)
Definition dateChar (c : ascii) : bool := isDigit c || Ascii.eqb c "/".

End QuoteSpec.

Module CloseSpec.
Import Js.

(** How a number in decimal notation begins, as [parseFloat] wants it. *)
Definition begins (u : list ascii) : bool :=
  startsWith "Infinity" (string_of_list_ascii u) ||
  startsWithDigit u ||
  match u with
  | dot :: r => Ascii.eqb dot "." && startsWithDigit r
  | [] => false
  end.

End CloseSpec.

Module RunSpec.
Import Http Result Batch PoolSpec.

(** While the handler waits the pool is full or the queue is empty. *)
Definition saturated (p : Pool) : Prop :=
  phase p = Await false ->
  queue p = [] \/ List.length (running p) = CONCURRENCY.

Section Run.
Variable upstream : nat -> string -> FetchOutcome.
Variables mdy resolvedISO : string.

(** A run of the loop counted by its steps. *)
Inductive stepsIn : nat -> Pool -> Pool -> Prop :=
| stepsIn_O p : stepsIn 0 p p
| stepsIn_S k p1 p2 p3 :
    stepsIn k p1 p2 -> step upstream mdy resolvedISO p2 p3 ->
    stepsIn (S k) p1 p3.

(** The URLs requested so far, followed by those the queue will add. *)
Definition planned (p : Pool) : list string :=
  fetched p ++
  List.concat (map (requests upstream mdy resolvedISO)
                   (tasksFrom (nextId p) (queue p))).

End Run.

End RunSpec.

Module MoreSamples.
Import Result.

(** A request for a preset, on a Saturday. *)
Definition majorsRequest : Request :=
  mkRequest "GET" (mkQuery (Some "2024-06-08") (Some "Majors") None) None.

(** A day that February does not have. *)
Definition rolledRequest : Request :=
  mkRequest "GET" (mkQuery (Some "2024-02-30") None (Some "EURUSD")) None.

End MoreSamples.

(** * Proofs *)

(** ** The CSV row matcher *)

Module CsvFacts.
Import Js Csv CsvSpec.

Lemma indexOf_columnOf name header :
  indexOf name (map (fun s => toLowerCase (trim s)) header) =
  match columnOf name header with
  | Some i => Z.of_nat i
  | None => (-1)%Z
  end.
Proof.
  induction header as [|c r IH]; simpl; [reflexivity|].
  destruct (String.eqb (toLowerCase (trim c)) name); [reflexivity|].
  rewrite IH. destruct (columnOf name r) as [i|]; simpl.
  - destruct (Z.ltb_spec (Z.of_nat i) 0); lia.
  - reflexivity.
Qed.

Lemma nth_error_nth_default (l : list string) i :
  (i < List.length l)%nat -> nth_error l i = Some (nth i l "").
Proof.
  revert i; induction l as [|x l IH]; intros [|i] H; simpl in *;
    try lia; [reflexivity|]. apply IH; lia.
Qed.

(** The loop of the source is a search for the first row that has a cell in
    both columns and carries the wanted date. *)
Lemma scanRows_firstWideDated iDate iClose target rows :
  scanRows iDate iClose target rows = firstWideDated iDate iClose target rows.
Proof.
  unfold firstWideDated.
  induction rows as [|line rest IH]; simpl; [reflexivity|].
  unfold wide, dated, normalisedDate.
  destruct (Nat.ltb_spec (List.length (cells line)) (Nat.max iDate iClose + 1))
    as [Hshort|Hwide].
  - replace (Nat.max iDate iClose + 1 <=? List.length (cells line))%nat
      with false by (symmetry; apply Nat.leb_gt; lia).
    simpl. exact IH.
  - replace (Nat.max iDate iClose + 1 <=? List.length (cells line))%nat
      with true by (symmetry; apply Nat.leb_le; lia).
    simpl.
    rewrite (nth_error_nth_default (cells line) iDate) by lia.
    destruct (rowISO (nth iDate (cells line) "")) as [iso|]; [|exact IH].
    destruct (String.eqb_spec iso target) as [->|Hne]; [|exact IH].
    simpl. rewrite (nth_error_nth_default (cells line) iClose) by lia.
    simpl. destruct (_ || _); reflexivity.
Qed.

Lemma parseWSJCSV_matcher csv target :
  parseWSJCSV csv target = matcher firstWideDated csv target.
Proof.
  unfold parseWSJCSV, matcher, table.
  destruct (includesChar LF csv) eqn:Hlf.
  - assert (String.eqb csv "" = false) as ->
      by (destruct csv; [discriminate Hlf | reflexivity]).
    simpl. destruct (splitLines (trim csv)) as [|head rows]; [reflexivity|].
    unfold headerCells. rewrite !indexOf_columnOf.
    destruct (columnOf "date" (split "," head)) as [i|]; simpl;
      [|reflexivity].
    destruct (columnOf "close" (split "," head)) as [j|]; simpl.
    + replace (Z.of_nat i <? 0)%Z with false by (symmetry; apply Z.ltb_ge; lia).
      replace (Z.of_nat j <? 0)%Z with false by (symmetry; apply Z.ltb_ge; lia).
      simpl. rewrite !Nat2Z.id. apply scanRows_firstWideDated.
    + rewrite orb_true_r. reflexivity.
  - rewrite orb_true_r. reflexivity.
Qed.

(** What a found row holds. *)
Lemma closeOf_some iClose target row p :
  closeOf iClose target row = Some p ->
  p_date p = target /\ p_close p <> "" /\ isNaN_Number (p_close p) = false.
Proof.
  unfold closeOf. destruct row as [line|]; [|discriminate].
  destruct (nth_error (cells line) iClose) as [c|]; [|discriminate].
  destruct (String.eqb_spec c "") as [->|Hc]; simpl; [discriminate|].
  destruct (isNaN_Number c) eqn:Hn; [discriminate|].
  intros [= <-]. simpl. auto.
Qed.

Lemma parseWSJCSV_some csv target p :
  parseWSJCSV csv target = Some p ->
  p_date p = target /\ p_close p <> "" /\ isNaN_Number (p_close p) = false.
Proof.
  rewrite parseWSJCSV_matcher. unfold matcher.
  destruct (table csv) as [[header rows]|]; [|discriminate].
  destruct (columnOf "date" header); [|discriminate].
  destruct (columnOf "close" header); [|discriminate].
  apply closeOf_some.
Qed.

(** *** Splitting a date of the form [mm/dd/yy] *)

Lemma split_none sep s :
  includesChar sep s = false -> split sep s = [s].
Proof.
  induction s as [|c r IH]; simpl; [reflexivity|].
  destruct (Ascii.eqb c sep); simpl; [discriminate|].
  intros H. rewrite (IH H). reflexivity.
Qed.

Lemma split_app sep a b :
  includesChar sep a = false ->
  split sep (a ++ String sep b) = a :: split sep b.
Proof.
  induction a as [|c r IH]; simpl.
  - rewrite Ascii.eqb_refl. reflexivity.
  - destruct (Ascii.eqb c sep); simpl; [discriminate|].
    intros H. rewrite (IH H). reflexivity.
Qed.

Lemma split_mdy mm dd yy :
  includesChar "/" mm = false -> includesChar "/" dd = false ->
  includesChar "/" yy = false ->
  split "/" (mm ++ String "/" (dd ++ String "/" yy)) = [mm; dd; yy].
Proof.
  intros Hm Hd Hy.
  rewrite (split_app _ _ _ Hm), (split_app _ _ _ Hd), (split_none _ _ Hy).
  reflexivity.
Qed.

Lemma digit_code c :
  isDigit c = true -> (48 <= code c <= 57)%N.
Proof.
  unfold isDigit. rewrite andb_true_iff, !N.leb_le. tauto.
Qed.

(** On two digits the comparison of strings with ["50"] is the comparison
    of numbers with 50. *)
Lemma pivot_two_digits a b :
  isDigit a = true -> isDigit b = true ->
  (match String.compare (String a (String b "")) "50" with
   | Gt => "19"
   | _ => "20"
   end) ++ String a (String b "") = pivotYear (String a (String b "")).
Proof.
  intros Ha Hb. apply digit_code in Ha, Hb.
  unfold pivotYear, JsDate.digitVal. cbn [chars].
  cbn [String.compare]. unfold Ascii.compare.
  change (N_of_ascii a) with (code a). change (N_of_ascii b) with (code b).
  change (N_of_ascii "5") with 53%N. change (N_of_ascii "0") with 48%N.
  destruct (N.compare_spec (code a) 53) as [E|L|G].
  - destruct (N.compare_spec (code b) 48) as [E'|L'|G'].
    + destruct (Z.ltb_spec 50 (10 * (Z.of_N (code a) - 48) + (Z.of_N (code b) - 48)));
        [lia|reflexivity].
    + lia.
    + destruct (Z.ltb_spec 50 (10 * (Z.of_N (code a) - 48) + (Z.of_N (code b) - 48)));
        [reflexivity|lia].
  - destruct (Z.ltb_spec 50 (10 * (Z.of_N (code a) - 48) + (Z.of_N (code b) - 48)));
      [lia|reflexivity].
  - destruct (Z.ltb_spec 50 (10 * (Z.of_N (code a) - 48) + (Z.of_N (code b) - 48)));
      [reflexivity|lia].
Qed.

Lemma rowISO_mdy mm dd yy :
  includesChar "/" mm = false -> includesChar "/" dd = false ->
  includesChar "/" yy = false -> twoCharsAreDigits yy ->
  rowISO (mm ++ String "/" (dd ++ String "/" yy)) =
  Some (pivotYear yy ++ "-" ++ padStart 2 "0" mm ++ "-" ++ padStart 2 "0" dd).
Proof.
  intros Hm Hd Hy H2. unfold rowISO. rewrite (split_mdy _ _ _ Hm Hd Hy).
  destruct yy as [|a [|b [|c r]]]; try reflexivity.
  destruct H2 as [Ha Hb]. cbn [String.length Nat.eqb].
  rewrite (pivot_two_digits a b Ha Hb). reflexivity.
Qed.

End CsvFacts.


(** ** The calendar *)

Module CalendarFacts.
Import Js JsDate Dates DateSpec.
Local Open Scope Z_scope.

(** Year of the era and day of the year (years begin in March). *)
Lemma yoe_doy doe :
  0 <= doe < 146097 ->
  let yoe := (doe - doe / 1460 + doe / 36524 - doe / 146096) / 365 in
  let doy := doe - (365 * yoe + yoe / 4 - yoe / 100) in
  0 <= yoe <= 399 /\ 0 <= doy <= 365 /\
  (doy = 365 ->
   (yoe + 1) mod 4 = 0 /\ ((yoe + 1) mod 100 <> 0 \/ yoe = 399)).
Proof. cbv zeta. intros. lia. Qed.

Lemma civil_core era yoe doy :
  0 <= yoe <= 399 -> 0 <= doy <= 365 ->
  (doy = 365 ->
   (yoe + 1) mod 4 = 0 /\ ((yoe + 1) mod 100 <> 0 \/ yoe = 399)) ->
  civilFromDays
    (era * 146097 + (yoe * 365 + yoe / 4 - yoe / 100 + doy) - 719468) =
  let mp := (5 * doy + 2) / 153 in
  let m := if mp <? 10 then mp + 3 else mp - 9 in
  (if m <=? 2 then yoe + era * 400 + 1 else yoe + era * 400, m,
   doy - (153 * mp + 2) / 5 + 1).
Proof.
  intros Hy Hd Hleap. unfold civilFromDays. cbv zeta.
  set (doe := yoe * 365 + yoe / 4 - yoe / 100 + doy).
  assert (Hdoe : 0 <= doe < 146097) by (unfold doe; lia).
  replace (era * 146097 + doe - 719468 + 719468)
    with (era * 146097 + doe) by lia.
  assert (Hera : (era * 146097 + doe) / 146097 = era) by lia.
  rewrite Hera.
  replace (era * 146097 + doe - era * 146097) with doe by lia.
  assert (Hyoe : (doe - doe / 1460 + doe / 36524 - doe / 146096) / 365 = yoe).
  { unfold doe in *. assert (doy <= 364 \/ doy = 365) as [H|H] by lia.
    - lia.
    - destruct (Hleap H) as [H4 H100]. lia. }
  rewrite Hyoe.
  replace (doe - (365 * yoe + yoe / 4 - yoe / 100)) with doy
    by (unfold doe; lia).
  reflexivity.
Qed.

Lemma month_part mp d :
  0 <= mp <= 11 ->
  1 <= d <= (153 * (mp + 1) + 2) / 5 - (153 * mp + 2) / 5 ->
  let doy := (153 * mp + 2) / 5 + d - 1 in
  (5 * doy + 2) / 153 = mp /\ doy - (153 * mp + 2) / 5 + 1 = d.
Proof. cbv zeta. intros. lia. Qed.

Ltac split_ifs :=
  repeat match goal with
         | |- context [if ?b then _ else _] => destruct b eqn:?
         | H : context [if ?b then _ else _] |- _ => destruct b eqn:?
         end.

Ltac month_cases m :=
  let Hc := fresh "Hc" in
  assert (m = 1 \/ m = 2 \/ m = 3 \/ m = 4 \/ m = 5 \/ m = 6 \/ m = 7 \/
          m = 8 \/ m = 9 \/ m = 10 \/ m = 11 \/ m = 12) as Hc by lia;
  repeat (destruct Hc as [-> | Hc]); [..| subst m].

(** A date of the calendar is the date of its day number. *)
Lemma civil_of_days y m d :
  1 <= m <= 12 -> 1 <= d <= daysInMonth y m ->
  civilFromDays (daysFromCivil y m d) = (y, m, d).
Proof.
  intros Hm Hd. unfold daysFromCivil. cbv zeta.
  set (y' := if m <=? 2 then y - 1 else y).
  set (mp := if m >? 2 then m - 3 else m + 9).
  assert (Hmp : 0 <= mp <= 11 /\ m = (if mp <? 10 then mp + 3 else mp - 9)).
  { unfold mp. destruct (Z.gtb_spec m 2).
    - destruct (Z.ltb_spec (m - 3) 10); lia.
    - destruct (Z.ltb_spec (m + 9) 10); lia. }
  assert (Hy' : y = if m <=? 2 then y' + 1 else y').
  { unfold y'. destruct (m <=? 2); lia. }
  assert (Hlen : d <= (153 * (mp + 1) + 2) / 5 - (153 * mp + 2) / 5 /\
                 (mp = 11 -> d <= 28 \/ (d = 29 /\ isLeap y = true))).
  { unfold daysInMonth in Hd. unfold mp.
    month_cases m; cbn in Hd |- *; try lia.
    destruct (isLeap y); lia. }
  destruct Hlen as [Hlen HFeb].
  set (era := y' / 400). set (yoe := y' - era * 400).
  assert (Hyoe : 0 <= yoe <= 399) by (unfold yoe, era; lia).
  set (doy := (153 * mp + 2) / 5 + d - 1).
  assert (Hdoy : 0 <= doy <= 365) by (unfold doy; lia).
  assert (Hleap : doy = 365 ->
            (yoe + 1) mod 4 = 0 /\ ((yoe + 1) mod 100 <> 0 \/ yoe = 399)).
  { intros E.
    assert (Hmp11 : mp = 11) by (unfold doy in E; lia).
    destruct (HFeb Hmp11) as [Hl | (Hd29 & Hlp)]; [unfold doy in E; lia|].
    unfold isLeap in Hlp.
    assert (m = 2)
      by (destruct Hmp as [_ Hmm]; rewrite Hmp11 in Hmm; exact Hmm).
    assert (y = y' + 1) by (rewrite Hy'; subst m; reflexivity).
    assert (y' = era * 400 + yoe) by (unfold yoe; lia).
    apply orb_true_iff in Hlp. destruct Hlp as [Hlp | Hlp].
    - apply andb_true_iff in Hlp. destruct Hlp as [H4 H100].
      apply Z.eqb_eq in H4. apply negb_true_iff in H100.
      apply Z.eqb_neq in H100. lia.
    - apply Z.eqb_eq in Hlp. lia. }
  rewrite (civil_core era yoe doy Hyoe Hdoy Hleap). cbv zeta.
  assert (Hmd : (5 * doy + 2) / 153 = mp /\ doy - (153 * mp + 2) / 5 + 1 = d)
    by (apply month_part; lia).
  destruct Hmd as [-> ->]. destruct Hmp as [_ <-].
  replace (yoe + era * 400) with y' by (unfold yoe; lia).
  rewrite <- Hy'. reflexivity.
Qed.

(** The date of a day number has that day number. *)
Lemma days_of_civil n :
  daysFromCivil (fst (fst (civilFromDays n))) (snd (fst (civilFromDays n)))
                (snd (civilFromDays n)) = n.
Proof.
  unfold civilFromDays, daysFromCivil. cbn [fst snd].
  repeat match goal with
         | |- context [if ?b then _ else _] => destruct b eqn:?
         end; lia.
Qed.

Lemma civil_month_range n :
  1 <= snd (fst (civilFromDays n)) <= 12.
Proof.
  unfold civilFromDays. cbn [fst snd].
  repeat match goal with
         | |- context [if ?b then _ else _] => destruct b eqn:?
         end; lia.
Qed.

Lemma civil_day_range n :
  1 <= snd (civilFromDays n) <= 31.
Proof. unfold civilFromDays. cbn [fst snd]. lia. Qed.

Lemma last_months doe :
  146037 <= doe < 146097 ->
  let yoe := (doe - doe / 1460 + doe / 36524 - doe / 146096) / 365 in
  let doy := doe - (365 * yoe + yoe / 4 - yoe / 100) in
  yoe = 399 /\ 10 <= (5 * doy + 2) / 153 <= 11.
Proof.
  cbv zeta. intros. split; [lia|].
  assert ((doe - doe / 1460 + doe / 36524 - doe / 146096) / 365 = 399)
    as -> by lia.
  lia.
Qed.

Lemma first_months doe :
  0 <= doe <= 146036 ->
  let yoe := (doe - doe / 1460 + doe / 36524 - doe / 146096) / 365 in
  let doy := doe - (365 * yoe + yoe / 4 - yoe / 100) in
  yoe <= 398 \/ (yoe = 399 /\ 0 <= (5 * doy + 2) / 153 <= 9).
Proof.
  cbv zeta. intros.
  assert ((doe - doe / 1460 + doe / 36524 - doe / 146096) / 365 <= 398 \/
          (doe - doe / 1460 + doe / 36524 - doe / 146096) / 365 = 399)
    as [L|L] by lia.
  - left; lia.
  - right. rewrite L. split; lia.
Qed.

(** From 0000-01-01 to 9999-12-31 the year has four digits. *)
Lemma civil_year_range n :
  firstDay <= n <= lastDay ->
  0 <= fst (fst (civilFromDays n)) <= 9999.
Proof.
  unfold civilFromDays, firstDay, lastDay. cbn [fst snd]. intros H.
  set (z := n + 719468).
  assert (Hz : -60 <= z <= 3652364) by (unfold z; lia).
  clearbody z. clear H n.
  set (era := z / 146097).
  set (doe := z - era * 146097).
  assert (Hdoe : 0 <= doe < 146097) by (unfold doe, era; lia).
  pose proof (yoe_doy doe Hdoe) as Hy. cbv zeta in Hy.
  assert (Hera : -1 <= era <= 24) by (unfold era; lia).
  assert (era = -1 \/ 0 <= era <= 23 \/ era = 24) as [E|[E|E]] by lia.
  - assert (Hd : 146037 <= doe < 146097) by (unfold doe; lia).
    pose proof (last_months doe Hd) as Hl. cbv zeta in Hl.
    clearbody doe. clear Hz. rewrite E.
    set (yoe := (doe - doe / 1460 + doe / 36524 - doe / 146096) / 365) in *.
    clearbody yoe.
    set (mp := (5 * (doe - (365 * yoe + yoe / 4 - yoe / 100)) + 2) / 153) in *.
    clearbody mp.
    split_ifs; lia.
  - clearbody doe era.
    set (yoe := (doe - doe / 1460 + doe / 36524 - doe / 146096) / 365) in *.
    clearbody yoe.
    split_ifs; lia.
  - assert (Hd : 0 <= doe <= 146036) by (unfold doe; lia).
    pose proof (first_months doe Hd) as Hl. cbv zeta in Hl.
    clearbody doe. clear Hz. rewrite E.
    set (yoe := (doe - doe / 1460 + doe / 36524 - doe / 146096) / 365) in *.
    clearbody yoe.
    set (mp := (5 * (doe - (365 * yoe + yoe / 4 - yoe / 100)) + 2) / 153) in *.
    clearbody mp.
    split_ifs; lia.
Qed.

(** The day numbers are those of ECMAScript: [MakeDay] of a year, a month
    and a day of the month. *)
Lemma daysFromCivil_ES y m d :
  1 <= m <= 12 ->
  daysFromCivil y m d = DayFromYear y + monthStart (isLeap y) m + d - 1.
Proof.
  intros Hm. unfold daysFromCivil, DayFromYear, monthStart, isLeap.
  month_cases m;
    cbn [Z.leb Z.gtb Z.eqb Z.compare Pos.compare Pos.compare_cont Pos.eqb];
    try lia;
    destruct (Z.eqb_spec (y mod 4) 0); destruct (Z.eqb_spec (y mod 100) 0);
    destruct (Z.eqb_spec (y mod 400) 0); cbn [andb orb negb]; lia.
Qed.

Lemma daysFromCivil_linear y m d :
  daysFromCivil y m d = daysFromCivil y m 1 + d - 1.
Proof. unfold daysFromCivil. lia. Qed.

(** The date of a day number is a date of the calendar. *)
Lemma civil_valid n :
  snd (civilFromDays n) <=
  daysInMonth (fst (fst (civilFromDays n))) (snd (fst (civilFromDays n))).
Proof.
  unfold civilFromDays. cbn [fst snd].
  set (z := n + 719468). clearbody z.
  set (era := z / 146097).
  set (doe := z - era * 146097).
  assert (Hdoe : 0 <= doe < 146097) by (unfold doe, era; lia).
  clearbody doe.
  pose proof (yoe_doy doe Hdoe) as Hy. cbv zeta in Hy.
  set (yoe := (doe - doe / 1460 + doe / 36524 - doe / 146096) / 365) in *.
  clearbody yoe.
  set (doy := doe - (365 * yoe + yoe / 4 - yoe / 100)) in *.
  clearbody doy. destruct Hy as (Hyoe & Hdoy & Hleap).
  set (mp := (5 * doy + 2) / 153).
  assert (Hmp : 0 <= mp <= 11) by (unfold mp; lia).
  assert (Hd : doy - (153 * mp + 2) / 5 + 1 <=
               (153 * (mp + 1) + 2) / 5 - (153 * mp + 2) / 5)
    by (unfold mp; lia).
  assert (HFeb : mp = 11 -> doy - (153 * mp + 2) / 5 + 1 <= 28 \/
                 (yoe + 1) mod 4 = 0 /\
                 ((yoe + 1) mod 100 <> 0 \/ yoe = 399)).
  { intros E. assert (doy <= 364 \/ doy = 365) as [L|L] by lia.
    - left. rewrite E. lia.
    - right. auto. }
  assert (Hd29 : mp = 11 -> doy - (153 * mp + 2) / 5 + 1 <= 29)
    by (intros E; rewrite E; lia).
  clearbody mp.
  assert (mp = 0 \/ mp = 1 \/ mp = 2 \/ mp = 3 \/ mp = 4 \/ mp = 5 \/
          mp = 6 \/ mp = 7 \/ mp = 8 \/ mp = 9 \/ mp = 10 \/ mp = 11)
    as Hc by lia.
  repeat (destruct Hc as [-> | Hc]); [..| subst mp];
    cbn in Hd |- *; try lia.
  unfold daysInMonth, isLeap. cbn.
  destruct (HFeb eq_refl) as [L | [L4 L100]].
  - cbn in L. destruct (_ || _); lia.
  - specialize (Hd29 eq_refl). cbn in Hd29.
    assert (((yoe + era * 400 + 1) mod 4 =? 0) &&
            negb ((yoe + era * 400 + 1) mod 100 =? 0)
            || ((yoe + era * 400 + 1) mod 400 =? 0) = true) as ->.
    { destruct L100 as [L100 | L100].
      - apply orb_true_iff. left. apply andb_true_iff. split.
        + apply Z.eqb_eq. lia.
        + apply negb_true_iff. apply Z.eqb_neq. lia.
      - apply orb_true_iff. right. apply Z.eqb_eq. lia. }
    lia.
Qed.

End CalendarFacts.

(** ** ISO dates as strings *)

Module IsoFacts.
Import Js JsDate Dates DateSpec CalendarFacts.
Local Open Scope Z_scope.

Lemma code_digitChar v : code (digitChar v) = Z.to_N (48 + v mod 10).
Proof.
  unfold code, digitChar. apply N_ascii_embedding. lia.
Qed.

Lemma isDigit_digitChar v : isDigit (digitChar v) = true.
Proof.
  unfold isDigit. rewrite code_digitChar.
  apply andb_true_iff. split; apply N.leb_le; lia.
Qed.

Lemma digitVal_digitChar v : digitVal (digitChar v) = v mod 10.
Proof. unfold digitVal. rewrite code_digitChar. lia. Qed.

Lemma digit_range c : isDigit c = true -> 0 <= digitVal c <= 9.
Proof.
  unfold isDigit, digitVal. rewrite andb_true_iff, !N.leb_le. lia.
Qed.

Lemma digitChar_eq v c :
  isDigit c = true -> v mod 10 = digitVal c -> digitChar v = c.
Proof.
  intros Hc Hv. pose proof (digit_range c Hc) as Hr.
  unfold digitChar. rewrite Hv. unfold digitVal in *.
  replace (Z.to_N (48 + (Z.of_N (code c) - 48))) with (code c) by lia.
  apply ascii_N_embedding.
Qed.

Lemma digit_not_sign c : isDigit c = true -> isSign c = false.
Proof.
  intros Hc. apply digit_range in Hc. unfold digitVal in Hc.
  unfold isSign.
  destruct (Ascii.eqb_spec c "+") as [->|_];
    [change (code "+") with 43%N in Hc; lia|].
  destruct (Ascii.eqb_spec c "-") as [->|_];
    [change (code "-") with 45%N in Hc; lia|].
  reflexivity.
Qed.

Lemma chars_isoDateOf y m d :
  0 <= y <= 9999 ->
  chars (isoDateOf (y, m, d)) =
  [digitChar (y / 1000); digitChar (y / 100); digitChar (y / 10);
   digitChar y; "-"%char; digitChar (m / 10); digitChar m; "-"%char;
   digitChar (d / 10); digitChar d].
Proof.
  intros Hy. unfold isoDateOf, isoYear.
  replace ((0 <=? y) && (y <=? 9999)) with true
    by (symmetry; apply andb_true_iff; split; apply Z.leb_le; lia).
  reflexivity.
Qed.

Lemma two_digits v :
  0 <= v <= 99 ->
  digitsVal 0 [digitChar (v / 10); digitChar v] = Some v.
Proof.
  intros Hv. cbn [digitsVal]. rewrite !isDigit_digitChar.
  rewrite !digitVal_digitChar. f_equal. lia.
Qed.

Lemma four_digits v :
  0 <= v <= 9999 ->
  digitsVal 0 [digitChar (v / 1000); digitChar (v / 100);
               digitChar (v / 10); digitChar v] = Some v.
Proof.
  intros Hv. cbn [digitsVal]. rewrite !isDigit_digitChar.
  rewrite !digitVal_digitChar. f_equal. lia.
Qed.

(** A formatted date reads back as itself. *)
Lemma parse_isoDateOf y m d :
  0 <= y <= 9999 -> 1 <= m <= 12 -> 1 <= d <= 31 ->
  parseDateOnly (isoDateOf (y, m, d)) = Some (y, m, d).
Proof.
  intros Hy Hm Hd. unfold parseDateOnly.
  rewrite (chars_isoDateOf y m d Hy).
  rewrite (digit_not_sign _ (isDigit_digitChar _)).
  rewrite (four_digits y Hy). cbn [parseMonthDay].
  change (isDash "-") with true. cbn [andb].
  rewrite (two_digits m) by lia. rewrite (two_digits d) by lia.
  unfold legalFields. rewrite Z.mul_1_l.
  replace ((1 <=? m) && (m <=? 12) && (1 <=? d) && (d <=? 31)) with true;
    [reflexivity|].
  symmetry. rewrite !andb_true_iff, !Z.leb_le. lia.
Qed.

Lemma matches_isoDateOf y m d :
  0 <= y <= 9999 -> matchesDate (isoDateOf (y, m, d)) = true.
Proof.
  intros Hy. unfold matchesDate. rewrite (chars_isoDateOf y m d Hy).
  rewrite !isDigit_digitChar. reflexivity.
Qed.

(** A string the pattern accepts is the format of its three numbers. *)
Lemma matchesDate_shape s :
  matchesDate s = true ->
  exists y m d,
    0 <= y <= 9999 /\ 0 <= m <= 99 /\ 0 <= d <= 99 /\
    s = isoDateOf (y, m, d) /\
    parseDateOnly s =
      if legalFields (y, m, d) then Some (y, m, d) else None.
Proof.
  unfold matchesDate.
  destruct s as [|y3 [|y2 [|y1 [|y0 [|h [|m1 [|m0 [|k [|d1 [|d0 [|x s]]]]]]]]]]];
    cbn [chars]; try discriminate.
  rewrite !andb_true_iff.
  intros (((((((((H3 & H2) & H1) & H0) & Hh) & Hm1) & Hm0) & Hk) & Hd1) & Hd0).
  apply Ascii.eqb_eq in Hh, Hk. subst h k.
  pose proof (digit_range _ H3). pose proof (digit_range _ H2).
  pose proof (digit_range _ H1). pose proof (digit_range _ H0).
  pose proof (digit_range _ Hm1). pose proof (digit_range _ Hm0).
  pose proof (digit_range _ Hd1). pose proof (digit_range _ Hd0).
  set (y := 1000 * digitVal y3 + 100 * digitVal y2 + 10 * digitVal y1
            + digitVal y0).
  set (m := 10 * digitVal m1 + digitVal m0).
  set (d := 10 * digitVal d1 + digitVal d0).
  exists y, m, d.
  assert (Hy : 0 <= y <= 9999) by (unfold y; lia).
  assert (Hm : 0 <= m <= 99) by (unfold m; lia).
  assert (Hd : 0 <= d <= 99) by (unfold d; lia).
  repeat split; try lia.
  - unfold isoDateOf, isoYear.
    replace ((0 <=? y) && (y <=? 9999)) with true
      by (symmetry; apply andb_true_iff; split; apply Z.leb_le; lia).
    unfold pad4, pad3, pad2. cbn [append].
    rewrite (digitChar_eq (y / 1000) y3), (digitChar_eq (y / 100) y2),
            (digitChar_eq (y / 10) y1), (digitChar_eq y y0),
            (digitChar_eq (m / 10) m1), (digitChar_eq m m0),
            (digitChar_eq (d / 10) d1), (digitChar_eq d d0);
      try assumption; try (unfold y, m, d; lia).
    reflexivity.
  - unfold parseDateOnly. cbn [chars].
    rewrite (digit_not_sign _ H3).
    cbn [digitsVal parseMonthDay]. rewrite H3, H2, H1, H0.
    change (isDash "-") with true. cbn [andb digitsVal].
    rewrite Hm1, Hm0, Hd1, Hd0.
    replace (10 * (10 * (10 * (10 * 0 + digitVal y3) + digitVal y2)
                   + digitVal y1) + digitVal y0) with y by (unfold y; lia).
    replace (10 * (10 * 0 + digitVal m1) + digitVal m0) with m
      by (unfold m; lia).
    replace (10 * (10 * 0 + digitVal d1) + digitVal d0) with d
      by (unfold d; lia).
    rewrite Z.mul_1_l. reflexivity.
Qed.

Lemma days_in_range y m d :
  0 <= y <= 9999 -> 1 <= m <= 12 -> 1 <= d <= 31 ->
  firstDay <= daysFromCivil y m d <= lastDay + 3.
Proof.
  intros Hy Hm Hd. unfold daysFromCivil, firstDay, lastDay.
  destruct (Z.leb_spec m 2); destruct (Z.gtb_spec m 2); try lia.
Qed.

(** What [isoDay] says of a string. *)
Lemma isoDay_inv s n :
  isoDay s = Some n ->
  exists y m d,
    s = isoDateOf (y, m, d) /\ parseDateOnly s = Some (y, m, d) /\
    0 <= y <= 9999 /\ 1 <= m <= 12 /\ 1 <= d <= daysInMonth y m /\
    d <= 31 /\ n = daysFromCivil y m d.
Proof.
  unfold isoDay. destruct (matchesDate s) eqn:Hs; [|discriminate].
  destruct (matchesDate_shape s Hs) as (y & m & d & Hy & _ & _ & -> & Hp).
  rewrite Hp. unfold legalFields.
  destruct ((1 <=? m) && (m <=? 12) && (1 <=? d) && (d <=? 31)) eqn:Hl;
    [|discriminate].
  rewrite !andb_true_iff, !Z.leb_le in Hl.
  destruct (Z.leb_spec d (daysInMonth y m)); [|discriminate].
  intros [= <-]. exists y, m, d. repeat split; lia.
Qed.

Lemma isoOfDay_isoDay s n : isoDay s = Some n -> isoOfDay n = s.
Proof.
  intros H. destruct (isoDay_inv s n H)
    as (y & m & d & -> & _ & Hy & Hm & Hd & _ & ->).
  unfold isoOfDay. rewrite civil_of_days by lia. reflexivity.
Qed.

Lemma isoDay_isoOfDay n :
  firstDay <= n <= lastDay -> isoDay (isoOfDay n) = Some n.
Proof.
  intros Hn. unfold isoDay, isoOfDay.
  pose proof (civil_year_range n Hn) as Hy.
  pose proof (civil_month_range n) as Hm.
  pose proof (civil_day_range n) as Hd.
  pose proof (civil_valid n) as Hv.
  pose proof (days_of_civil n) as Hr.
  destruct (civilFromDays n) as [[y m] d]. cbn [fst snd] in *.
  rewrite matches_isoDateOf by lia. rewrite parse_isoDateOf by lia.
  replace (d <=? daysInMonth y m) with true
    by (symmetry; apply Z.leb_le; lia).
  rewrite Hr. reflexivity.
Qed.

Lemma isoDay_range s n : isoDay s = Some n -> firstDay <= n <= lastDay.
Proof.
  intros H. pose proof (isoOfDay_isoDay s n H) as Hs.
  destruct (isoDay_inv s n H)
    as (y & m & d & _ & _ & Hy & Hm & Hd & Hd31 & ->).
  pose proof (days_in_range y m d Hy Hm ltac:(lia)) as Hr.
  split; [lia|].
  destruct (Z.le_gt_cases (daysFromCivil y m d) lastDay) as [L|G]; [exact L|].
  exfalso.
  assert (Hc : civilFromDays (daysFromCivil y m d) = (y, m, d))
    by (apply civil_of_days; lia).
  assert (daysFromCivil y m d = lastDay + 1 \/
          daysFromCivil y m d = lastDay + 2 \/
          daysFromCivil y m d = lastDay + 3) as [E|[E|E]] by lia;
    rewrite E in Hc; vm_compute in Hc; injection Hc; intros; lia.
Qed.

End IsoFacts.

(** ** The date resolver *)

Module ResolverFacts.
Import Js JsDate Dates DateSpec CalendarFacts IsoFacts.
Local Open Scope Z_scope.

Lemma MakeDay_civil y m d :
  1 <= m <= 12 -> MakeDay y (m - 1) d = daysFromCivil y m d.
Proof.
  intros Hm. unfold MakeDay. cbv zeta.
  replace ((m - 1) / 12) with 0 by lia.
  replace ((m - 1) mod 12 + 1) with m by lia.
  rewrite Z.add_0_r. rewrite (daysFromCivil_linear y m d). lia.
Qed.

Lemma TimeClip_small t :
  -100000000000000 <= t <= 300000000000000 -> TimeClip t = Some t.
Proof.
  intros H. unfold TimeClip.
  replace (Z.abs t <=? 8640000000000000) with true; [reflexivity|].
  symmetry. apply Z.leb_le. lia.
Qed.

(** The time value of an ISO date of years 0000 to 9999. *)
Lemma newDate_civil s y m d east :
  parseDateOnly s = Some (y, m, d) ->
  1 <= m <= 12 -> firstDay - 366 <= daysFromCivil y m d <= lastDay + 3 ->
  -1440 <= east <= 1440 ->
  newDate s east = Some (daysFromCivil y m d * msPerDay - east * msPerMinute).
Proof.
  intros Hp Hm Hn He. unfold newDate. rewrite Hp.
  rewrite MakeDay_civil by exact Hm. unfold MakeDate. rewrite Z.add_0_r.
  apply TimeClip_small.
  unfold firstDay, lastDay, msPerDay, msPerMinute in *. lia.
Qed.

(** [d.setDate(d.getDate() - k)] moves [d] back by [k] days. *)
Lemma setDate_back tz t k :
  -90000000000000 <= t <= 290000000000000 -> 0 <= k <= 2 ->
  -1440 <= tz <= 1440 ->
  setDate tz (Some t) (numSub (getDate tz (Some t)) k) =
  Some (t - k * msPerDay).
Proof.
  intros Ht Hk Hz. unfold setDate, getDate, numSub, option_map.
  unfold YearFromTime, MonthFromTime, DateFromTime.
  set (tl := LocalTime tz t).
  pose proof (days_of_civil (Day tl)) as Hr.
  pose proof (civil_month_range (Day tl)) as Hm.
  destruct (civilFromDays (Day tl)) as [[y m] d]. cbn [fst snd] in *.
  rewrite MakeDay_civil by exact Hm.
  rewrite (daysFromCivil_linear y m (d - k)).
  rewrite (daysFromCivil_linear y m d) in Hr.
  replace (daysFromCivil y m 1 + (d - k) - 1) with (Day tl - k) by lia.
  unfold MakeDate, UTC, TimeWithinDay, Day, tl, LocalTime.
  unfold msPerDay, msPerMinute in *.
  replace ((((t + tz * 60000) / 86400000 - k) * 86400000 +
            (t + tz * 60000) mod 86400000) - tz * 60000)
    with (t - k * 86400000) by lia.
  apply TimeClip_small. lia.
Qed.

(** The first ten characters of [toISOString] in years 0000 to 9999. *)
Lemma slice_isoDate y m d rest :
  0 <= y <= 9999 ->
  slice0 10 (isoDateOf (y, m, d) ++ rest) = isoDateOf (y, m, d).
Proof.
  intros Hy. unfold isoDateOf, isoYear.
  replace ((0 <=? y) && (y <=? 9999)) with true
    by (symmetry; apply andb_true_iff; split; apply Z.leb_le; lia).
  unfold slice0, pad4, pad3, pad2. cbn [append substring].
  destruct rest; reflexivity.
Qed.

(** The resolver on a date of day number [n]: the time value it ends
    with is [k] days back, [k] decided by the local weekday. *)
Lemma resolver_time tz s y m d :
  parseDateOnly s = Some (y, m, d) -> 1 <= m <= 12 ->
  firstDay - 366 <= daysFromCivil y m d <= lastDay + 3 ->
  -1440 <= tz <= 1440 ->
  let n := daysFromCivil y m d in
  let k := rollback (weekday (n + localShift tz)) in
  priorBizIfWeekend tz s =
  Ok (slice0 10 (isoDateOf (civilFromDays (n - k)) ++
                 isoTimeOf (4 * msPerHour))).
Proof.
  intros Hp Hm Hn Hz n k. unfold priorBizIfWeekend.
  rewrite (newDate_civil s y m d (-240) Hp Hm Hn) by lia.
  fold n. set (t := n * msPerDay - -240 * msPerMinute).
  assert (Ht : -90000000000000 <= t <= 290000000000000).
  { unfold t, n, firstDay, lastDay, msPerDay, msPerMinute in *. lia. }
  assert (Hwd : getDay tz (Some t) = Some (weekday (n + localShift tz))).
  { unfold getDay, option_map, WeekDay, weekday, localShift, Day, LocalTime, t.
    assert ((n * msPerDay - -240 * msPerMinute + tz * msPerMinute)
              / msPerDay = n + (240 + tz) * msPerMinute / msPerDay) as ->
      by (unfold msPerDay, msPerMinute; lia).
    reflexivity. }
  rewrite Hwd. unfold numIs.
  assert (Hw : 0 <= weekday (n + localShift tz) <= 6)
    by (unfold weekday; lia).
  unfold k, rollback.
  assert (Hout : forall j, 0 <= j <= 2 ->
            toISOString (Some (t - j * msPerDay)) =
            Ok (isoDateOf (civilFromDays (n - j)) ++
                isoTimeOf (4 * msPerHour))).
  { intros j Hj. unfold toISOString.
    assert (Day (t - j * msPerDay) = n - j) as ->
      by (unfold Day, t, msPerDay, msPerMinute; lia).
    assert (TimeWithinDay (t - j * msPerDay) = 4 * msPerHour) as ->
      by (unfold TimeWithinDay, t, msPerDay, msPerMinute, msPerHour; lia).
    reflexivity. }
  destruct (Z.eqb_spec (weekday (n + localShift tz)) 6) as [E6|N6].
  - rewrite (setDate_back tz t 1 Ht) by lia.
    rewrite E6. change (6 =? 0) with false. cbv iota.
    rewrite (Hout 1) by lia. reflexivity.
  - destruct (Z.eqb_spec (weekday (n + localShift tz)) 0) as [E0|N0].
    + rewrite (setDate_back tz t 2 Ht) by lia.
      rewrite (Hout 2) by lia. reflexivity.
    + replace t with (t - 0 * msPerDay) by lia.
      rewrite (Hout 0) by lia. rewrite Z.sub_0_r. reflexivity.
Qed.

Lemma localShift_zero tz : -240 <= tz <= 840 -> localShift tz = 0.
Proof. unfold localShift, msPerMinute, msPerDay. lia. Qed.


Lemma rollback_range wd : 0 <= rollback wd <= 2.
Proof. unfold rollback. split_ifs; lia. Qed.

(** The resolver on an ISO date from which it does not leave year 0000. *)
Lemma resolver_date tz s n :
  isoDay s = Some n -> -1440 <= tz <= 1440 ->
  let k := rollback (weekday (n + localShift tz)) in
  firstDay <= n - k ->
  priorBizIfWeekend tz s = Ok (isoOfDay (n - k)).
Proof.
  intros Hs Hz k Hk.
  pose proof (isoDay_range s n Hs) as Hn.
  destruct (isoDay_inv s n Hs)
    as (y & m & d & _ & Hp & Hy & Hm & Hd & _ & ->).
  rewrite (resolver_time tz s y m d Hp Hm) by lia. cbv zeta. fold k.
  f_equal. unfold isoOfDay.
  pose proof (rollback_range (weekday (daysFromCivil y m d + localShift tz))).
  pose proof (civil_year_range (daysFromCivil y m d - k) ltac:(fold k in H; lia))
    as Hyr.
  destruct (civilFromDays (daysFromCivil y m d - k)) as [[y' m'] d'].
  apply slice_isoDate. exact Hyr.
Qed.

End ResolverFacts.

(** ** Normalised symbols *)

Module SymbolFacts.
Import Js.

Lemma lower_code c : isLower c = true -> (97 <= code c <= 122)%N.
Proof. unfold isLower. rewrite andb_true_iff, !N.leb_le. tauto. Qed.

Lemma code_upper_of_lower c :
  isLower c = true -> code (ascii_of_N (code c - 32)) = (code c - 32)%N.
Proof.
  intros H. apply lower_code in H. unfold code at 1.
  apply N_ascii_embedding. lia.
Qed.

Lemma upperChar_idem c : upperChar (upperChar c) = upperChar c.
Proof.
  unfold upperChar. destruct (isLower c) eqn:Hc.
  - assert (isLower (ascii_of_N (code c - 32)) = false) as ->;
      [|reflexivity].
    unfold isLower. rewrite (code_upper_of_lower c Hc).
    apply lower_code in Hc.
    replace (97 <=? code c - 32)%N with false
      by (symmetry; apply N.leb_gt; lia).
    reflexivity.
  - rewrite Hc. reflexivity.
Qed.

Lemma isSpace_upperChar c : isSpace (upperChar c) = isSpace c.
Proof.
  unfold upperChar. destruct (isLower c) eqn:Hc; [|reflexivity].
  unfold isSpace. rewrite (code_upper_of_lower c Hc). apply lower_code in Hc.
  replace (code c - 32 <=? 13)%N with false by (symmetry; apply N.leb_gt; lia).
  replace (code c - 32 =? 32)%N with false by (symmetry; apply N.eqb_neq; lia).
  replace (code c <=? 13)%N with false by (symmetry; apply N.leb_gt; lia).
  replace (code c =? 32)%N with false by (symmetry; apply N.eqb_neq; lia).
  rewrite !andb_false_r. reflexivity.
Qed.

Lemma toUpperCase_idem s : toUpperCase (toUpperCase s) = toUpperCase s.
Proof.
  unfold toUpperCase. induction s as [|c r IH]; simpl; [reflexivity|].
  rewrite upperChar_idem, IH. reflexivity.
Qed.

Lemma toUpperCase_trimStart s :
  toUpperCase (trimStart s) = trimStart (toUpperCase s).
Proof.
  unfold toUpperCase. induction s as [|c r IH]; simpl; [reflexivity|].
  rewrite isSpace_upperChar. destruct (isSpace c); [exact IH|reflexivity].
Qed.

Lemma toUpperCase_trimEnd s :
  toUpperCase (trimEnd s) = trimEnd (toUpperCase s).
Proof.
  unfold toUpperCase. induction s as [|c r IH]; simpl; [reflexivity|].
  rewrite <- IH, isSpace_upperChar.
  destruct (trimEnd r); simpl; [destruct (isSpace c)|]; reflexivity.
Qed.

Lemma trimEnd_idem s : trimEnd (trimEnd s) = trimEnd s.
Proof.
  induction s as [|c r IH]; simpl; [reflexivity|].
  destruct (trimEnd r) as [|x r'] eqn:E.
  - destruct (isSpace c) eqn:Hc; simpl; [reflexivity|].
    rewrite Hc. reflexivity.
  - change (trimEnd (String c (String x r')))
      with (match trimEnd (String x r') with
            | EmptyString =>
                if isSpace c then EmptyString else String c EmptyString
            | r'' => String c r''
            end).
    rewrite IH. reflexivity.
Qed.

Lemma trimStart_trimmed s : trimmedStart (trimStart s).
Proof.
  induction s as [|c r IH]; simpl; [exact I|].
  destruct (isSpace c) eqn:Hc; [exact IH|exact Hc].
Qed.

Lemma trimEnd_trimmed s : trimmedStart s -> trimmedStart (trimEnd s).
Proof.
  destruct s as [|c r]; simpl; [trivial|]. intros Hc.
  destruct (trimEnd r); [rewrite Hc|]; exact Hc.
Qed.

Lemma trimStart_id s : trimmedStart s -> trimStart s = s.
Proof.
  destruct s as [|c r]; simpl; [reflexivity|]. intros ->. reflexivity.
Qed.

Lemma trim_idem s : trim (trim s) = trim s.
Proof.
  unfold trim.
  rewrite (trimStart_id (trimEnd (trimStart s)))
    by (apply trimEnd_trimmed, trimStart_trimmed).
  apply trimEnd_idem.
Qed.

Lemma toUpperCase_trim s : toUpperCase (trim s) = trim (toUpperCase s).
Proof.
  unfold trim. rewrite toUpperCase_trimEnd, toUpperCase_trimStart.
  reflexivity.
Qed.

End SymbolFacts.

(** ** The per-symbol fetcher of [src/api/fx.js] *)

Module FetchFacts.
Import Js Http Csv Result Batch CsvFacts SymbolFacts.

Lemma normalize_idem s : normalize (normalize s) = normalize s.
Proof.
  unfold normalize.
  rewrite toUpperCase_trim, toUpperCase_idem. apply trim_idem.
Qed.

Section Fetch.
Variable fetch : string -> FetchOutcome.
Variables raw mdy iso : string.

Let sym := normalize raw.
Let url := downloadURL sym mdy.
Let out := fetchWSJ fetch raw mdy iso.

Lemma fetchWSJ_invalid :
  sixLetters sym = false ->
  out = (failure sym "invalid symbol" None, []).
Proof.
  unfold out, fetchWSJ, sym. intros ->. reflexivity.
Qed.

Lemma fetchWSJ_reciprocal :
  sixLetters sym = true -> endsWith "USD" sym = false ->
  out = (failure sym "not XXXUSD (reciprocals disabled)" None, []).
Proof.
  unfold out, fetchWSJ, sym. intros -> ->. reflexivity.
Qed.

Lemma fetchWSJ_accepted :
  sixLetters sym = true -> endsWith "USD" sym = true ->
  out =
  (match fetch url with
   | Rejected e => failure sym (describe e) (Some url)
   | Responded st body =>
       if negb (ok st) then failure sym ("HTTP " ++ ofInt st) (Some url)
       else
         match body with
         | BodyFails e => failure sym (describe e) (Some url)
         | Text csv =>
             match parseWSJCSV csv iso with
             | None => failure sym "row not found" (Some url)
             | Some parsed =>
                 mkResult sym StatusOk (Some (p_close parsed))
                          (Some (p_date parsed)) None (Some url)
             end
         end
   end, [url]).
Proof.
  unfold out, fetchWSJ, url, sym. intros -> ->. reflexivity.
Qed.

Lemma fetchWSJ_cases :
  (sixLetters sym = false \/
   (sixLetters sym = true /\ endsWith "USD" sym = false)) \/
  (sixLetters sym = true /\ endsWith "USD" sym = true).
Proof.
  destruct (sixLetters sym); destruct (endsWith "USD" sym); auto.
Qed.

Lemma fetchWSJ_symbol : symbol (fst out) = sym.
Proof.
  destruct fetchWSJ_cases as [[H|[H1 H2]]|[H1 H2]].
  - rewrite (fetchWSJ_invalid H). reflexivity.
  - rewrite (fetchWSJ_reciprocal H1 H2). reflexivity.
  - rewrite (fetchWSJ_accepted H1 H2). cbn [fst].
    destruct (fetch url) as [e|st [csv|e]]; try reflexivity;
      destruct (negb (ok st)); try reflexivity.
    destruct (parseWSJCSV csv iso); reflexivity.
Qed.

(** The result names the URL exactly when a request was made. *)
Lemma fetchWSJ_source_url :
  (snd out = [] /\ source_url (fst out) = None) \/
  (snd out = [url] /\ source_url (fst out) = Some url).
Proof.
  destruct fetchWSJ_cases as [[H|[H1 H2]]|[H1 H2]].
  - left. rewrite (fetchWSJ_invalid H). split; reflexivity.
  - left. rewrite (fetchWSJ_reciprocal H1 H2). split; reflexivity.
  - right. rewrite (fetchWSJ_accepted H1 H2). cbn [fst snd].
    split; [reflexivity|].
    destruct (fetch url) as [e|st [csv|e]]; try reflexivity;
      destruct (negb (ok st)); try reflexivity.
    destruct (parseWSJCSV csv iso); reflexivity.
Qed.


(** A success carries the date asked for and a close that is a number. *)
Lemma fetchWSJ_ok :
  status (fst out) = StatusOk ->
  date (fst out) = Some iso /\
  error (fst out) = None /\
  source_url (fst out) = Some url /\
  exists c, close (fst out) = Some c /\ c <> "" /\ isNaN_Number c = false.
Proof.
  destruct fetchWSJ_cases as [[H|[H1 H2]]|[H1 H2]].
  - rewrite (fetchWSJ_invalid H). discriminate.
  - rewrite (fetchWSJ_reciprocal H1 H2). discriminate.
  - rewrite (fetchWSJ_accepted H1 H2). cbn [fst].
    destruct (fetch url) as [e|st [csv|e]]; cbn; try discriminate;
      destruct (negb (ok st)); cbn; try discriminate.
    destruct (parseWSJCSV csv iso) as [p|] eqn:Hp; cbn; [|discriminate].
    intros _. destruct (parseWSJCSV_some csv iso p Hp) as (Hd & Hc & Hn).
    rewrite Hd. repeat split. exists (p_close p). auto.
Qed.

End Fetch.

End FetchFacts.

(** ** The worker pool *)

Module PoolFacts.
Import Js Http Result Batch PoolSpec FetchFacts.

Lemma fetching_app r1 r2 :
  fetching (r1 ++ r2) = (fetching r1 ++ fetching r2)%list.
Proof. unfold fetching. rewrite filter_app, map_app. reflexivity. Qed.

Lemma fetching_running t r :
  fetching (mkPromise t false :: r) = t :: fetching r.
Proof. reflexivity. Qed.

Lemma fetching_pushed t r : fetching (mkPromise t true :: r) = fetching r.
Proof. reflexivity. Qed.

Lemma load_app r1 r2 : load (r1 ++ r2) = (load r1 + load r2)%nat.
Proof.
  induction r1 as [|p r1 IH]; cbn; [reflexivity|]. rewrite IH. lia.
Qed.

Lemma load_length r : (List.length r <= load r)%nat.
Proof.
  induction r as [|p r IH]; cbn; [lia|]. destruct (p_pushed p); lia.
Qed.

Lemma nth_error_cut {A : Type} (l : list A) i x :
  nth_error l i = Some x -> l = (firstn i l ++ x :: skipn (S i) l)%list.
Proof.
  revert i. induction l as [|y l IH]; intros [|i] H; try discriminate.
  - injection H as ->. reflexivity.
  - cbn [firstn skipn app]. f_equal. apply IH. exact H.
Qed.

Section Run.
Variable upstream : nat -> string -> FetchOutcome.
Variables mdy iso : string.

Local Abbreviation runOne := (Batch.runOne upstream mdy iso).
Local Abbreviation step := (Batch.step upstream mdy iso).
Local Abbreviation steps := (Batch.steps upstream mdy iso).
Local Abbreviation outstanding := (PoolSpec.outstanding upstream mdy iso).
Local Abbreviation advance := (Batch.advance upstream mdy iso).
Local Abbreviation runPool := (Batch.runPool upstream mdy iso).

Lemma steps_head p1 p2 p3 : step p1 p2 -> steps p2 p3 -> steps p1 p3.
Proof.
  intros H12 H23. induction H23 as [p|p2 p3 p4 _ IH H34].
  - eapply steps_step; [apply steps_refl | exact H12].
  - eapply steps_step; [apply IH; exact H12 | exact H34].
Qed.

(** No step loses or invents a result. *)
Lemma step_outstanding p p' :
  step p p' ->
  Permutation (results p' ++ outstanding p') (results p ++ outstanding p).
Proof.
  intros H. destruct H; unfold PoolSpec.outstanding;
    cbn [results running queue nextId].
  - rewrite fetching_app, map_app. cbn [tasksFrom map]. rewrite <- app_assoc.
    reflexivity.
  - reflexivity.
  - rewrite !fetching_app, fetching_running, fetching_pushed, !map_app.
    cbn [map]. rewrite <- !app_assoc. apply Permutation_app_head.
    cbn [app].
    apply (Permutation_middle
             (map runOne (fetching r1))
             (map runOne (fetching r2) ++ map runOne (tasksFrom n q))
             (runOne t)).
  - rewrite !fetching_app, fetching_pushed. reflexivity.
  - reflexivity.
Qed.

Lemma steps_outstanding p p' :
  steps p p' ->
  Permutation (results p' ++ outstanding p') (results p ++ outstanding p).
Proof.
  induction 1 as [p|p1 p2 p3 _ IH H23]; [reflexivity|].
  etransitivity; [apply step_outstanding; exact H23 | exact IH].
Qed.

(** When the loop is left every task has its result, once. *)
Lemma finished_results symbols p :
  steps (initial (map normalize symbols)) p -> finished p ->
  Permutation (results p) (perTask upstream mdy iso symbols).
Proof.
  intros Hs (_ & Hq & Hr). apply steps_outstanding in Hs.
  unfold PoolSpec.outstanding in Hs. rewrite Hq, Hr in Hs.
  cbn in Hs. rewrite app_nil_r in Hs. exact Hs.
Qed.

(** The cap. *)
Lemma step_cap p p' :
  step p p' ->
  (List.length (running p) <= CONCURRENCY)%nat ->
  (List.length (running p') <= CONCURRENCY)%nat.
Proof.
  intros H. destruct H; cbn [running]; rewrite ?length_app;
    cbn [List.length]; lia.
Qed.

Lemma steps_cap_from p p' :
  steps p p' ->
  (List.length (running p) <= CONCURRENCY)%nat ->
  (List.length (running p') <= CONCURRENCY)%nat.
Proof.
  induction 1 as [|p1 p2 p3 _ IH H23]; intros H0; [exact H0|].
  eapply step_cap; [exact H23 | apply IH; exact H0].
Qed.

Lemma steps_cap queue p :
  steps (initial queue) p -> (List.length (running p) <= CONCURRENCY)%nat.
Proof.
  intros H. apply (steps_cap_from _ _ H). cbn. unfold CONCURRENCY. lia.
Qed.

Lemma step_waits p p' : waitsForSome p -> step p p' -> waitsForSome p'.
Proof.
  intros Hw H. destruct H; unfold waitsForSome in *; cbn [phase running] in *;
    try discriminate.
  - intros _. assumption.
  - intros _ E. destruct r1; discriminate E.
Qed.

(** *** The scheduler runs the loop *)

Lemma advance_step pick p p' : advance pick p = Some p' -> step p p'.
Proof.
  destruct p as [q n r res f ph]. unfold Batch.advance.
  cbn [phase queue running nextId results fetched].
  destruct ph as [|[|]].
  - destruct q as [|sym q].
    + destruct r as [|t r]; [discriminate|]. intros [= <-].
      apply step_wait; [intros [H _]; apply H; reflexivity | discriminate].
    + destruct (Nat.ltb_spec (List.length r) CONCURRENCY) as [L|G];
        intros [= <-].
      * apply step_launch. exact L.
      * apply step_wait; [lia|].
        destruct r; [cbn in G; unfold CONCURRENCY in G; lia | discriminate].
  - intros [= <-]. apply step_resume.
  - destruct (nth_error r (pick mod List.length r)) as [[t [|]]|] eqn:E;
      [| |discriminate]; intros [= <-];
      rewrite (nth_error_cut r _ _ E) at 1.
    + apply step_delete.
    + apply step_push.
Qed.

Lemma advance_none pick p :
  advance pick p = None -> waitsForSome p -> finished p.
Proof.
  destruct p as [q n r res f ph]. unfold Batch.advance, waitsForSome, finished.
  cbn [phase queue running nextId results fetched].
  destruct ph as [|[|]].
  - destruct q as [|sym q].
    + destruct r; [auto|discriminate].
    + destruct (List.length r <? CONCURRENCY)%nat; discriminate.
  - discriminate.
  - intros H Hw. exfalso.
    destruct r as [|t r]; [apply Hw; reflexivity|].
    destruct (nth_error (t :: r) (pick mod List.length (t :: r)))
      as [[t' [|]]|] eqn:E; try discriminate.
    apply nth_error_None in E.
    pose proof (Nat.mod_upper_bound pick (List.length (t :: r))
                  ltac:(discriminate)).
    lia.
Qed.

Lemma step_weight p p' : step p p' -> (weight p' < weight p)%nat.
Proof.
  intros H. destruct H; unfold weight; cbn [phase queue running];
    rewrite ?load_app; cbn [load p_pushed List.length]; lia.
Qed.

Lemma runPool_steps fuel sched p : steps p (runPool fuel sched p).
Proof.
  revert sched p. induction fuel as [|k IH]; intros sched p; cbn.
  - apply steps_refl.
  - destruct (advance (hd O sched) p) as [p'|] eqn:E; [|apply steps_refl].
    eapply steps_head; [eapply advance_step; exact E | apply IH].
Qed.

(** With fuel for its weight the pool runs until the loop is left. *)
Lemma runPool_finished fuel sched p :
  waitsForSome p -> (weight p <= fuel)%nat ->
  finished (runPool fuel sched p).
Proof.
  revert sched p. induction fuel as [|k IH]; intros sched p Hw Hf; cbn.
  - exfalso. unfold weight, waitsForSome in *.
    destruct (phase p) as [|[|]]; try lia.
    pose proof (load_length (running p)).
    destruct (running p); [apply Hw; reflexivity | cbn in *; lia].
  - destruct (advance (hd O sched) p) as [p'|] eqn:E.
    + apply advance_step in E. apply IH.
      * eapply step_waits; eassumption.
      * apply step_weight in E. lia.
    + eapply advance_none; eassumption.
Qed.

Lemma initial_finishes sched symbols :
  finished (runPool (5 * List.length symbols + 1) sched
                    (initial (map normalize symbols))).
Proof.
  apply runPool_finished.
  - unfold waitsForSome. cbn. discriminate.
  - unfold weight. cbn. rewrite length_map. lia.
Qed.

(** Every run ends: no run has more steps than the weight it starts
    with. *)
Lemma steps_weight p p' : steps p p' -> (weight p' <= weight p)%nat.
Proof.
  induction 1 as [|p1 p2 p3 _ IH H23]; [lia|].
  apply step_weight in H23. lia.
Qed.

End Run.

End PoolFacts.

(** ** Sorting the items *)

Module SortFacts.
Import Result Batch SortSpec.

Lemma ascii_compare_chain a b c :
  Ascii.compare a b <> Gt -> Ascii.compare b c <> Gt ->
  Ascii.compare a c <> Gt /\
  (Ascii.compare a c = Eq ->
   Ascii.compare a b = Eq /\ Ascii.compare b c = Eq).
Proof.
  unfold Ascii.compare.
  destruct (N.compare_spec (N_of_ascii a) (N_of_ascii b));
    destruct (N.compare_spec (N_of_ascii b) (N_of_ascii c));
    destruct (N.compare_spec (N_of_ascii a) (N_of_ascii c));
    intros; try congruence; try lia; split; try congruence; try lia; auto.
Qed.

Lemma string_compare_chain a :
  forall b c, String.compare a b <> Gt -> String.compare b c <> Gt ->
              String.compare a c <> Gt.
Proof.
  induction a as [|x a IH]; intros [|y b] [|z c] Hab Hbc; cbn in *;
    try congruence.
  destruct (Ascii.compare x y) eqn:Exy; try congruence;
    destruct (Ascii.compare y z) eqn:Eyz; try congruence;
    pose proof (ascii_compare_chain x y z) as [Hle Heq];
    try (rewrite Exy; discriminate); try (rewrite Eyz; discriminate);
    destruct (Ascii.compare x z) eqn:Exz; try congruence;
    try (specialize (Heq eq_refl); destruct Heq; congruence).
  eapply IH; eassumption.
Qed.

Lemma string_compare_consistent : consistent String.compare.
Proof.
  split.
  - intros a b. apply String.compare_antisym.
  - intros a b c. apply string_compare_chain.
Qed.

Section Sort.
Variable localeCompare : string -> string -> comparison.
Hypothesis Hcmp : consistent localeCompare.

Local Abbreviation ordered := (SortSpec.ordered localeCompare).
Local Abbreviation tied := (SortSpec.tied localeCompare).
Local Abbreviation before := (Batch.before localeCompare).
Local Abbreviation insert := (Batch.insert localeCompare).
Local Abbreviation sort := (Batch.sort localeCompare).

Lemma before_ordered a b : before a b = true <-> ordered a b.
Proof.
  unfold Batch.before, SortSpec.ordered.
  destruct (localeCompare (symbol a) (symbol b)); split;
    congruence.
Qed.

Lemma ordered_total a b : ~ ordered a b -> ordered b a.
Proof.
  unfold SortSpec.ordered. intros H. destruct Hcmp as [Hflip _].
  rewrite (Hflip (symbol a) (symbol b)).
  destruct (localeCompare (symbol a) (symbol b)); cbn; try discriminate.
  exfalso. apply H. discriminate.
Qed.

Lemma ordered_trans a b c : ordered a b -> ordered b c -> ordered a c.
Proof. unfold SortSpec.ordered. destruct Hcmp as [_ Hchain]. apply Hchain. Qed.

Lemma tied_iff a b : tied a b <-> ordered a b /\ ordered b a.
Proof.
  unfold SortSpec.tied, SortSpec.ordered. destruct Hcmp as [Hflip _].
  rewrite (Hflip (symbol a) (symbol b)).
  destruct (localeCompare (symbol a) (symbol b)); cbn;
    intuition congruence.
Qed.

Lemma tied_refl a : tied a a.
Proof.
  unfold SortSpec.tied. destruct Hcmp as [Hflip _].
  specialize (Hflip (symbol a) (symbol a)).
  destruct (localeCompare (symbol a) (symbol a)); cbn in Hflip; congruence.
Qed.

Lemma tied_sym a b : tied a b -> tied b a.
Proof. rewrite !tied_iff. tauto. Qed.

Lemma tied_trans a b c : tied a b -> tied b c -> tied a c.
Proof.
  rewrite !tied_iff. intros [H1 H2] [H3 H4].
  split; eapply ordered_trans; eassumption.
Qed.

Lemma before_tied x y z z' :
  tied x y -> tied z z' -> before x z = before y z'.
Proof.
  rewrite !tied_iff. intros [Hxy Hyx] [Hzz Hzz'].
  destruct (before x z) eqn:E1; destruct (before y z') eqn:E2;
    try reflexivity; exfalso.
  - apply before_ordered in E1.
    assert (ordered y z')
      by (eapply ordered_trans; [exact Hyx|];
          eapply ordered_trans; eassumption).
    apply before_ordered in H. congruence.
  - apply before_ordered in E2.
    assert (ordered x z)
      by (eapply ordered_trans; [exact Hxy|];
          eapply ordered_trans; eassumption).
    apply before_ordered in H. congruence.
Qed.

Lemma Forall2_tied_refl l : Forall2 tied l l.
Proof. induction l; constructor; [apply tied_refl | assumption]. Qed.

Lemma Forall2_tied_trans l1 :
  forall l2 l3, Forall2 tied l1 l2 -> Forall2 tied l2 l3 -> Forall2 tied l1 l3.
Proof.
  induction l1 as [|a l1 IH]; intros l2 l3 H12 H23;
    inversion H12; subst; inversion H23; subst; constructor.
  - eapply tied_trans; eassumption.
  - eapply IH; eassumption.
Qed.

Lemma insert_perm x l : Permutation (insert x l) (x :: l).
Proof.
  induction l as [|y l IH]; cbn; [reflexivity|].
  destruct (before x y); [reflexivity|].
  rewrite IH. apply perm_swap.
Qed.

Lemma sort_perm l : Permutation (sort l) l.
Proof.
  induction l as [|x l IH]; cbn; [reflexivity|].
  rewrite insert_perm. apply perm_skip. exact IH.
Qed.

Lemma insert_sorted x l :
  StronglySorted ordered l -> StronglySorted ordered (insert x l).
Proof.
  induction 1 as [|y l Hs IH Hy]; cbn.
  - constructor; constructor.
  - destruct (before x y) eqn:E.
    + apply before_ordered in E.
      constructor; [constructor; assumption|].
      constructor; [exact E|].
      eapply Forall_impl; [|exact Hy].
      intros z Hz. eapply ordered_trans; eassumption.
    + constructor; [exact IH|].
      assert (Hyx : ordered y x).
      { apply ordered_total. intros H. apply before_ordered in H.
        congruence. }
      eapply Permutation_Forall; [symmetry; apply insert_perm|].
      constructor; assumption.
Qed.

Lemma sort_sorted l : StronglySorted ordered (sort l).
Proof.
  induction l as [|x l IH]; cbn; [constructor|].
  apply insert_sorted. exact IH.
Qed.

Lemma insert_tied x y l l' :
  tied x y -> Forall2 tied l l' ->
  Forall2 tied (insert x l) (insert y l').
Proof.
  intros Hxy H. induction H as [|z z' l l' Hz Hl IH]; cbn.
  - constructor; [exact Hxy | constructor].
  - rewrite (before_tied x y z z' Hxy Hz).
    destruct (before y z'); constructor; try assumption.
    constructor; assumption.
Qed.

(** Two insertions commute, up to symbols the comparator ties. *)
Lemma insert_insert x y l :
  Forall2 tied (insert x (insert y l)) (insert y (insert x l)).
Proof.
  induction l as [|z l IH]; cbn [Batch.insert].
  - destruct (before x y) eqn:Exy; destruct (before y x) eqn:Eyx; cbn [Batch.insert];
      rewrite ?Exy, ?Eyx; cbn [Batch.insert].
    + apply before_ordered in Exy, Eyx.
      constructor; [apply tied_iff; tauto|].
      constructor; [apply tied_iff; tauto|constructor].
    + apply Forall2_tied_refl.
    + apply Forall2_tied_refl.
    + exfalso.
      assert (ordered y x).
      { apply ordered_total. intros H. apply before_ordered in H.
        congruence. }
      apply before_ordered in H. congruence.
  - destruct (before y z) eqn:Eyz; destruct (before x z) eqn:Exz; cbn [Batch.insert];
      rewrite ?Eyz, ?Exz.
    + destruct (before x y) eqn:Exy; destruct (before y x) eqn:Eyx; cbn [Batch.insert];
        rewrite ?Eyz, ?Exz.
      * apply before_ordered in Exy, Eyx.
        constructor; [apply tied_iff; tauto|].
        constructor; [apply tied_iff; tauto|apply Forall2_tied_refl].
      * apply Forall2_tied_refl.
      * apply Forall2_tied_refl.
      * exfalso.
        assert (ordered y x).
        { apply ordered_total. intros H. apply before_ordered in H.
          congruence. }
        apply before_ordered in H. congruence.
    + assert (Exy : before x y = false).
      { destruct (before x y) eqn:E; [|reflexivity]. exfalso.
        apply before_ordered in E, Eyz.
        assert (ordered x z) by (eapply ordered_trans; eassumption).
        apply before_ordered in H. congruence. }
      rewrite Exy. cbn [Batch.insert]. rewrite ?Exz. apply Forall2_tied_refl.
    + assert (Eyx : before y x = false).
      { destruct (before y x) eqn:E; [|reflexivity]. exfalso.
        apply before_ordered in E, Exz.
        assert (ordered y z) by (eapply ordered_trans; eassumption).
        apply before_ordered in H. congruence. }
      rewrite Eyx. cbn [Batch.insert]. rewrite ?Eyz. apply Forall2_tied_refl.
    + constructor; [apply tied_refl | exact IH].
Qed.

(** The sorted array depends on the order of arrival only between
    symbols the comparator ties. *)
Lemma sort_tied l l' :
  Permutation l l' -> Forall2 tied (sort l) (sort l').
Proof.
  induction 1 as [|x l l' _ IH|x y l|l1 l2 l3 _ IH12 _ IH23]; cbn.
  - constructor.
  - apply insert_tied; [apply tied_refl | exact IH].
  - apply insert_insert.
  - eapply Forall2_tied_trans; eassumption.
Qed.

End Sort.

End SortFacts.

(** ** The handler of [src/api/fx.js] *)

Module HandlerFacts.
Import Js JsDate Dates DateSpec Http Result Batch PoolSpec RequestSpec.
Import CalendarFacts IsoFacts ResolverFacts FetchFacts PoolFacts SortFacts.


Lemma matchesDate_nonempty s : matchesDate s = true -> String.eqb s "" = false.
Proof. destruct s; [discriminate | reflexivity]. Qed.

(** A value that counts as false has no text of the shape of a date. *)
Lemma falsy_no_date v s :
  falsy (Some v) = true -> stringOf v = Ok s -> matchesDate s = false.
Proof.
  destruct v as [t|l| | | |t|]; cbn [falsy]; intros Hf Hs;
    try discriminate Hf; cbn in Hs; injection Hs as <-; try reflexivity.
  apply String.eqb_eq in Hf. subst t. reflexivity.
Qed.

(** The test of line 46, or 21, sends back the dates the specification
    rejects. *)
Lemma validDate_rejected d :
  validDate d = Ok None <-> dateRejected d = true.
Proof.
  unfold validDate, dateRejected. destruct d as [v|]; [|split; reflexivity].
  destruct (falsy (Some v)) eqn:Hf; [split; reflexivity|]. cbn [orb].
  destruct (stringOf v) as [s|e]; [|split; discriminate].
  destruct (matchesDate s); split; (reflexivity || discriminate).
Qed.

Lemma validDate_text v s :
  stringOf v = Ok s -> matchesDate s = true ->
  validDate (Some v) = Ok (Some s).
Proof.
  intros Hs Hm. unfold validDate.
  destruct (falsy (Some v)) eqn:Hf.
  - rewrite (falsy_no_date v s Hf Hs) in Hm. discriminate.
  - rewrite Hs, Hm. reflexivity.
Qed.

Lemma validDate_inv d s :
  validDate d = Ok (Some s) ->
  exists v, d = Some v /\ stringOf v = Ok s /\ matchesDate s = true.
Proof.
  unfold validDate. destruct (falsy d); [discriminate|].
  destruct d as [v|]; [|discriminate].
  destruct (stringOf v) as [t|e] eqn:Hs; [|discriminate].
  destruct (matchesDate t) eqn:Hm; [|discriminate].
  intros [= <-]. exists v. split; [reflexivity|]. split; assumption.
Qed.

Lemma validDate_throws d e :
  validDate d = Throw e <->
  exists v, d = Some v /\ falsy d = false /\ stringOf v = Throw e.
Proof.
  unfold validDate. split.
  - destruct (falsy d) eqn:Hf; [discriminate|].
    destruct d as [v|]; [|discriminate].
    destruct (stringOf v) as [t|x] eqn:Hs.
    + destruct (matchesDate t); discriminate.
    + intros [= <-]. exists v. split; [reflexivity|].
      split; [reflexivity|exact Hs].
  - intros (v & -> & Hf & Hs). rewrite Hf, Hs. reflexivity.
Qed.

Lemma coverageOf_stringOrFalsy what c :
  match coverageOf what c with
  | Ok _ => stringOrFalsy c = true
  | Throw e =>
      stringOrFalsy c = false /\
      e = notAFunction
            ("(" ++ what ++ " || " ++ quoted "full" ++ ").toLowerCase")
  end.
Proof.
  unfold coverageOf, falsy, stringOrFalsy.
  destruct c as [[s|l| | | |t|]|]; try reflexivity;
    try (split; reflexivity).
  destruct (String.eqb s ""); reflexivity.
Qed.

Lemma parseSymbolList_stringOrFalsy s :
  match parseSymbolList s with
  | Ok _ => stringOrFalsy s = true
  | Throw e => stringOrFalsy s = false /\ e = notAFunction "s.split"
  end.
Proof.
  unfold parseSymbolList, falsy, stringOrFalsy.
  destruct s as [[s|l| | | |t|]|]; try reflexivity;
    try (split; reflexivity).
  destruct (String.eqb s ""); reflexivity.
Qed.

Lemma cleanIfArray_printable s :
  match cleanIfArray s with
  | Ok _ => forall l, s = Some (VArr l) -> printable l = true
  | Throw e => exists l, s = Some (VArr l) /\ textsOf l = Throw e
  end.
Proof.
  unfold cleanIfArray, printable, bind.
  destruct s as [[t|l| | | |t|]|]; try (intros l' H; discriminate H).
  destruct (textsOf l) as [texts|e] eqn:Ht.
  - intros l' [= <-]. rewrite Ht. reflexivity.
  - exists l. split; [reflexivity|exact Ht].
Qed.

Lemma method_cases req :
  getOrPost req = true ->
  (String.eqb (method req) "GET" = true /\
   String.eqb (method req) "POST" = false) \/
  (String.eqb (method req) "GET" = false /\
   String.eqb (method req) "POST" = true).
Proof.
  unfold getOrPost.
  destruct (String.eqb_spec (method req) "GET") as [E|N].
  - intros _. left. rewrite E. split; reflexivity.
  - cbn [orb]. intros H. right. split; [reflexivity|exact H].
Qed.

Lemma parseInput_method req :
  match parseInput req with
  | Ok (Some (d, _)) => getOrPost req = true /\ d = requestDate req
  | Ok None => getOrPost req = false
  | Throw _ => getOrPost req = true
  end.
Proof.
  unfold parseInput, getOrPost, requestDate, bodyField, bind.
  destruct (String.eqb (method req) "GET").
  - destruct (coverageOf _ _); [|reflexivity].
    destruct (parseSymbolList _); [split; reflexivity|reflexivity].
  - destruct (String.eqb (method req) "POST"); [|reflexivity].
    destruct (body req) as [|b|e]; [| |reflexivity];
      (destruct (coverageOf _ _); [|reflexivity]);
      (destruct (cleanIfArray _); [split; reflexivity|reflexivity]).
Qed.

(** How the parse of lines 32-44 ends on a GET or a POST. *)
Lemma parseInput_cases req :
  getOrPost req = true ->
  match parseInput req with
  | Ok _ => malformed req = false
  | Throw e =>
      malformed req = true /\
      (bodyError req = Some e \/
       (bodyError req = None /\
        stringOrFalsy (coverageField req) = false /\
        e = coverageError req) \/
       (stringOrFalsy (coverageField req) = true /\
        stringOrFalsy (symbolsField req) = false /\
        e = notAFunction "s.split") \/
       (bodyError req = None /\
        stringOrFalsy (coverageField req) = true /\
        exists l, postedSymbols req = Some l /\ textsOf l = Throw e))
  end.
Proof.
  intros Hm.
  unfold parseInput, malformed, bodyError, postedSymbols, coverageField,
    symbolsField, coverageError, bodyField, bind.
  destruct (method_cases req Hm) as [[-> ->]|[-> ->]].
  - pose proof (coverageOf_stringOrFalsy "req.query.coverage"
                  (q_coverage (query req))) as H1.
    destruct (coverageOf _ _).
    + pose proof (parseSymbolList_stringOrFalsy (q_symbols (query req)))
        as H2.
      destruct (parseSymbolList _).
      * rewrite H1, H2. reflexivity.
      * destruct H2 as [H2 ->]. rewrite H1, H2. split; [reflexivity|].
        right. right. left. repeat split; assumption.
    + destruct H1 as [H1 ->]. rewrite H1. split; [reflexivity|].
      right. left. repeat split.
  - destruct (body req) as [|b|e].
    + cbn. reflexivity.
    + pose proof (coverageOf_stringOrFalsy "req.body?.coverage"
                    (b_coverage b)) as H1.
      destruct (coverageOf _ _).
      * pose proof (cleanIfArray_printable (b_symbols b)) as H2.
        destruct (cleanIfArray _).
        -- rewrite H1. cbn [negb orb stringOrFalsy].
           destruct (b_symbols b) as [[t|l| | | |t|]|]; try reflexivity.
           rewrite (H2 l eq_refl). reflexivity.
        -- destruct H2 as (l & -> & Ht). rewrite H1.
           unfold printable. rewrite Ht. split; [reflexivity|].
           right. right. right. split; [reflexivity|].
           split; [reflexivity|]. exists l. split; [reflexivity|exact Ht].
      * destruct H1 as [H1 ->]. rewrite H1. split; [reflexivity|].
        right. left. repeat split.
    + split; [reflexivity|]. left. reflexivity.
Qed.

Lemma parseInput_ok req :
  getOrPost req = true -> malformed req = false ->
  exists d s, parseInput req = Ok (Some (d, s)).
Proof.
  intros Hm Hw. pose proof (parseInput_cases req Hm) as Hc.
  pose proof (parseInput_method req) as Hp.
  destruct (parseInput req) as [[[d s]|]|e].
  - exists d, s. reflexivity.
  - congruence.
  - destruct Hc as [Hc _]. congruence.
Qed.

Lemma parseInput_throws req :
  getOrPost req = true -> malformed req = true ->
  exists e, parseInput req = Throw e.
Proof.
  intros Hm Hw. pose proof (parseInput_cases req Hm) as Hc.
  destruct (parseInput req) as [r|e]; [congruence|].
  exists e. reflexivity.
Qed.

Lemma prepare_405 tz req :
  getOrPost req = false -> Batch.prepare tz req = Reply 405 "Use GET or POST".
Proof.
  intros H. unfold Batch.prepare.
  pose proof (parseInput_method req) as Hp.
  destruct (parseInput req) as [[[d s]|]|e]; [|reflexivity|congruence].
  destruct Hp as [Hp _]. congruence.
Qed.

Lemma prepare_400 tz req r :
  parseInput req = Ok r ->
  getOrPost req = true -> dateRejected (requestDate req) = true ->
  Batch.prepare tz req = Reply 400 "date must be YYYY-MM-DD".
Proof.
  intros Hr H Hd. unfold Batch.prepare.
  pose proof (parseInput_method req) as Hp. rewrite Hr in *.
  destruct r as [[d s]|]; [|congruence].
  destruct Hp as [_ ->].
  rewrite (proj2 (validDate_rejected _) Hd). reflexivity.
Qed.

(** An exception of the parse is answered before the date is looked at. *)
Lemma prepare_500 tz req e :
  parseInput req = Throw e -> Batch.prepare tz req = Reply 500 (describe e).
Proof. intros H. unfold Batch.prepare. rewrite H. reflexivity. Qed.

(** The resolver answers on every date of the calendar. *)
Lemma resolver_total tz date n :
  zone tz -> isoDay date = Some n ->
  exists iso, priorBizIfWeekend tz date = Ok iso.
Proof.
  intros Hz Hs. unfold zone in Hz.
  pose proof (isoDay_range date n Hs) as Hn.
  destruct (isoDay_inv date n Hs)
    as (y & m & d & _ & Hp & Hy & Hm & Hd & _ & ->).
  rewrite (resolver_time tz date y m d Hp Hm) by lia.
  eexists. reflexivity.
Qed.

Lemma isoDay_matches date n : isoDay date = Some n -> matchesDate date = true.
Proof.
  unfold isoDay. destruct (matchesDate date); [reflexivity|discriminate].
Qed.

Lemma prepare_fanout tz req date text n symbols :
  zone tz -> parseInput req = Ok (Some (Some date, Arr symbols)) ->
  stringOf date = Ok text -> isoDay text = Some n ->
  exists iso, priorBizIfWeekend tz text = Ok iso /\
              Batch.prepare tz req = Fanout iso (toMMDDYYYY iso) symbols.
Proof.
  intros Hz Hp Ht Hs.
  destruct (resolver_total tz text n Hz Hs) as [iso Hiso].
  exists iso. split; [exact Hiso|].
  unfold Batch.prepare.
  rewrite Hp, (validDate_text date text Ht (isoDay_matches _ n Hs)), Hiso.
  reflexivity.
Qed.

(** The requests that get to the fan-out: GET or POST, with symbols given
    or a coverage that names no inherited property. *)
Lemma orCoverage_list symbols coverage :
  (exists s l, symbols = Some (s :: l)) \/
  (String.eqb coverage "constructor" || String.eqb coverage "__proto__"
   = false) ->
  exists l, orCoverage symbols coverage = Arr l.
Proof.
  intros [(s & l & ->)|Hc]; [exists (s :: l); reflexivity|].
  unfold orCoverage, COVERAGE_or_full. rewrite Hc.
  destruct symbols as [[|s l]|]; try (eexists; reflexivity);
    destruct (String.eqb coverage "majors");
    destruct (String.eqb coverage "extended");
    destruct (String.eqb coverage "full"); eexists; reflexivity.
Qed.

Section Handler.
Variable localeCompare : string -> string -> comparison.
Variable tz : Z.
Variable upstream : nat -> string -> FetchOutcome.

Local Abbreviation prepare := (Batch.prepare tz).
Local Abbreviation handler := (Batch.handler localeCompare tz upstream).
Local Abbreviation serve := (Batch.serve localeCompare tz upstream).
Local Abbreviation respond := (Batch.respond localeCompare).

(** What a run of the handler is, by what was prepared. *)
Lemma handler_inv req resp log :
  handler req resp log ->
  match prepare req with
  | Reply code msg => resp = ErrorReply code msg /\ log = []
  | Fanout iso mdy symbols =>
      exists p,
        steps upstream mdy iso (initial (map normalize symbols)) p /\
        finished p /\
        resp = respond iso symbols (results p) /\ log = fetched p
  end.
Proof.
  intros H. destruct H as [code msg Hp | iso mdy symbols p Hp Hs Hf];
    rewrite Hp.
  - split; reflexivity.
  - exists p. split; [exact Hs|]. split; [exact Hf|]. split; reflexivity.
Qed.

(** Under every scheduler the handler answers. *)
Lemma handler_serve sched req :
  handler req (fst (serve sched req)) (snd (serve sched req)).
Proof.
  unfold Batch.serve. destruct (prepare req) as [code msg|iso mdy symbols] eqn:Hp.
  - apply handler_reply. exact Hp.
  - cbn [fst snd]. eapply handler_batch.
    + exact Hp.
    + apply runPool_steps.
    + apply initial_finishes.
Qed.

Lemma handler_reply_only req code msg resp log :
  prepare req = Reply code msg ->
  (handler req resp log <-> resp = ErrorReply code msg /\ log = []).
Proof.
  intros Hp. split.
  - intros H. apply handler_inv in H. rewrite Hp in H. exact H.
  - intros [-> ->]. apply handler_reply. exact Hp.
Qed.

(** The items of a batch: the result of every task, once. *)
Lemma batch_items req iso mdy symbols resp log :
  prepare req = Fanout iso mdy symbols -> handler req resp log ->
  exists results,
    Permutation results (perTask upstream mdy iso symbols) /\
    resp = respond iso symbols results.
Proof.
  intros Hp H. apply handler_inv in H. rewrite Hp in H.
  destruct H as (p & Hs & Hf & -> & _).
  exists (results p). split; [|reflexivity].
  apply finished_results; assumption.
Qed.

Lemma tasksFrom_length i l : List.length (tasksFrom i l) = List.length l.
Proof.
  revert i. induction l as [|s l IH]; intros i; cbn; [reflexivity|].
  rewrite IH. reflexivity.
Qed.

Lemma perTask_length mdy iso symbols :
  List.length (perTask upstream mdy iso symbols) = List.length symbols.
Proof.
  unfold perTask. rewrite length_map, tasksFrom_length, length_map.
  reflexivity.
Qed.

Lemma tasksFrom_symbols mdy iso i l :
  map (fun t => symbol (runOne upstream mdy iso t)) (tasksFrom i l) =
  map normalize l.
Proof.
  revert i. induction l as [|s l IH]; intros i; cbn [tasksFrom map];
    [reflexivity|].
  rewrite IH. f_equal. unfold runOne. cbn [t_id t_sym].
  apply fetchWSJ_symbol.
Qed.

Lemma perTask_symbols mdy iso symbols :
  map symbol (perTask upstream mdy iso symbols) = map normalize symbols.
Proof.
  unfold perTask. rewrite map_map, tasksFrom_symbols, map_map.
  apply map_ext. intros s. apply normalize_idem.
Qed.

Lemma perTask_member mdy iso symbols r :
  In r (perTask upstream mdy iso symbols) ->
  exists i raw, r = fst (fetchWSJ (upstream i) raw mdy iso).
Proof.
  unfold perTask. intros H. apply in_map_iff in H.
  destruct H as (t & <- & _). exists (t_id t), (t_sym t). reflexivity.
Qed.

End Handler.

End HandlerFacts.

Module CountFacts.
Import Result.

Lemma filter_count_perm {A : Type} (f : A -> bool) (l l' : list A) :
  Permutation l l' ->
  List.length (filter f l) = List.length (filter f l').
Proof.
  induction 1 as [|x l l' _ IH|x y l|l1 l2 l3 _ IH12 _ IH23]; cbn.
  - reflexivity.
  - destruct (f x); cbn; rewrite IH; reflexivity.
  - destruct (f x); destruct (f y); reflexivity.
  - rewrite IH12. exact IH23.
Qed.

End CountFacts.

(** ** The handler of [src/API/fx.js] *)

Module SimpleFacts.
Import Js JsDate Dates DateSpec Http Result RequestSpec.
Import HandlerFacts.

Lemma simple_fetchWSJ_symbol fetch d_mdy d_short raw :
  symbol (fst (Simple.fetchWSJ fetch d_mdy d_short raw)) =
  Simple.normalize raw.
Proof.
  unfold Simple.fetchWSJ.
  destruct (sixLetters (Simple.normalize raw)); [|reflexivity].
  destruct (endsWith "USD" (Simple.normalize raw)); [|reflexivity].
  cbn [negb fst].
  destruct (fetch _) as [e|st [t|e]]; try reflexivity;
    destruct (negb (ok st)); try reflexivity.
  destruct (find _ _); [|reflexivity].
  destruct (nth_error _ 4); [|reflexivity].
  destruct (_ || _); reflexivity.
Qed.

Lemma mapFrom_length {A B : Type} (f : nat -> A -> B) l :
  forall i, List.length (Simple.mapFrom i f l) = List.length l.
Proof.
  induction l as [|x l IH]; intros i; cbn; [reflexivity|].
  rewrite IH. reflexivity.
Qed.

Lemma mapFrom_symbols (upstream : nat -> string -> FetchOutcome)
    d_mdy d_short l :
  forall i,
    map symbol
      (map fst (Simple.mapFrom i
                  (fun i s => Simple.fetchWSJ (upstream i) d_mdy d_short s) l))
    = map Simple.normalize l.
Proof.
  induction l as [|x l IH]; intros i; cbn [Simple.mapFrom map];
    [reflexivity|].
  rewrite IH, simple_fetchWSJ_symbol. reflexivity.
Qed.

(** The calls on values that all have a text are the calls on the texts. *)
Lemma calls_printable (upstream : nat -> string -> FetchOutcome)
    d_mdy d_short l :
  forall texts i,
    textsOf l = Ok texts ->
    Simple.all (map fst (Simple.mapFrom i
                           (fun i s => Simple.call (upstream i) d_mdy
                                                   d_short s) l))
    = Ok (map fst (Simple.mapFrom i
                     (fun i s => Simple.fetchWSJ (upstream i) d_mdy d_short s)
                     texts)) /\
    List.concat (map snd (Simple.mapFrom i
                            (fun i s => Simple.call (upstream i) d_mdy
                                                    d_short s) l))
    = List.concat (map snd (Simple.mapFrom i
                              (fun i s => Simple.fetchWSJ (upstream i) d_mdy
                                                          d_short s)
                              texts)).
Proof.
  induction l as [|x l IH]; intros texts i; cbn [textsOf].
  - intros [= <-]. split; reflexivity.
  - destruct (stringOf x) as [t|e] eqn:Hx; [|discriminate].
    destruct (textsOf l) as [ts|e] eqn:Hl; [|discriminate].
    intros [= <-]. destruct (IH ts (S i) eq_refl) as [H1 H2].
    cbn [Simple.mapFrom map Simple.all List.concat].
    unfold Simple.call at 1 3. rewrite Hx. cbn [fst snd].
    rewrite H1, H2. split; reflexivity.
Qed.

(** A value without a text rejects the whole batch. *)
Lemma calls_rejected (upstream : nat -> string -> FetchOutcome)
    d_mdy d_short l :
  forall e i,
    textsOf l = Throw e ->
    Simple.all (map fst (Simple.mapFrom i
                           (fun i s => Simple.call (upstream i) d_mdy
                                                   d_short s) l))
    = Throw e.
Proof.
  induction l as [|x l IH]; intros e i; cbn [textsOf]; [discriminate|].
  cbn [Simple.mapFrom map Simple.all]. unfold Simple.call at 1.
  destruct (stringOf x) as [t|e'] eqn:Hx.
  - cbn [fst]. destruct (textsOf l) as [ts|e''] eqn:Hl; [discriminate|].
    intros [= <-]. rewrite (IH e'' (S i) eq_refl). reflexivity.
  - intros [= <-]. reflexivity.
Qed.

Section Handler.
Variable tz : Z.
Variable upstream : nat -> string -> FetchOutcome.

Lemma simple_parseInput_method req :
  match Simple.parseInput req with
  | Ok (Some (d, _)) =>
      getOrPost req = true /\ d = requestDate req /\
      malformedSimple req = false
  | Ok None => getOrPost req = false
  | Throw e =>
      getOrPost req = true /\ malformedSimple req = true /\
      (bodyError req = Some e \/
       (stringOrFalsy (symbolsField req) = false /\
        e = notAFunction "s.split"))
  end.
Proof.
  unfold Simple.parseInput, getOrPost, requestDate, malformedSimple,
    bodyError, symbolsField, bodyField, bind.
  destruct (String.eqb_spec (method req) "GET") as [E|N].
  - rewrite E. change (String.eqb "GET" "POST") with false.
    unfold falsy, stringOrFalsy.
    destruct (q_symbols (query req)) as [[s|l| | | |t|]|];
      try (repeat split; reflexivity);
      try (split; [reflexivity|]; split; [reflexivity|]; right; split;
           reflexivity).
    destruct (String.eqb s ""); repeat split; reflexivity.
  - destruct (String.eqb (method req) "POST"); [|reflexivity].
    destruct (body req) as [|b|e].
    + repeat split; reflexivity.
    + destruct (b_symbols b) as [[s|l| | | |t|]|]; repeat split; reflexivity.
    + split; [reflexivity|]. split; [reflexivity|]. left. reflexivity.
Qed.

Lemma simple_parseInput_ok req :
  getOrPost req = true -> malformedSimple req = false ->
  exists symbols, Simple.parseInput req = Ok (Some (requestDate req, symbols)).
Proof.
  intros Hm Hw. pose proof (simple_parseInput_method req) as Hp.
  destruct (Simple.parseInput req) as [[[d l]|]|e].
  - destruct Hp as (_ & -> & _). exists l. reflexivity.
  - congruence.
  - destruct Hp as (_ & Hp & _). congruence.
Qed.

Lemma handler_405 req :
  getOrPost req = false ->
  Simple.handler tz upstream req = (ErrorReply 405 "Use GET or POST", []).
Proof.
  intros H. unfold Simple.handler.
  pose proof (simple_parseInput_method req) as Hp.
  destruct (Simple.parseInput req) as [[[d s]|]|e]; [|reflexivity|].
  - destruct Hp as [Hp _]. congruence.
  - destruct Hp as [Hp _]. congruence.
Qed.

Lemma handler_400 req r :
  Simple.parseInput req = Ok r ->
  getOrPost req = true -> dateRejected (requestDate req) = true ->
  Simple.handler tz upstream req =
  (ErrorReply 400 "date must be YYYY-MM-DD", []).
Proof.
  intros Hr H Hd. unfold Simple.handler.
  pose proof (simple_parseInput_method req) as Hp. rewrite Hr in *.
  destruct r as [[d s]|]; [|congruence].
  destruct Hp as (_ & -> & _).
  rewrite (proj2 (validDate_rejected _) Hd). reflexivity.
Qed.

(** An exception of the parse is answered before the date is looked at. *)
Lemma handler_500 req e :
  Simple.parseInput req = Throw e ->
  Simple.handler tz upstream req = (ErrorReply 500 (asString e), []).
Proof. intros H. unfold Simple.handler. rewrite H. reflexivity. Qed.

(** One item for every symbol, in the order of the request. *)
Lemma handler_items req date text n symbols texts :
  zone tz -> Simple.parseInput req = Ok (Some (Some date, symbols)) ->
  symbols <> [] -> stringOf date = Ok text -> isoDay text = Some n ->
  textsOf symbols = Ok texts ->
  exists iso items,
    fst (Simple.handler tz upstream req) =
      Plain200 "s-maxage=120, stale-while-revalidate=300" iso items /\
    priorBizIfWeekend tz text = Ok iso /\
    map symbol items = map Simple.normalize texts.
Proof.
  intros Hz Hp Hne Ht Hs Hx.
  destruct (resolver_total tz text n Hz Hs) as [iso Hiso].
  unfold Simple.handler.
  rewrite Hp, (validDate_text date text Ht (isoDay_matches _ n Hs)).
  destruct symbols as [|s l]; [contradiction|].
  rewrite Hiso. cbv zeta. cbn [fst].
  destruct (calls_printable upstream (toMMDDYYYY iso) (Simple.mmddyy iso)
              (s :: l) texts 0 Hx) as [H1 _].
  rewrite H1.
  eexists. eexists. split; [reflexivity|]. split; [reflexivity|].
  apply mapFrom_symbols.
Qed.

End Handler.

(** Where the two versions part.  This one leaves the items in the order of
    the request, and it reads the close at the fifth cell of the first line
    that begins with the date, whatever the header says. *)
Lemma simple_keeps_request_order :
  map symbol
      (itemsOf (fst (Simple.handler 0 (Samples.always CsvSpec.sample)
                                    Samples.descendingRequest))) =
  ["GBPUSD"; "EURUSD"].
Proof. vm_compute. reflexivity. Qed.

Lemma simple_reads_fifth_cell :
  error (fst (Simple.fetchWSJ (Samples.always CsvSpec.sampleShuffled 0)
                              "06/07/2024" "06/07/24" "EURUSD")) =
    Some "date row missing" /\
  error (fst (Simple.fetchWSJ (Samples.always CsvSpec.sampleShortRow 0)
                              "06/07/2024" "06/07/24" "EURUSD")) =
    Some "close parse failed" /\
  close (fst (Simple.fetchWSJ (Samples.always CsvSpec.sample 0)
                              "06/07/2024" "06/07/24" "EURUSD")) =
    Some "1.085".
Proof. repeat split; vm_compute; reflexivity. Qed.

(** Every request of the batch is made before the first answer is read:
    twenty symbols, twenty requests. *)
Lemma simple_fetches_all_at_once :
  List.length
    (snd (Simple.handler 0 (Samples.always CsvSpec.sample)
            (mkRequest "POST" (mkQuery None None None)
               (Some (mkBody (Some "2024-06-07") None
                             (Some PoolSpec.twenty)))))) = 20%nat.
Proof. vm_compute. reflexivity. Qed.

End SimpleFacts.
(** ** The answer and the order in which the fetches settle *)

Module ScheduleFacts.
Import Js Http Result Batch PoolSpec SortSpec.
Import FetchFacts PoolFacts SortFacts HandlerFacts CountFacts.

Lemma NoDup_map_injective {A B : Type} (f : A -> B) l a b :
  NoDup (map f l) -> In a l -> In b l -> f a = f b -> a = b.
Proof.
  induction l as [|x l IH]; cbn; [tauto|].
  intros Hn Ha Hb E. inversion Hn as [|? ? Hx Hl]; subst.
  destruct Ha as [<-|Ha]; destruct Hb as [<-|Hb]; [reflexivity| | |auto].
  - exfalso. apply Hx. rewrite E. apply in_map. exact Hb.
  - exfalso. apply Hx. rewrite <- E. apply in_map. exact Ha.
Qed.

Lemma Forall2_equal {A : Type} (R : A -> A -> Prop) l1 l2 :
  Forall2 R l1 l2 ->
  (forall a b, In a l1 -> In b l2 -> R a b -> a = b) -> l1 = l2.
Proof.
  induction 1 as [|a b l1 l2 Hab _ IH]; intros Heq; [reflexivity|].
  f_equal.
  - apply Heq; [left; reflexivity|left; reflexivity|exact Hab].
  - apply IH. intros x y Hx Hy. apply Heq; right; assumption.
Qed.

Lemma Forall2_map_equal {A B : Type} (f : A -> B) (R : A -> A -> Prop)
    l1 l2 :
  Forall2 R l1 l2 ->
  (forall a b, In a l1 -> In b l2 -> R a b -> f a = f b) ->
  map f l1 = map f l2.
Proof.
  induction 1 as [|a b l1 l2 Hab _ IH]; intros Heq; [reflexivity|].
  cbn [map]. f_equal.
  - apply Heq; [left; reflexivity|left; reflexivity|exact Hab].
  - apply IH. intros x y Hx Hy. apply Heq; right; assumption.
Qed.

(** A sorted list is sorted for every relation that holds where the first
    one does between its members. *)
Lemma StronglySorted_among {A : Type} (R R' : A -> A -> Prop) l :
  StronglySorted R l ->
  (forall a b, In a l -> In b l -> R a b -> R' a b) ->
  StronglySorted R' l.
Proof.
  induction 1 as [|a l Hl IH Ha]; intros Himp; constructor.
  - apply IH. intros x y Hx Hy. apply Himp; right; assumption.
  - rewrite Forall_forall in *. intros b Hb.
    apply Himp; [left; reflexivity|right; exact Hb|apply Ha; exact Hb].
Qed.

(** Two sorted results of the same tasks are the same list, when the
    comparator tells the symbols of the tasks apart. *)
Lemma sort_unique localeCompare (all l1 l2 : list SymbolResult) :
  consistent localeCompare ->
  NoDup (map symbol all) ->
  (forall a b, In a (map symbol all) -> In b (map symbol all) ->
               localeCompare a b = Eq -> a = b) ->
  Permutation l1 all -> Permutation l2 all ->
  sort localeCompare l1 = sort localeCompare l2.
Proof.
  intros Hc Hn Hsep H1 H2.
  assert (H12 : Permutation l1 l2)
    by (etransitivity; [exact H1|symmetry; exact H2]).
  apply (Forall2_equal _ _ _ (sort_tied localeCompare Hc l1 l2 H12)).
  intros a b Ha Hb Ht.
  apply (Permutation_in _ (sort_perm localeCompare l1)) in Ha.
  apply (Permutation_in _ H1) in Ha.
  apply (Permutation_in _ (sort_perm localeCompare l2)) in Hb.
  apply (Permutation_in _ H2) in Hb.
  apply (NoDup_map_injective symbol all a b Hn Ha Hb).
  apply Hsep; [apply in_map; exact Ha|apply in_map; exact Hb|exact Ht].
Qed.

Section Stable.
Variable localeCompare : string -> string -> comparison.
Hypothesis Hcmp : consistent localeCompare.

Lemma compare_same s : localeCompare s s = Eq.
Proof.
  destruct Hcmp as [Hopp _]. specialize (Hopp s s).
  destruct (localeCompare s s); cbn in Hopp; congruence.
Qed.

Lemma before_same s x y :
  hasSymbol s x = true -> hasSymbol s y = true ->
  before localeCompare x y = true.
Proof.
  unfold hasSymbol, before. intros Hx Hy.
  apply String.eqb_eq in Hx, Hy. rewrite Hx, Hy, compare_same. reflexivity.
Qed.

(** The sort is stable: the results of one symbol keep their order. *)
Lemma insert_filter s x l :
  filter (hasSymbol s) (insert localeCompare x l) =
  if hasSymbol s x then x :: filter (hasSymbol s) l
  else filter (hasSymbol s) l.
Proof.
  induction l as [|y l IH]; cbn [insert filter]; [reflexivity|].
  destruct (before localeCompare x y) eqn:Hb; cbn [filter];
    [reflexivity|].
  rewrite IH.
  destruct (hasSymbol s x) eqn:Hx; destruct (hasSymbol s y) eqn:Hy;
    try reflexivity.
  rewrite (before_same s x y Hx Hy) in Hb. discriminate Hb.
Qed.

Lemma sort_filter s l :
  filter (hasSymbol s) (sort localeCompare l) = filter (hasSymbol s) l.
Proof.
  induction l as [|x l IH]; [reflexivity|].
  unfold sort in *. cbn [fold_right filter].
  rewrite insert_filter, IH. reflexivity.
Qed.

End Stable.

End ScheduleFacts.

(** * The claims *)

Import Js JsDate Dates DateSpec CalendarFacts IsoFacts ResolverFacts.

Section ResolverClaims.
Local Open Scope Z_scope.


(** C2, where the code keeps it.  On a host whose local time is between
    UTC-4 and UTC+14, for every ISO date of the calendar from 0000-01-03
    on: a Saturday resolves to the date one day earlier, a Sunday to the
    date two days earlier, any other day to itself.  So 2024-06-08 and
    2024-06-09 resolve to 2024-06-07, and 2024-06-10 to itself.  Elsewhere
    the resolver breaks the claim and the comments of lines 50, 98 and 99:
    see [C2_counterexample]. *)
Theorem C2_weekend_rolls_back_to_friday :
  forall tz, -240 <= tz <= 840 ->
    (forall s n, isoDay s = Some n -> firstDay + 2 <= n ->
       (weekday n = 6 ->
        exists r, priorBizIfWeekend tz s = Ok r /\ isoDay r = Some (n - 1)) /\
       (weekday n = 0 ->
        exists r, priorBizIfWeekend tz s = Ok r /\ isoDay r = Some (n - 2)) /\
       (weekday n <> 6 -> weekday n <> 0 ->
        priorBizIfWeekend tz s = Ok s)) /\
    priorBizIfWeekend tz "2024-06-08" = Ok "2024-06-07" /\
    priorBizIfWeekend tz "2024-06-09" = Ok "2024-06-07" /\
    priorBizIfWeekend tz "2024-06-10" = Ok "2024-06-10".
Proof.
  intros tz Hz.
  assert (Hgen : forall s n, isoDay s = Some n -> firstDay + 2 <= n ->
            priorBizIfWeekend tz s = Ok (isoOfDay (n - rollback (weekday n)))).
  { intros s n Hs Hn.
    pose proof (resolver_date tz s n Hs ltac:(lia)) as H. cbv zeta in H.
    rewrite (localShift_zero tz Hz), Z.add_0_r in H. apply H.
    pose proof (rollback_range (weekday n)). lia. }
  split; [|repeat split].
  - intros s n Hs Hn. pose proof (Hgen s n Hs Hn) as H.
    pose proof (isoDay_range s n Hs) as Hr.
    repeat split.
    + intros E. rewrite E in H. change (rollback 6) with 1 in H.
      eexists. split; [exact H|]. apply isoDay_isoOfDay. lia.
    + intros E. rewrite E in H. change (rollback 0) with 2 in H.
      eexists. split; [exact H|]. apply isoDay_isoOfDay. lia.
    + intros N6 N0. rewrite H. f_equal.
      replace (rollback (weekday n)) with 0.
      * rewrite Z.sub_0_r. apply isoOfDay_isoDay. exact Hs.
      * unfold rollback.
        destruct (Z.eqb_spec (weekday n) 6); [contradiction|].
        destruct (Z.eqb_spec (weekday n) 0); [contradiction|]. reflexivity.
  - apply (Hgen "2024-06-08" 19882); [reflexivity | unfold firstDay; lia].
  - apply (Hgen "2024-06-09" 19883); [reflexivity | unfold firstDay; lia].
  - apply (Hgen "2024-06-10" 19884); [reflexivity | unfold firstDay; lia].
Qed.

Lemma C2_witness :
  -240 <= 0 <= 840 /\ isoDay "2024-06-08" = Some 19882 /\
  firstDay + 2 <= 19882 /\ weekday 19882 = 6 /\
  exists r, priorBizIfWeekend 0 "2024-06-08" = Ok r /\
            isoDay r = Some (19882 - 1).
Proof.
  assert (Hz : -240 <= 0 <= 840) by lia.
  assert (Hs : isoDay "2024-06-08" = Some 19882) by reflexivity.
  assert (Hn : firstDay + 2 <= 19882) by (unfold firstDay; lia).
  assert (Hw : weekday 19882 = 6) by reflexivity.
  split; [exact Hz|]. split; [exact Hs|]. split; [exact Hn|].
  split; [exact Hw|].
  exact (proj1 (proj1 (C2_weekend_rolls_back_to_friday 0 Hz)
                  "2024-06-08" 19882 Hs Hn) Hw).
Defined.

(** Where the resolver breaks C2.  0000-01-01 is a Saturday: the resolver
    leaves year 0000, where [toISOString] writes the year with a sign and
    six digits, and the first ten characters are no date.  And on a host
    five hours west of UTC the local date at which [getDay] looks is the day
    before: the Sunday 2024-06-09 resolves to a Saturday. *)
Lemma C2_counterexample :
  (isoDay "0000-01-01" = Some firstDay /\ weekday firstDay = 6 /\
   priorBizIfWeekend 0 "0000-01-01" = Ok "-000001-12" /\
   ~ (exists r, priorBizIfWeekend 0 "0000-01-01" = Ok r /\
                isoDay r = Some (firstDay - 1))) /\
  (isoDay "2024-06-09" = Some 19883 /\ weekday 19883 = 0 /\
   priorBizIfWeekend (-300) "2024-06-09" = Ok "2024-06-08" /\
   priorBizIfWeekend (-300) "2024-06-09" <> Ok "2024-06-07").
Proof.
  assert (H0 : priorBizIfWeekend 0 "0000-01-01" = Ok "-000001-12")
    by (vm_compute; reflexivity).
  assert (H5 : priorBizIfWeekend (-300) "2024-06-09" = Ok "2024-06-08")
    by (vm_compute; reflexivity).
  split; [split; [reflexivity|]; split; [reflexivity|]; split; [exact H0|]
         |split; [reflexivity|]; split; [reflexivity|]; split; [exact H5|]].
  - intros (r & Hr & Hd). rewrite H0 in Hr. injection Hr as <-.
    vm_compute in Hd. discriminate Hd.
  - rewrite H5. discriminate.
Qed.




End ResolverClaims.

Import Http Csv CsvSpec Result Batch PoolSpec SortSpec RequestSpec Samples.
Import CsvFacts SymbolFacts FetchFacts PoolFacts SortFacts HandlerFacts.

Section MatcherClaims.

(** C3 (as amended).  The Date and Close columns are found by header name,
    whatever the case and the position; a row's date [mm/dd/yy] or
    [mm/dd/yyyy] is normalised to ISO, two-digit years going to 19xx above
    50 and to 20xx otherwise; rows that have no cell in both columns are
    skipped, and the first remaining row whose date is the target is taken;
    its close is returned unless it is empty or not a number, in which case
    the result is not-found.  The sample row gives [2024-06-07] and
    [1.085]; with [N/A] or nothing as its close it gives not-found. *)
Theorem C3_first_full_row_of_the_date :
  (forall csv target,
      parseWSJCSV csv target = matcher firstWideDated csv target) /\
  (forall mm dd yy,
      includesChar "/" mm = false -> includesChar "/" dd = false ->
      includesChar "/" yy = false -> twoCharsAreDigits yy ->
      rowISO (mm ++ "/" ++ dd ++ "/" ++ yy) =
      Some (pivotYear yy ++ "-" ++ padStart 2 "0" mm ++ "-" ++
            padStart 2 "0" dd)) /\
  (pivotYear "51" = "1951" /\ pivotYear "50" = "2050" /\
   pivotYear "24" = "2024" /\ pivotYear "2024" = "2024") /\
  parseWSJCSV sample "2024-06-07" = Some (mkParsed "2024-06-07" "1.085") /\
  parseWSJCSV sampleShuffled "2024-06-07" =
    Some (mkParsed "2024-06-07" "1.085") /\
  parseWSJCSV sampleNA "2024-06-07" = None /\
  parseWSJCSV sampleNoClose "2024-06-07" = None.
Proof.
  split; [exact parseWSJCSV_matcher|].
  split; [intros mm dd yy Hm Hd Hy H2; apply rowISO_mdy; assumption|].
  split; [repeat split; reflexivity|].
  repeat split; vm_compute; reflexivity.
Qed.

Lemma C3_witness :
  includesChar "/" "06" = false /\ includesChar "/" "07" = false /\
  includesChar "/" "24" = false /\ twoCharsAreDigits "24" /\
  rowISO ("06" ++ "/" ++ "07" ++ "/" ++ "24") =
  Some (pivotYear "24" ++ "-" ++ padStart 2 "0" "06" ++ "-" ++
        padStart 2 "0" "07").
Proof.
  assert (H2 : twoCharsAreDigits "24") by (split; reflexivity).
  split; [reflexivity|]. split; [reflexivity|]. split; [reflexivity|].
  split; [exact H2|].
  exact (proj1 (proj2 C3_first_full_row_of_the_date) "06" "07" "24"
               eq_refl eq_refl eq_refl H2).
Defined.

(** C3 as stated fails on a short row: the first row of the wanted date has
    no close cell, which the claim reads as not-found, but the source skips
    the row and takes the close of the next one. *)
Lemma C3_counterexample :
  matcher firstDated sampleShortRow "2024-06-07" = None /\
  parseWSJCSV sampleShortRow "2024-06-07" =
    Some (mkParsed "2024-06-07" "1.085") /\
  parseWSJCSV sampleShortRow "2024-06-07" <>
    matcher firstDated sampleShortRow "2024-06-07".
Proof.
  assert (H1 : matcher firstDated sampleShortRow "2024-06-07" = None)
    by (vm_compute; reflexivity).
  assert (H2 : parseWSJCSV sampleShortRow "2024-06-07" =
               Some (mkParsed "2024-06-07" "1.085"))
    by (vm_compute; reflexivity).
  split; [exact H1|]. split; [exact H2|]. rewrite H1, H2. discriminate.
Qed.

End MatcherClaims.

Section FetcherClaims.

(** C4.  The fetcher upper-cases and trims the symbol.  If the result is
    not six letters A to Z it answers an error "invalid symbol" and makes no
    request; if it is six letters not ending in USD it answers an error
    "not XXXUSD (reciprocals disabled)" and makes no request; otherwise it
    requests the download URL of the symbol.  EURUSD is accepted, USDEUR is
    refused as a reciprocal, EU as invalid, and eurusd is accepted as
    EURUSD.  The fetcher of [src/API/fx.js] validates in the same way. *)
Theorem C4_symbol_validation :
  (forall fetch raw mdy iso,
      (sixLetters (normalize raw) = false ->
       fetchWSJ fetch raw mdy iso =
       (failure (normalize raw) "invalid symbol" None, [])) /\
      (sixLetters (normalize raw) = true ->
       endsWith "USD" (normalize raw) = false ->
       fetchWSJ fetch raw mdy iso =
       (failure (normalize raw) "not XXXUSD (reciprocals disabled)" None,
        [])) /\
      (sixLetters (normalize raw) = true ->
       endsWith "USD" (normalize raw) = true ->
       snd (fetchWSJ fetch raw mdy iso) =
         [downloadURL (normalize raw) mdy] /\
       symbol (fst (fetchWSJ fetch raw mdy iso)) = normalize raw)) /\
  (forall fetch mdy iso,
      snd (fetchWSJ fetch "EURUSD" mdy iso) = [downloadURL "EURUSD" mdy] /\
      fetchWSJ fetch "USDEUR" mdy iso =
        (failure "USDEUR" "not XXXUSD (reciprocals disabled)" None, []) /\
      fetchWSJ fetch "EU" mdy iso = (failure "EU" "invalid symbol" None, []) /\
      normalize "eurusd" = "EURUSD" /\
      snd (fetchWSJ fetch "eurusd" mdy iso) = [downloadURL "EURUSD" mdy] /\
      symbol (fst (fetchWSJ fetch "eurusd" mdy iso)) = "EURUSD") /\
  (forall fetch d_mdy d_short,
      snd (Simple.fetchWSJ fetch d_mdy d_short "EURUSD") =
        [downloadURL "EURUSD" d_mdy] /\
      Simple.fetchWSJ fetch d_mdy d_short "USDEUR" =
        (failure "USDEUR" "not XXXUSD (reciprocals disabled)" None, []) /\
      Simple.fetchWSJ fetch d_mdy d_short "EU" =
        (failure "EU" "invalid symbol" None, []) /\
      snd (Simple.fetchWSJ fetch d_mdy d_short "eurusd") =
        [downloadURL "EURUSD" d_mdy]).
Proof.
  split; [|split].
  - intros fetch raw mdy iso. split; [|split].
    + apply fetchWSJ_invalid.
    + apply fetchWSJ_reciprocal.
    + intros H6 Hu. rewrite (fetchWSJ_accepted fetch raw mdy iso H6 Hu).
      split; [reflexivity|].
      rewrite <- (fetchWSJ_accepted fetch raw mdy iso H6 Hu).
      apply fetchWSJ_symbol.
  - intros fetch mdy iso. repeat split.
    apply (fetchWSJ_symbol fetch "eurusd" mdy iso).
  - intros fetch d_mdy d_short. repeat split.
Qed.

Lemma C4_witness :
  sixLetters (normalize "12") = false /\
  fetchWSJ (fun _ => Rejected (mkThrown "fetch failed" "TypeError"))
           "12" "06/07/2024" "2024-06-07" =
  (failure (normalize "12") "invalid symbol" None, []).
Proof.
  split; [reflexivity|].
  exact (proj1 (proj1 C4_symbol_validation
                  (fun _ => Rejected (mkThrown "fetch failed" "TypeError"))
                  "12" "06/07/2024" "2024-06-07") eq_refl).
Defined.

(** C10.  A result of the fetcher with status ok carries as its date the
    ISO date it was asked for, and as its close a string that is not empty
    and that [Number] reads as a number; in a response of the handler these
    are the resolved date of the response and the close of the row. *)
Theorem C10_ok_result_has_resolved_date_and_numeric_close :
  (forall fetch raw mdy iso,
      status (fst (fetchWSJ fetch raw mdy iso)) = StatusOk ->
      date (fst (fetchWSJ fetch raw mdy iso)) = Some iso /\
      exists c, close (fst (fetchWSJ fetch raw mdy iso)) = Some c /\
                c <> "" /\ isNaN_Number c = false) /\
  (forall localeCompare tz upstream req resp log item,
      handler localeCompare tz upstream req resp log ->
      In item (itemsOf resp) -> status item = StatusOk ->
      date item = resolvedDateOf resp /\
      exists c, close item = Some c /\ c <> "" /\ isNaN_Number c = false).
Proof.
  split.
  - intros fetch raw mdy iso H.
    destruct (fetchWSJ_ok fetch raw mdy iso H) as (Hd & _ & _ & Hc).
    split; assumption.
  - intros cmp tz upstream req resp log item H Hin Hok.
    pose proof (handler_inv cmp tz upstream req resp log H) as Hi.
    destruct (prepare tz req) as [code msg|iso mdy symbols] eqn:Hp.
    + destruct Hi as [-> _]. contradiction.
    + destruct (batch_items cmp tz upstream req iso mdy symbols resp log Hp H)
        as (res & Hperm & ->).
      cbn [itemsOf respond resolvedDateOf] in *.
      apply (Permutation_in _ (sort_perm cmp res)) in Hin.
      apply (Permutation_in _ Hperm) in Hin.
      destruct (perTask_member upstream mdy iso symbols item Hin)
        as (i & raw & ->).
      destruct (fetchWSJ_ok (upstream i) raw mdy iso Hok) as (Hd & _ & _ & Hc).
      split; assumption.
Qed.

Lemma C10_witness :
  status (fst (fetchWSJ (fun _ => Responded 200 (Text sample))
                        "EURUSD" "06/07/2024" "2024-06-07")) = StatusOk /\
  date (fst (fetchWSJ (fun _ => Responded 200 (Text sample))
                      "EURUSD" "06/07/2024" "2024-06-07")) =
    Some "2024-06-07" /\
  exists c,
    close (fst (fetchWSJ (fun _ => Responded 200 (Text sample))
                         "EURUSD" "06/07/2024" "2024-06-07")) = Some c /\
    c <> "" /\ isNaN_Number c = false.
Proof.
  assert (Hok : status (fst (fetchWSJ (fun _ => Responded 200 (Text sample))
                               "EURUSD" "06/07/2024" "2024-06-07"))
                = StatusOk) by (vm_compute; reflexivity).
  split; [exact Hok|].
  exact (proj1 C10_ok_result_has_resolved_date_and_numeric_close
               (fun _ => Responded 200 (Text sample))
               "EURUSD" "06/07/2024" "2024-06-07" Hok).
Defined.

End FetcherClaims.

Import CountFacts.

Section BatchClaims.






(** C6, where the code keeps it.  A request whose method is neither GET nor
    POST is answered 405 "Use GET or POST".  A GET or POST request whose
    date is missing or does not match the pattern is answered 400 "date
    must be YYYY-MM-DD" when the handler can read it: the body of a POST
    can be parsed, the coverage is absent or a string, the symbols of a GET
    are absent or a string and the symbols of a POST have a text each; the
    handler of [src/API/fx.js] reads no coverage and leaves the symbols of
    a POST as they are.  In both cases that is the only answer and no URL
    is requested.  A request that the handler cannot read is answered 500
    before its date is tested, again with no URL requested: see
    [C6_counterexample]. *)
Theorem C6_validation_fails_before_any_fetch :
  forall localeCompare tz upstream req,
    (getOrPost req = false ->
     (forall resp log,
         handler localeCompare tz upstream req resp log <->
         resp = ErrorReply 405 "Use GET or POST" /\ log = []) /\
     Simple.handler tz upstream req =
       (ErrorReply 405 "Use GET or POST", [])) /\
    (getOrPost req = true -> dateRejected (requestDate req) = true ->
     (malformed req = false ->
      forall resp log,
        handler localeCompare tz upstream req resp log <->
        resp = ErrorReply 400 "date must be YYYY-MM-DD" /\ log = []) /\
     (malformedSimple req = false ->
      Simple.handler tz upstream req =
        (ErrorReply 400 "date must be YYYY-MM-DD", [])) /\
     (malformed req = true ->
      forall resp log,
        handler localeCompare tz upstream req resp log ->
        statusCode resp = 500%Z /\ log = []) /\
     (malformedSimple req = true ->
      statusCode (fst (Simple.handler tz upstream req)) = 500%Z /\
      snd (Simple.handler tz upstream req) = [])).
Proof.
  intros cmp tz upstream req. split.
  - intros Hm. split.
    + intros resp log. apply handler_reply_only. apply prepare_405. exact Hm.
    + apply SimpleFacts.handler_405. exact Hm.
  - intros Hm Hd. split; [|split; [|split]].
    + intros Hw resp log. apply handler_reply_only.
      destruct (parseInput_ok req Hm Hw) as (d & s & Hr).
      apply (prepare_400 tz req _ Hr); assumption.
    + intros Hw.
      destruct (SimpleFacts.simple_parseInput_ok req Hm Hw) as [l Hr].
      apply (SimpleFacts.handler_400 tz upstream req _ Hr); assumption.
    + intros Hw resp log H.
      destruct (parseInput_throws req Hm Hw) as [e Hp].
      apply (handler_reply_only cmp tz upstream req 500%Z (describe e))
        in H; [|apply prepare_500; exact Hp].
      destruct H as [-> ->]. split; reflexivity.
    + intros Hw. pose proof (SimpleFacts.simple_parseInput_method req) as Hc.
      destruct (Simple.parseInput req) as [[[d l]|]|e] eqn:Hp.
      * destruct Hc as (_ & _ & Hc). congruence.
      * congruence.
      * rewrite (SimpleFacts.handler_500 tz upstream req _ Hp).
        split; reflexivity.
Qed.

Lemma C6_witness :
  getOrPost (mkRequest "GET" (mkQuery (Some "06/07/2024") None
                                      (Some "EURUSD")) None) = true /\
  dateRejected
    (requestDate (mkRequest "GET" (mkQuery (Some "06/07/2024") None
                                           (Some "EURUSD")) None)) = true /\
  malformed (mkRequest "GET" (mkQuery (Some "06/07/2024") None
                                      (Some "EURUSD")) None) = false /\
  (forall resp log,
      handler String.compare 0 sampleUpstream
              (mkRequest "GET" (mkQuery (Some "06/07/2024") None
                                        (Some "EURUSD")) None) resp log <->
      resp = ErrorReply 400 "date must be YYYY-MM-DD" /\ log = []) /\
  Simple.handler 0 sampleUpstream
    (mkRequest "GET" (mkQuery (Some "06/07/2024") None (Some "EURUSD")) None)
  = (ErrorReply 400 "date must be YYYY-MM-DD", []).
Proof.
  split; [reflexivity|]. split; [reflexivity|]. split; [reflexivity|].
  split.
  - exact (proj1 (proj2 (C6_validation_fails_before_any_fetch
                           String.compare 0%Z sampleUpstream
                           (mkRequest "GET"
                              (mkQuery (Some "06/07/2024") None
                                       (Some "EURUSD")) None))
                        eq_refl eq_refl) eq_refl).
  - exact (proj1 (proj2 (proj2 (C6_validation_fails_before_any_fetch
                                  String.compare 0%Z sampleUpstream
                                  (mkRequest "GET"
                                     (mkQuery (Some "06/07/2024") None
                                              (Some "EURUSD")) None))
                               eq_refl eq_refl)) eq_refl).
Defined.

(** Where the handlers break C6.  A GET whose date has slashes and whose
    parameter [coverage] is given twice holds an array as coverage:
    [toLowerCase] is no method of it, line 34 throws, and the answer of
    [src/api/fx.js] is a 500 and not the 400 of line 47.  With [symbols]
    given twice it is [split] that throws, in both handlers. *)
Lemma C6_counterexample :
  (getOrPost twiceCoverageRequest = true /\
   dateRejected (requestDate twiceCoverageRequest) = true /\
   serve String.compare 0 sampleUpstream [] twiceCoverageRequest =
     (ErrorReply 500
        ("(req.query.coverage || " ++ quoted "full" ++
         ").toLowerCase is not a function"), []) /\
   forall resp log,
     handler String.compare 0 sampleUpstream twiceCoverageRequest resp log ->
     statusCode resp = 500%Z /\
     resp <> ErrorReply 400 "date must be YYYY-MM-DD") /\
  (getOrPost twiceSymbolsRequest = true /\
   dateRejected (requestDate twiceSymbolsRequest) = true /\
   serve String.compare 0 sampleUpstream [] twiceSymbolsRequest =
     (ErrorReply 500 "s.split is not a function", []) /\
   Simple.handler 0 sampleUpstream twiceSymbolsRequest =
     (ErrorReply 500 "TypeError: s.split is not a function", [])).
Proof.
  split; [|repeat split; vm_compute; reflexivity].
  split; [reflexivity|]. split; [reflexivity|].
  split; [vm_compute; reflexivity|].
  intros resp log H.
  apply (handler_reply_only String.compare 0%Z sampleUpstream
           twiceCoverageRequest 500%Z
           ("(req.query.coverage || " ++ quoted "full" ++
            ").toLowerCase is not a function")) in H;
    [|vm_compute; reflexivity].
  destruct H as [-> _]. split; [reflexivity|discriminate].
Qed.

(** C7 (as amended).  In the handler of [src/api/fx.js], whatever the
    order in which the fetches settle, the items of the answer are in
    ascending order of symbol for the comparator of the sort,
    [localeCompare], taken as a consistent comparator; that is the order of
    the code units where [localeCompare] agrees with it on the symbols of
    the answer.  Two runs of the same request give, place by place, items
    whose symbols the comparator does not tell apart; they give the same
    symbols place by place when the comparator tells the different symbols
    of the answer apart, and the same items when, besides, no symbol occurs
    twice.  The sort is stable: the items of one symbol stand in the order
    in which the results were pushed, which is the order in which the
    fetches settled.  The handler of [src/API/fx.js] does not sort: its
    items stand in the order of the request. *)
Theorem C7_items_sorted_by_symbol :
  (forall localeCompare tz upstream req,
      consistent localeCompare ->
      (forall resp log,
          handler localeCompare tz upstream req resp log ->
          StronglySorted (ordered localeCompare) (itemsOf resp) /\
          (byCodeUnits localeCompare (itemsOf resp) ->
           StronglySorted (ordered String.compare) (itemsOf resp))) /\
      (forall resp1 log1 resp2 log2,
          handler localeCompare tz upstream req resp1 log1 ->
          handler localeCompare tz upstream req resp2 log2 ->
          Forall2 (tied localeCompare) (itemsOf resp1) (itemsOf resp2) /\
          (separates localeCompare (itemsOf resp1) ->
           map symbol (itemsOf resp1) = map symbol (itemsOf resp2)) /\
          (separates localeCompare (itemsOf resp1) ->
           NoDup (map symbol (itemsOf resp1)) ->
           itemsOf resp1 = itemsOf resp2)) /\
      (forall iso symbols results s,
          filter (hasSymbol s)
                 (itemsOf (respond localeCompare iso symbols results)) =
          filter (hasSymbol s) results)) /\
  (forall tz upstream req date text n symbols texts,
      zone tz ->
      Simple.parseInput req = Ok (Some (Some date, symbols)) ->
      symbols <> [] ->
      stringOf date = Ok text ->
      isoDay text = Some n ->
      textsOf symbols = Ok texts ->
      map symbol (itemsOf (fst (Simple.handler tz upstream req))) =
      map Simple.normalize texts).
Proof.
  split.
  - intros cmp tz upstream req Hc.
    assert (Hsorted : forall resp log,
               handler cmp tz upstream req resp log ->
               StronglySorted (ordered cmp) (itemsOf resp)).
    { intros resp log H.
      pose proof (handler_inv cmp tz upstream req resp log H) as Hi.
      destruct (prepare tz req) as [code msg|iso mdy symbols] eqn:Hp.
      - destruct Hi as [-> _]. constructor.
      - destruct Hi as (p & _ & _ & -> & _). cbn [itemsOf respond].
        apply sort_sorted. exact Hc. }
    assert (Htied : forall resp1 log1 resp2 log2,
               handler cmp tz upstream req resp1 log1 ->
               handler cmp tz upstream req resp2 log2 ->
               Forall2 (tied cmp) (itemsOf resp1) (itemsOf resp2) /\
               Permutation (itemsOf resp2) (itemsOf resp1)).
    { intros resp1 log1 resp2 log2 H1 H2.
      destruct (prepare tz req) as [code msg|iso mdy symbols] eqn:Hp.
      - apply handler_inv in H1, H2. rewrite Hp in H1, H2.
        destruct H1 as [-> _]. destruct H2 as [-> _].
        split; constructor.
      - destruct (batch_items cmp tz upstream req _ _ _ resp1 log1 Hp H1)
          as (res1 & Hperm1 & ->).
        destruct (batch_items cmp tz upstream req _ _ _ resp2 log2 Hp H2)
          as (res2 & Hperm2 & ->).
        cbn [itemsOf respond]. split.
        + apply sort_tied; [exact Hc|]. rewrite Hperm1, Hperm2. reflexivity.
        + rewrite !(sort_perm cmp), Hperm1, Hperm2. reflexivity. }
    split; [|split].
    + intros resp log H. split; [exact (Hsorted resp log H)|].
      intros Hu.
      apply (ScheduleFacts.StronglySorted_among (ordered cmp) _ _
               (Hsorted resp log H)).
      intros a b Ha Hb. unfold ordered. rewrite (Hu a b Ha Hb). tauto.
    + intros resp1 log1 resp2 log2 H1 H2.
      destruct (Htied resp1 log1 resp2 log2 H1 H2) as [Ht Hperm].
      assert (Hsym : separates cmp (itemsOf resp1) ->
                     forall a b, In a (itemsOf resp1) ->
                                 In b (itemsOf resp2) ->
                                 tied cmp a b -> symbol a = symbol b).
      { intros Hsep a b Ha Hb Hab.
        apply Hsep; [exact Ha|exact (Permutation_in b Hperm Hb)|exact Hab]. }
      split; [exact Ht|]. split.
      * intros Hsep.
        apply (ScheduleFacts.Forall2_map_equal symbol _ _ _ Ht).
        exact (Hsym Hsep).
      * intros Hsep Hn.
        apply (ScheduleFacts.Forall2_equal _ _ _ Ht).
        intros a b Ha Hb Hab.
        apply (ScheduleFacts.NoDup_map_injective symbol (itemsOf resp1) a b
                 Hn Ha (Permutation_in b Hperm Hb)).
        exact (Hsym Hsep a b Ha Hb Hab).
    + intros iso symbols results s. cbn [itemsOf respond].
      apply ScheduleFacts.sort_filter. exact Hc.
  - intros tz upstream req date text n symbols texts Hz Hp Hne Ht Hs Hx.
    destruct (SimpleFacts.handler_items tz upstream req date text n symbols
                texts Hz Hp Hne Ht Hs Hx) as (iso & items & H1 & _ & H2).
    rewrite H1. exact H2.
Qed.

Lemma C7_witness :
  consistent String.compare /\
  handler String.compare 0 sampleUpstream sampleRequest
    (fst (serve String.compare 0 sampleUpstream [5; 1; 3]%nat sampleRequest))
    (snd (serve String.compare 0 sampleUpstream [5; 1; 3]%nat
                sampleRequest)) /\
  StronglySorted (ordered String.compare)
    (itemsOf (fst (serve String.compare 0 sampleUpstream [5; 1; 3]%nat
                         sampleRequest))).
Proof.
  pose proof string_compare_consistent as Hc.
  pose proof (handler_serve String.compare 0%Z sampleUpstream [5; 1; 3]%nat
                sampleRequest) as Hh.
  split; [exact Hc|]. split; [exact Hh|].
  exact (proj1 (proj1 (proj1 C7_items_sorted_by_symbol String.compare 0%Z
                         sampleUpstream sampleRequest Hc) _ _ Hh)).
Defined.

(** C7 as stated fails in three places.  A request that asks for EURUSD
    twice gets two items for it, a quote and a failure, and which of them
    comes first is the order in which the two fetches settled: two runs
    give two answers.  The order of the items is that of the collation and
    not that of the code units: under a consistent collation that puts the
    underscore before the letters, EUR_USD stands before EURUSD, which is
    descending by code unit.  And the handler of [src/API/fx.js] answers
    GBPUSD before EURUSD when they are asked for in that order. *)
Lemma C7_counterexample :
  (consistent underscoreFirst /\
   map symbol
       (itemsOf (fst (serve underscoreFirst 0 sampleUpstream []
                            underscoreRequest))) =
     ["EUR_USD"; "EURUSD"] /\
   String.compare "EUR_USD" "EURUSD" = Gt) /\
  (consistent String.compare /\
   handler String.compare 0 sampleUpstream repeatedRequest
     (fst (serve String.compare 0 sampleUpstream [] repeatedRequest))
     (snd (serve String.compare 0 sampleUpstream [] repeatedRequest)) /\
   handler String.compare 0 sampleUpstream repeatedRequest
     (fst (serve String.compare 0 sampleUpstream [2]%nat repeatedRequest))
     (snd (serve String.compare 0 sampleUpstream [2]%nat repeatedRequest)) /\
   map error
       (itemsOf (fst (serve String.compare 0 sampleUpstream []
                            repeatedRequest))) =
     [Some "invalid symbol"; None; Some "fetch failed"] /\
   map error
       (itemsOf (fst (serve String.compare 0 sampleUpstream [2]%nat
                            repeatedRequest))) =
     [Some "invalid symbol"; Some "fetch failed"; None] /\
   itemsOf (fst (serve String.compare 0 sampleUpstream [] repeatedRequest))
   <> itemsOf (fst (serve String.compare 0 sampleUpstream [2]%nat
                          repeatedRequest))) /\
  (map symbol
       (itemsOf (fst (Simple.handler 0 (always sample) descendingRequest))) =
     ["GBPUSD"; "EURUSD"] /\
   ~ StronglySorted (ordered String.compare)
       (itemsOf (fst (Simple.handler 0 (always sample)
                                     descendingRequest)))).
Proof.
  split; [|split].
  - split; [|split; vm_compute; reflexivity].
    destruct string_compare_consistent as [Hopp Htrans].
    split; intros; unfold underscoreFirst; [apply Hopp|].
    eapply Htrans; eassumption.
  - split; [exact string_compare_consistent|].
    split; [apply handler_serve|]. split; [apply handler_serve|].
    assert (H1 : map error
                   (itemsOf (fst (serve String.compare 0 sampleUpstream []
                                        repeatedRequest))) =
                 [Some "invalid symbol"; None; Some "fetch failed"])
      by (vm_compute; reflexivity).
    assert (H2 : map error
                   (itemsOf (fst (serve String.compare 0 sampleUpstream
                                        [2]%nat repeatedRequest))) =
                 [Some "invalid symbol"; Some "fetch failed"; None])
      by (vm_compute; reflexivity).
    split; [exact H1|]. split; [exact H2|].
    intros E. rewrite E, H2 in H1. discriminate H1.
  - split; [vm_compute; reflexivity|].
    intros H.
    assert (E : map symbol
                  (itemsOf (fst (Simple.handler 0 (always sample)
                                                descendingRequest))) =
                ["GBPUSD"; "EURUSD"]) by (vm_compute; reflexivity).
    destruct (itemsOf (fst (Simple.handler 0 (always sample)
                                           descendingRequest)))
      as [|a [|b l]]; try discriminate E.
    injection E as Ea Eb _.
    inversion H as [|? ? _ Hall]; subst.
    inversion Hall as [|? ? Hab _]; subst.
    unfold ordered in Hab. rewrite Ea, Eb in Hab. apply Hab.
    vm_compute. reflexivity.
Qed.

(** C8.  In every state the worker pool of [src/api/fx.js] can reach, from
    any queue, at most 6 promises are running, so at most 6 fetches are in
    flight; a symbol leaves the queue only while fewer than 6 are running;
    and once the handler waits, the queue stands still until a promise has
    been deleted from the running set. *)
Theorem C8_at_most_six_in_flight :
  forall upstream mdy iso queue0 p,
    steps upstream mdy iso (initial queue0) p ->
    (List.length (running p) <= 6)%nat /\
    (List.length (inFlight upstream mdy iso p) <= 6)%nat /\
    (forall p', step upstream mdy iso p p' ->
                (List.length (queue p') < List.length (queue p))%nat ->
                phase p = Fill /\ (List.length (running p) < 6)%nat) /\
    (phase p = Await false ->
     forall p', step upstream mdy iso p p' ->
                queue p' = queue p /\
                ((phase p' = Await false /\
                  List.length (running p') = List.length (running p)) \/
                 (phase p' = Await true /\
                  S (List.length (running p')) = List.length (running p)))).
Proof.
  intros upstream mdy iso queue0 p H.
  pose proof (steps_cap upstream mdy iso queue0 p H) as Hcap.
  unfold CONCURRENCY in Hcap.
  split; [exact Hcap|]. split; [|split].
  - unfold inFlight, fetching.
    pose proof (filter_length_le (attempted upstream mdy iso)
                  (map p_task (filter (fun p => negb (p_pushed p))
                                      (running p)))) as H1.
    rewrite length_map in H1.
    pose proof (filter_length_le (fun p => negb (p_pushed p)) (running p)).
    lia.
  - intros p' Hstep Hq. destruct Hstep; cbn [queue phase running] in *;
      try lia. split; [reflexivity|assumption].
  - intros Hph p' Hstep. destruct Hstep; cbn [queue phase running] in *;
      try discriminate; split; try reflexivity.
    + left. split; [exact Hph|]. rewrite !length_app. reflexivity.
    + right. split; [reflexivity|]. rewrite !length_app. cbn [List.length].
      lia.
Qed.

Lemma C8_witness :
  steps sampleUpstream "06/07/2024" "2024-06-07" (initial twenty)
        (runPool sampleUpstream "06/07/2024" "2024-06-07" 12 [0; 3]%nat
                 (initial twenty)) /\
  (List.length
     (running (runPool sampleUpstream "06/07/2024" "2024-06-07" 12
                       [0; 3]%nat (initial twenty))) <= 6)%nat.
Proof.
  pose proof (runPool_steps sampleUpstream "06/07/2024" "2024-06-07" 12
                [0; 3]%nat (initial twenty)) as Hs.
  split; [exact Hs|].
  exact (proj1 (C8_at_most_six_in_flight sampleUpstream "06/07/2024"
                  "2024-06-07" twenty _ Hs)).
Defined.

End BatchClaims.

(** * Further properties *)

(** ** The symbols of a request *)

Module InputFacts.
Import Js JsDate Result Batch InputSpec CsvFacts SymbolFacts.

Lemma includes_trimStart c s :
  includesChar c (trimStart s) = true -> includesChar c s = true.
Proof.
  induction s as [|x r IH]; cbn; [discriminate|].
  destruct (isSpace x); [|exact (fun H => H)].
  intros H. rewrite (IH H). apply orb_true_r.
Qed.

Lemma includes_trimEnd c s :
  includesChar c (trimEnd s) = true -> includesChar c s = true.
Proof.
  induction s as [|x r IH]; cbn; [discriminate|].
  destruct (trimEnd r) as [|y r'] eqn:E.
  - destruct (isSpace x); cbn; [discriminate|].
    rewrite orb_false_r. intros ->. reflexivity.
  - cbn [includesChar]. intros H. apply orb_true_iff in H.
    destruct H as [->|H]; [reflexivity|].
    rewrite (IH H). apply orb_true_r.
Qed.

Lemma includes_trim c s :
  includesChar c s = false -> includesChar c (trim s) = false.
Proof.
  intros H. destruct (includesChar c (trim s)) eqn:E; [|reflexivity].
  apply includes_trimEnd, includes_trimStart in E. congruence.
Qed.

Lemma split_pieces sep s :
  Forall (fun x => includesChar sep x = false) (split sep s).
Proof.
  induction s as [|c r IH]; cbn.
  - constructor; [reflexivity|constructor].
  - destruct (Ascii.eqb c sep) eqn:E.
    + constructor; [reflexivity|exact IH].
    + destruct (split sep r) as [|h t].
      * constructor; [cbn; rewrite E; reflexivity|constructor].
      * inversion IH as [|? ? Hh Ht]; subst.
        constructor; [cbn; rewrite E; exact Hh|exact Ht].
Qed.

Lemma split_join sep l :
  l <> [] -> Forall (fun x => includesChar sep x = false) l ->
  split sep (joinChar sep l) = l.
Proof.
  induction l as [|x [|y r] IH]; intros Hne Hl; [contradiction| |].
  - inversion Hl; subst. apply split_none. assumption.
  - inversion Hl as [|? ? Hx Hr]; subst.
    change (joinChar sep (x :: y :: r))
      with (x ++ String sep (joinChar sep (y :: r))).
    rewrite (split_app sep x _ Hx). f_equal.
    apply IH; [discriminate|exact Hr].
Qed.

Lemma clean_entries arr :
  Forall (fun x => x <> "" /\ trim x = x) (clean arr).
Proof.
  unfold clean. induction arr as [|a r IH]; cbn; [constructor|].
  unfold nonEmpty at 1. destruct (String.eqb_spec (trim a) ""); cbn;
    [exact IH|].
  constructor; [|exact IH]. split; [assumption|apply trim_idem].
Qed.

Lemma clean_fixed l :
  Forall (fun x => x <> "" /\ trim x = x) l -> clean l = l.
Proof.
  unfold clean. induction 1 as [|x l [Hx Ht] _ IH]; cbn; [reflexivity|].
  rewrite Ht. unfold nonEmpty at 1.
  destruct (String.eqb_spec x ""); [contradiction|]. cbn. f_equal. exact IH.
Qed.

Lemma clean_idem arr : clean (clean arr) = clean arr.
Proof. apply clean_fixed, clean_entries. Qed.

Lemma clean_comma_free arr :
  Forall (fun x => includesChar "," x = false) arr ->
  Forall (fun x => includesChar "," x = false) (clean arr).
Proof.
  unfold clean. induction 1 as [|x l Hx _ IH]; cbn; [constructor|].
  destruct (nonEmpty (trim x)); [|exact IH].
  constructor; [apply includes_trim; exact Hx|exact IH].
Qed.

Lemma join_empty sep l :
  joinChar sep l = "" -> l = [] \/ l = [""].
Proof.
  destruct l as [|x [|y r]]; cbn [joinChar]; auto.
  - intros ->. auto.
  - destruct x; discriminate.
Qed.

Lemma parseInput_given req :
  parseInput req =
  if RequestSpec.getOrPost req
  then match requestCoverage req with
       | Throw e => Throw e
       | Ok coverage =>
           match givenSymbols req with
           | Throw e => Throw e
           | Ok symbols =>
               Ok (Some (RequestSpec.requestDate req,
                         orCoverage symbols coverage))
           end
       end
  else Ok None.
Proof.
  unfold parseInput, RequestSpec.getOrPost, RequestSpec.requestDate,
    givenSymbols, requestCoverage, bodyField, bind.
  destruct (String.eqb (method req) "GET"); [reflexivity|].
  destruct (String.eqb (method req) "POST"); [|reflexivity].
  destruct (body req) as [|b|e]; reflexivity.
Qed.

Lemma parseSymbolList_string t :
  parseSymbolList (Some (VStr t)) =
  Ok (if String.eqb t "" then None else Some (clean (split "," t))).
Proof.
  unfold parseSymbolList, falsy. destruct (String.eqb t ""); reflexivity.
Qed.

(** The coverage of a request that gives it as a string, or not at all. *)
Lemma coverageOf_string what c :
  coverageOf what (option_map VStr c) =
  Ok (toLowerCase (match c with
                   | Some s => if String.eqb s "" then "full" else s
                   | None => "full"
                   end)).
Proof.
  destruct c as [s|]; [|reflexivity]. unfold coverageOf, falsy.
  cbn [option_map]. destruct (String.eqb s ""); reflexivity.
Qed.

Lemma textsOf_VStr l : textsOf (map VStr l) = Ok l.
Proof.
  induction l as [|x l IH]; [reflexivity|]. cbn [map textsOf stringOf].
  rewrite IH. reflexivity.
Qed.

End InputFacts.

Import InputSpec InputFacts.

(** X1.  What [parseSymbolList] and [clean] return holds no empty entry and
    no entry with white space around it, and the entries of a parsed list
    hold no comma; cleaning a cleaned list changes nothing; and the list is
    absent exactly when the parameter is absent or counts as false, which
    for a string is to be empty.  The call throws exactly when the
    parameter is neither that nor a string. *)
Theorem symbol_lists_hold_tidy_entries :
  (forall s l, parseSymbolList s = Ok (Some l) ->
     Forall (fun x => x <> "" /\ trim x = x /\ includesChar "," x = false) l) /\
  (forall arr, Forall (fun x => x <> "" /\ trim x = x) (clean arr)) /\
  (forall arr, clean (clean arr) = clean arr) /\
  (forall s, parseSymbolList s = Ok None <-> falsy s = true) /\
  (forall t, parseSymbolList (option_map VStr t) = Ok None <->
             t = None \/ t = Some "") /\
  (forall s, (exists e, parseSymbolList s = Throw e) <->
             RequestSpec.stringOrFalsy s = false).
Proof.
  split; [|split; [|split; [|split; [|split]]]].
  - intros s l. unfold parseSymbolList.
    destruct (falsy s); [discriminate|].
    destruct s as [[t|a| | | |t|]|]; try discriminate. intros [= <-].
    pose proof (clean_entries (split "," t)) as H1.
    pose proof (clean_comma_free _ (split_pieces "," t)) as H2.
    rewrite Forall_forall in *. intros x Hx.
    destruct (H1 x Hx) as [Ha Hb]. repeat split; auto.
  - apply clean_entries.
  - apply clean_idem.
  - intros s. unfold parseSymbolList.
    destruct (falsy s) eqn:Hf; [split; reflexivity|].
    split; [|discriminate].
    destruct s as [[t|a| | | |t|]|]; discriminate.
  - intros [t|]; cbn [option_map]; [|split; auto].
    rewrite parseSymbolList_string.
    destruct (String.eqb_spec t "") as [->|N].
    + split; auto.
    + split; [discriminate|]. intros [H|[= H]]; [discriminate|contradiction].
  - intros s. unfold parseSymbolList, falsy, RequestSpec.stringOrFalsy.
    destruct s as [[t|a| | | |t|]|];
      try (split; [intros [e He]; discriminate He|discriminate]);
      try (split; [reflexivity|intros _; eexists; reflexivity]).
    destruct (String.eqb t "");
      (split; [intros [e He]; discriminate He|discriminate]).
Qed.

Lemma symbol_lists_hold_tidy_entries_witness :
  parseSymbolList (Some (VStr " eurusd ,, GBPUSD,")) =
    Ok (Some ["eurusd"; "GBPUSD"]) /\
  Forall (fun x => x <> "" /\ trim x = x /\ includesChar "," x = false)
         ["eurusd"; "GBPUSD"].
Proof.
  split; [reflexivity|].
  exact (proj1 symbol_lists_hold_tidy_entries
               (Some (VStr " eurusd ,, GBPUSD,"))
               ["eurusd"; "GBPUSD"] eq_refl).
Defined.

(** X2.  A GET request that gives its symbols joined by commas and a POST
    request that gives the same symbols as an array, none of them holding a
    comma, are read as the same date and the same symbols. *)
Theorem get_and_post_read_the_same_symbols :
  forall date coverage l q b,
    Forall (fun x => includesChar "," x = false) l ->
    parseInput (mkRequest "GET"
                  (mkQuery date coverage (Some (joinChar "," l))) b) =
    parseInput (mkRequest "POST" q (Some (mkBody date coverage (Some l)))).
Proof.
  intros date coverage l q b Hl.
  unfold parseInput, mkRequest, mkQuery, mkBody, bodyField.
  cbn [method query body q_date q_coverage q_symbols b_date b_coverage
       b_symbols String.eqb Ascii.eqb Bool.eqb option_map cleanIfArray
       bind].
  rewrite !coverageOf_string, parseSymbolList_string. cbn [bind].
  rewrite textsOf_VStr. cbn [bind].
  destruct (String.eqb_spec (joinChar "," l) "") as [E|N].
  - destruct (join_empty _ _ E) as [->| ->]; reflexivity.
  - rewrite split_join; [reflexivity| |exact Hl].
    intros ->. apply N. reflexivity.
Qed.

Lemma get_and_post_read_the_same_symbols_witness :
  Forall (fun x => includesChar "," x = false) ["EURUSD"; " gbpusd "] /\
  parseInput (mkRequest "GET"
                (mkQuery (Some "2024-06-07") None (Some "EURUSD, gbpusd "))
                None) =
  parseInput (mkRequest "POST" (mkQuery None None None)
                (Some (mkBody (Some "2024-06-07") None
                              (Some ["EURUSD"; " gbpusd "])))).
Proof.
  assert (H : Forall (fun x => includesChar "," x = false)
                     ["EURUSD"; " gbpusd "])
    by (repeat constructor).
  split; [exact H|].
  exact (get_and_post_read_the_same_symbols
           (Some "2024-06-07") None ["EURUSD"; " gbpusd "]
           (mkQuery None None None) None H).
Defined.

(** ** The requests of a batch *)

Module LogFacts.
Import Js JsDate Dates Http Result Batch PoolSpec InputSpec RequestSpec.
Import RunSpec.
Import SymbolFacts FetchFacts PoolFacts HandlerFacts InputFacts.

Lemma requests_accepted upstream mdy iso t :
  requests upstream mdy iso t =
  if accepted (normalize (t_sym t))
  then [downloadURL (normalize (t_sym t)) mdy] else [].
Proof.
  unfold requests, fetchWSJ, accepted.
  destruct (sixLetters (normalize (t_sym t))); [|reflexivity].
  destruct (endsWith "USD" (normalize (t_sym t))); reflexivity.
Qed.

Section Run.
Variable upstream : nat -> string -> FetchOutcome.
Variables mdy iso : string.

Local Abbreviation planned := (RunSpec.planned upstream mdy iso).

Lemma step_planned p p' :
  step upstream mdy iso p p' -> planned p' = planned p.
Proof.
  intros H. destruct H; unfold RunSpec.planned;
    cbn [fetched nextId queue tasksFrom map List.concat]; try reflexivity.
  rewrite <- app_assoc. reflexivity.
Qed.

Lemma steps_planned p p' :
  steps upstream mdy iso p p' -> planned p' = planned p.
Proof.
  induction 1 as [|p1 p2 p3 _ IH H23]; [reflexivity|].
  rewrite (step_planned _ _ H23). exact IH.
Qed.

Lemma planned_urls i l :
  List.concat (map (requests upstream mdy iso)
                   (tasksFrom i (map normalize l))) = urlsOf mdy l.
Proof.
  unfold urlsOf. revert i.
  induction l as [|s l IH]; intros i; cbn [map tasksFrom List.concat filter];
    [reflexivity|].
  rewrite IH, requests_accepted. cbn [t_sym]. rewrite normalize_idem.
  destruct (accepted (normalize s)); reflexivity.
Qed.

Lemma finished_fetched symbols p :
  steps upstream mdy iso (initial (map normalize symbols)) p ->
  finished p -> fetched p = urlsOf mdy symbols.
Proof.
  intros Hs (_ & Hq & _). apply steps_planned in Hs.
  unfold RunSpec.planned in Hs. rewrite Hq in Hs. cbn in Hs.
  rewrite app_nil_r, planned_urls in Hs. exact Hs.
Qed.

End Run.

(** What has been decided when the handler fans out. *)
Lemma prepare_fanout_inv tz req iso mdy symbols :
  Batch.prepare tz req = Fanout iso mdy symbols ->
  exists date text,
    parseInput req = Ok (Some (Some date, Arr symbols)) /\
    requestDate req = Some date /\
    stringOf date = Ok text /\
    matchesDate text = true /\
    priorBizIfWeekend tz text = Ok iso /\ mdy = toMMDDYYYY iso.
Proof.
  unfold Batch.prepare. pose proof (parseInput_method req) as Hm.
  destruct (parseInput req) as [[[d s]|]|e]; [|discriminate|discriminate].
  destruct Hm as [_ Hd].
  destruct (validDate d) as [[text|]|e] eqn:Hv; [|discriminate|discriminate].
  destruct (validDate_inv d text Hv) as (date & -> & Ht & Hmd).
  destruct (priorBizIfWeekend tz text) as [r|e] eqn:Hr; [|discriminate].
  destruct s as [l|]; [|discriminate].
  intros [= <- <- <-]. exists date, text. repeat split; auto.
Qed.

Lemma handler_log localeCompare tz upstream req iso mdy symbols resp log :
  Batch.prepare tz req = Fanout iso mdy symbols ->
  handler localeCompare tz upstream req resp log ->
  log = urlsOf mdy symbols.
Proof.
  intros Hp H. apply handler_inv in H. rewrite Hp in H.
  destruct H as (p & Hs & Hf & _ & ->).
  apply (finished_fetched upstream mdy iso symbols p Hs Hf).
Qed.

End LogFacts.

Import LogFacts.

(** X3.  A run of the handler of [src/api/fx.js] that answers an error has
    requested nothing.  A run that answers 200 has requested the download
    URL of every requested symbol that is six letters ending in USD, once
    for each time the symbol is requested, in the order of the request, all
    of them for the resolved date of the answer, and no other URL, whatever
    the order in which the fetches settle. *)
Theorem batch_requests_accepted_symbols_in_order :
  forall localeCompare tz upstream req resp log,
    handler localeCompare tz upstream req resp log ->
    match resp with
    | Batch200 _ iso _ _ _ _ =>
        exists symbols,
          parseInput req = Ok (Some (requestDate req, Arr symbols)) /\
          log = map (fun s => downloadURL s (toMMDDYYYY iso))
                    (filter accepted (map normalize symbols))
    | _ => log = []
    end.
Proof.
  intros cmp tz upstream req resp log H.
  pose proof (handler_inv cmp tz upstream req resp log H) as Hi.
  destruct (Batch.prepare tz req) as [code msg|iso mdy symbols] eqn:Hp.
  - destruct Hi as [-> ->]. reflexivity.
  - pose proof (handler_log cmp tz upstream req iso mdy symbols resp log Hp H)
      as Hlog.
    destruct Hi as (p & _ & _ & -> & _). cbn [respond].
    destruct (prepare_fanout_inv tz req iso mdy symbols Hp)
      as (date & text & Hpi & Hd & _ & _ & _ & ->).
    exists symbols. split; [rewrite Hd; exact Hpi|exact Hlog].
Qed.

Lemma batch_requests_accepted_symbols_in_order_witness :
  handler String.compare 0 sampleUpstream sampleRequest
          (fst (serve String.compare 0 sampleUpstream [3; 1] sampleRequest))
          (snd (serve String.compare 0 sampleUpstream [3; 1] sampleRequest)) /\
  match fst (serve String.compare 0 sampleUpstream [3; 1] sampleRequest) with
  | Batch200 _ iso _ _ _ _ =>
      exists symbols,
        parseInput sampleRequest =
          Ok (Some (requestDate sampleRequest, Arr symbols)) /\
        snd (serve String.compare 0 sampleUpstream [3; 1] sampleRequest) =
        map (fun s => downloadURL s (toMMDDYYYY iso))
            (filter accepted (map normalize symbols))
  | _ => snd (serve String.compare 0 sampleUpstream [3; 1] sampleRequest) = []
  end /\
  snd (serve String.compare 0 sampleUpstream [3; 1] sampleRequest) =
  [downloadURL "EURUSD" "06/07/2024"; downloadURL "GBPUSD" "06/07/2024";
   downloadURL "CADUSD" "06/07/2024"; downloadURL "JPYUSD" "06/07/2024";
   downloadURL "EURUSD" "06/07/2024"].
Proof.
  pose proof (handler_serve String.compare 0%Z sampleUpstream [3; 1]%nat
                sampleRequest) as Hh.
  split; [exact Hh|]. split; [|vm_compute; reflexivity].
  exact (batch_requests_accepted_symbols_in_order
           String.compare 0%Z sampleUpstream sampleRequest _ _ Hh).
Defined.

(** ** Coverage *)

Module CoverageFacts.
Import Js JsDate Dates DateSpec Http Result Batch PoolSpec InputSpec.
Import RequestSpec SymbolFacts FetchFacts PoolFacts HandlerFacts InputFacts.
Import LogFacts.

Lemma orCoverage_none symbols coverage :
  symbols = None \/ symbols = Some [] ->
  orCoverage symbols coverage = COVERAGE_or_full coverage.
Proof. intros [-> | ->]; reflexivity. Qed.

Lemma withCoverage_given c req :
  getOrPost (withCoverage c req) = getOrPost req /\
  requestDate (withCoverage c req) = requestDate req /\
  givenSymbols (withCoverage c req) = givenSymbols req.
Proof.
  unfold getOrPost, requestDate, givenSymbols, withCoverage, bodyField, bind.
  cbn [method query body q_date q_symbols].
  destruct (body req) as [|b|e]; cbn [b_date b_symbols];
    repeat split; reflexivity.
Qed.

(** A request that gives symbols has a place for a coverage. *)
Lemma withCoverage_field c req x l :
  givenSymbols req = Ok (Some (x :: l)) ->
  coverageField (withCoverage c req) = c /\
  coverageError (withCoverage c req) = coverageError req /\
  bodyError (withCoverage c req) = None.
Proof.
  unfold givenSymbols, coverageField, coverageError, bodyError, withCoverage,
    bodyField, bind.
  cbn [method query body q_coverage].
  destruct (String.eqb_spec (method req) "GET") as [E|N].
  - rewrite E. repeat split; reflexivity.
  - destruct (String.eqb (method req) "POST"); [|discriminate].
    destruct (body req) as [|b|e]; try discriminate.
    repeat split; reflexivity.
Qed.

(** How the coverage of a GET or a POST is read. *)
Lemma requestCoverage_cases req :
  getOrPost req = true ->
  match requestCoverage req with
  | Ok _ => bodyError req = None /\ stringOrFalsy (coverageField req) = true
  | Throw e =>
      bodyError req = Some e \/
      (bodyError req = None /\ stringOrFalsy (coverageField req) = false /\
       e = coverageError req)
  end.
Proof.
  intros Hm.
  unfold requestCoverage, bodyError, coverageField, coverageError, bodyField, bind.
  destruct (method_cases req Hm) as [[-> ->]|[-> ->]].
  - pose proof (coverageOf_stringOrFalsy "req.query.coverage"
                  (q_coverage (query req))) as H1.
    destruct (coverageOf _ _); [split; [reflexivity|exact H1]|].
    right. split; [reflexivity|exact H1].
  - destruct (body req) as [|b|e].
    + split; reflexivity.
    + pose proof (coverageOf_stringOrFalsy "req.body?.coverage"
                    (b_coverage b)) as H1.
      destruct (coverageOf _ _); [split; [reflexivity|exact H1]|].
      right. split; [reflexivity|exact H1].
    + left. reflexivity.
Qed.

Lemma requestCoverage_ok req :
  getOrPost req = true -> bodyError req = None ->
  stringOrFalsy (coverageField req) = true ->
  exists k, requestCoverage req = Ok k.
Proof.
  intros Hm Hb Hc. pose proof (requestCoverage_cases req Hm) as H.
  destruct (requestCoverage req) as [k|e]; [exists k; reflexivity|].
  destruct H as [H|(_ & H & _)]; congruence.
Qed.

(** A request whose symbols can be read has a body that can be read. *)
Lemma givenSymbols_body req g :
  givenSymbols req = Ok g -> bodyError req = None.
Proof.
  unfold givenSymbols, bodyError, bodyField, bind.
  destruct (String.eqb_spec (method req) "GET") as [E|N].
  - rewrite E. reflexivity.
  - destruct (String.eqb (method req) "POST"); [|reflexivity].
    destruct (body req) as [|b|e]; try reflexivity. discriminate.
Qed.

Lemma handler_same_prepare localeCompare tz upstream req req' resp log :
  Batch.prepare tz req = Batch.prepare tz req' ->
  handler localeCompare tz upstream req resp log ->
  handler localeCompare tz upstream req' resp log.
Proof.
  intros E H. destruct H as [code msg Hp|iso mdy symbols p Hp Hs Hf].
  - apply handler_reply. rewrite <- E. exact Hp.
  - eapply handler_batch; [rewrite <- E; exact Hp|exact Hs|exact Hf].
Qed.

Lemma tasksFrom_sym i l t : In t (tasksFrom i l) -> In (t_sym t) l.
Proof.
  revert i. induction l as [|s l IH]; intros i; cbn; [tauto|].
  intros [<-|H]; [left; reflexivity|right; exact (IH _ H)].
Qed.

Lemma accepted_split s :
  accepted s = true -> sixLetters s = true /\ endsWith "USD" s = true.
Proof. unfold accepted. apply andb_true_iff. Qed.

(** The result of an accepted symbol names its URL. *)
Lemma accepted_source_url fetch raw mdy iso :
  accepted (normalize raw) = true ->
  source_url (fst (fetchWSJ fetch raw mdy iso)) =
  Some (downloadURL (normalize raw) mdy).
Proof.
  intros Ha. destruct (accepted_split _ Ha) as [H6 Hu].
  destruct (fetchWSJ_source_url fetch raw mdy iso) as [[H _]|[_ H]];
    [|exact H].
  rewrite (fetchWSJ_accepted fetch raw mdy iso H6 Hu) in H. discriminate H.
Qed.

Lemma perTask_source upstream mdy iso symbols r :
  In r (perTask upstream mdy iso symbols) ->
  exists i s, In s symbols /\
              r = fst (fetchWSJ (upstream i) (normalize s) mdy iso).
Proof.
  unfold perTask. intros H. apply in_map_iff in H.
  destruct H as (t & <- & Ht). apply tasksFrom_sym in Ht.
  apply in_map_iff in Ht. destruct Ht as (s & Hs & Hin).
  exists (t_id t), s. split; [exact Hin|].
  unfold runOne. rewrite <- Hs. reflexivity.
Qed.

Lemma firstn_incl {A : Type} n (l : list A) : incl (firstn n l) l.
Proof.
  revert n. induction l as [|x l IH]; intros [|n] y; cbn [firstn In].
  - intros [].
  - intros [].
  - intros [].
  - intros [E|H]; [left; exact E|right; exact (IH n y H)].
Qed.

Lemma incl_check (l1 l2 : list string) :
  forallb (fun s => existsb (String.eqb s) l2) l1 = true -> incl l1 l2.
Proof.
  intros H s Hs. rewrite forallb_forall in H. specialize (H s Hs).
  apply existsb_exists in H. destruct H as (x & Hx & E).
  apply String.eqb_eq in E. subst x. exact Hx.
Qed.

Lemma presets_ok k l :
  COVERAGE_or_full k = Arr l ->
  forallb presetOk l = true /\
  List.length l =
    (if String.eqb k "majors" then 10
     else if String.eqb k "extended" then 30 else 42)%nat /\
  incl l DEFAULT_SEED.
Proof.
  unfold COVERAGE_or_full.
  destruct (String.eqb k "majors").
  { intros [= <-]. split; [vm_compute; reflexivity|].
    split; [reflexivity|]. apply incl_check. vm_compute. reflexivity. }
  destruct (String.eqb k "extended").
  { intros [= <-]. split; [vm_compute; reflexivity|].
    split; [reflexivity|]. exact (firstn_incl 30 DEFAULT_SEED). }
  assert (H42 : forallb presetOk DEFAULT_SEED = true /\
                List.length DEFAULT_SEED = 42%nat /\
                incl DEFAULT_SEED DEFAULT_SEED).
  { split; [vm_compute; reflexivity|]. split; [reflexivity|].
    apply incl_refl. }
  destruct (String.eqb k "full"); [intros [= <-]; exact H42|].
  destruct (_ || _); [discriminate|]. intros [= <-]; exact H42.
Qed.

Lemma presetOk_filter l :
  forallb presetOk l = true -> filter accepted (map normalize l) = l.
Proof.
  induction l as [|s l IH]; cbn; [reflexivity|].
  intros H. apply andb_true_iff in H. destruct H as [Hs Hl].
  unfold presetOk in Hs. apply andb_true_iff in Hs. destruct Hs as [Ha He].
  apply String.eqb_eq in He. rewrite He, Ha. f_equal. exact (IH Hl).
Qed.

End CoverageFacts.

Import CoverageFacts.

(** X4.  When a request gives symbols and its coverage is absent or a
    string, the symbols given are the symbols of the batch and the coverage
    is not looked at: the request has the same runs under any other
    coverage that is absent or a string, also one that names a property
    [COVERAGE] inherits.  Under a coverage of another kind, such as the
    array that a parameter given twice makes, the answer is the 500 of the
    [TypeError] of line 34 or 39, whatever the symbols. *)
Theorem given_symbols_make_coverage_irrelevant :
  forall localeCompare tz upstream req c x l,
    givenSymbols req = Ok (Some (x :: l)) ->
    (stringOrFalsy (coverageField req) = true ->
     parseInput req = Ok (Some (requestDate req, Arr (x :: l))) /\
     (stringOrFalsy c = true ->
      forall resp log,
        handler localeCompare tz upstream (withCoverage c req) resp log <->
        handler localeCompare tz upstream req resp log)) /\
    (stringOrFalsy c = false ->
     forall resp log,
       handler localeCompare tz upstream (withCoverage c req) resp log <->
       resp = ErrorReply 500 (describe (coverageError req)) /\ log = []).
Proof.
  intros cmp tz upstream req c x l Hg.
  assert (Hm : getOrPost req = true).
  { unfold givenSymbols in Hg. unfold getOrPost.
    destruct (String.eqb (method req) "GET"); [reflexivity|].
    destruct (String.eqb (method req) "POST"); [reflexivity|discriminate]. }
  destruct (withCoverage_given c req) as (E1 & E2 & E3).
  pose proof (withCoverage_field c req x l Hg) as (Ec & Ee & Eb).
  assert (Hm' : getOrPost (withCoverage c req) = true)
    by (rewrite E1; exact Hm).
  assert (Hpi : forall r k, requestCoverage r = Ok k ->
                  getOrPost r = true ->
                  givenSymbols r = Ok (Some (x :: l)) ->
                  parseInput r = Ok (Some (requestDate r, Arr (x :: l)))).
  { intros r k Hk Hr Hgr. rewrite parseInput_given, Hr, Hk, Hgr.
    reflexivity. }
  split.
  - intros Hc.
    destruct (requestCoverage_ok req Hm (givenSymbols_body req _ Hg) Hc)
      as [k Hk].
    pose proof (Hpi req k Hk Hm Hg) as Hp.
    split; [exact Hp|]. intros Hc'.
    assert (Hc2 : stringOrFalsy (coverageField (withCoverage c req)) = true)
      by (rewrite Ec; exact Hc').
    destruct (requestCoverage_ok _ Hm' Eb Hc2) as [k' Hk'].
    assert (E : Batch.prepare tz (withCoverage c req) = Batch.prepare tz req).
    { unfold Batch.prepare. rewrite Hp.
      rewrite (Hpi _ k' Hk'), E2;
        [reflexivity|exact Hm'|rewrite E3; exact Hg]. }
    intros resp log. split; apply handler_same_prepare; [exact E|].
    symmetry. exact E.
  - intros Hc resp log. apply handler_reply_only.
    apply prepare_500.
    pose proof (requestCoverage_cases (withCoverage c req) Hm') as Hcases.
    rewrite parseInput_given, Hm'.
    destruct (requestCoverage (withCoverage c req)) as [k|e].
    + destruct Hcases as [_ H1]. rewrite Ec in H1. congruence.
    + destruct Hcases as [H1|(_ & _ & ->)]; [congruence|].
      rewrite Ee. reflexivity.
Qed.

Lemma given_symbols_make_coverage_irrelevant_witness :
  givenSymbols sampleRequest =
    Ok (Some ["eurusd"; "GBPUSD"; "USDEUR"; "EU"; "CADUSD"; "JPYUSD";
              "eurusd"]) /\
  stringOrFalsy (coverageField sampleRequest) = true /\
  stringOrFalsy (Some (VStr "constructor")) = true /\
  (handler String.compare 0 sampleUpstream
           (withCoverage (Some (VStr "constructor")) sampleRequest)
           (fst (serve String.compare 0 sampleUpstream [] sampleRequest))
           (snd (serve String.compare 0 sampleUpstream [] sampleRequest))).
Proof.
  assert (Hg : givenSymbols sampleRequest =
               Ok (Some ["eurusd"; "GBPUSD"; "USDEUR"; "EU"; "CADUSD";
                         "JPYUSD"; "eurusd"]))
    by (vm_compute; reflexivity).
  assert (Hc : stringOrFalsy (coverageField sampleRequest) = true)
    by reflexivity.
  assert (Hc' : stringOrFalsy (Some (VStr "constructor")) = true)
    by reflexivity.
  split; [exact Hg|]. split; [exact Hc|]. split; [exact Hc'|].
  apply (proj2 (proj1 (given_symbols_make_coverage_irrelevant
                         String.compare 0%Z sampleUpstream sampleRequest
                         (Some (VStr "constructor")) "eurusd"
                         ["GBPUSD"; "USDEUR"; "EU"; "CADUSD"; "JPYUSD";
                          "eurusd"]
                         Hg) Hc) Hc').
  apply handler_serve.
Defined.

(** X5.  A GET or POST request with a date of the calendar that gives no
    symbol, and whose coverage is absent or a string that does not name a
    property [COVERAGE] inherits, is answered 200 for a preset: 10 symbols
    for [majors], 30 for [extended], 42 for any other coverage, in any
    case.  Every symbol of a preset is one of the seed list and passes the
    validation of the fetcher, so the handler requests the URL of each, in
    the order of the preset, and every item names its URL. *)
Theorem coverage_request_fetches_every_preset_symbol :
  forall localeCompare tz upstream req date text n coverage,
    zone tz -> getOrPost req = true -> requestDate req = Some date ->
    stringOf date = Ok text -> isoDay text = Some n -> noSymbols req ->
    requestCoverage req = Ok coverage ->
    inherited coverage = false ->
    exists preset,
      parseInput req = Ok (Some (Some date, Arr preset)) /\
      List.length preset =
        (if String.eqb coverage "majors" then 10
         else if String.eqb coverage "extended" then 30
         else 42)%nat /\
      incl preset DEFAULT_SEED /\
      Forall (fun s => accepted s = true /\ normalize s = s) preset /\
      forall resp log,
        handler localeCompare tz upstream req resp log ->
        exists iso ok fail items,
          resp = Batch200 "no-store" iso (List.length preset) ok fail items /\
          log = map (fun s => downloadURL s (toMMDDYYYY iso)) preset /\
          Forall (fun r => In (symbol r) preset /\
                           source_url r =
                           Some (downloadURL (symbol r) (toMMDDYYYY iso)))
                 items.
Proof.
  intros cmp tz upstream req date text n coverage Hz Hm Hd Ht Hs Hno Hcov
         Hinh.
  destruct (orCoverage_list None coverage) as [preset Hpre].
  { right. exact Hinh. }
  cbn [orCoverage] in Hpre.
  assert (Hp : parseInput req = Ok (Some (Some date, Arr preset))).
  { rewrite parseInput_given, Hm, Hd, Hcov.
    destruct Hno as [-> | ->]; cbn [orCoverage]; rewrite Hpre; reflexivity. }
  destruct (presets_ok _ _ Hpre) as (Hok & Hlen & Hincl).
  exists preset. split; [exact Hp|]. split; [exact Hlen|].
  split; [exact Hincl|].
  assert (Hall : Forall (fun s => accepted s = true /\ normalize s = s) preset).
  { rewrite Forall_forall. intros s Hin.
    rewrite forallb_forall in Hok. specialize (Hok s Hin).
    unfold presetOk in Hok. apply andb_true_iff in Hok.
    destruct Hok as [Ha He]. apply String.eqb_eq in He. auto. }
  split; [exact Hall|].
  intros resp log H.
  destruct (prepare_fanout tz req date text n preset Hz Hp Ht Hs)
    as (iso & _ & Hprep).
  pose proof (handler_log cmp tz upstream req _ _ _ resp log Hprep H) as Hlog.
  destruct (batch_items cmp tz upstream req _ _ _ resp log Hprep H)
    as (res & Hperm & ->).
  unfold respond. do 4 eexists. split; [reflexivity|].
  split.
  - rewrite Hlog. unfold urlsOf. rewrite (presetOk_filter _ Hok).
    reflexivity.
  - rewrite Forall_forall. intros r Hr.
    apply (Permutation_in _ (sort_perm cmp res)) in Hr.
    apply (Permutation_in _ Hperm) in Hr.
    destruct (perTask_source upstream _ _ _ r Hr) as (i & s & Hin & ->).
    rewrite Forall_forall in Hall. destruct (Hall s Hin) as [Ha He].
    rewrite He, fetchWSJ_symbol, He. split; [exact Hin|].
    rewrite accepted_source_url; rewrite He; [reflexivity|exact Ha].
Qed.

Lemma coverage_request_fetches_every_preset_symbol_witness :
  zone 0 /\ getOrPost MoreSamples.majorsRequest = true /\
  requestDate MoreSamples.majorsRequest = Some (VStr "2024-06-08") /\
  isoDay "2024-06-08" = Some 19882%Z /\
  noSymbols MoreSamples.majorsRequest /\
  requestCoverage MoreSamples.majorsRequest = Ok "majors" /\
  inherited "majors" = false /\
  exists preset,
    parseInput MoreSamples.majorsRequest =
      Ok (Some (Some (VStr "2024-06-08"), Arr preset)) /\
    List.length preset =
      (if String.eqb "majors" "majors" then 10
       else if String.eqb "majors" "extended" then 30
       else 42)%nat /\
    incl preset DEFAULT_SEED /\
    Forall (fun s => accepted s = true /\ normalize s = s) preset /\
    forall resp log,
      handler String.compare 0 sampleUpstream MoreSamples.majorsRequest
              resp log ->
      exists iso ok fail items,
        resp = Batch200 "no-store" iso (List.length preset) ok fail items /\
        log = map (fun s => downloadURL s (toMMDDYYYY iso)) preset /\
        Forall (fun r => In (symbol r) preset /\
                         source_url r =
                         Some (downloadURL (symbol r) (toMMDDYYYY iso)))
               items.
Proof.
  assert (Hz : zone 0) by (unfold zone; lia).
  assert (Hm : getOrPost MoreSamples.majorsRequest = true) by reflexivity.
  assert (Hd : requestDate MoreSamples.majorsRequest =
               Some (VStr "2024-06-08")) by reflexivity.
  assert (Hs : isoDay "2024-06-08" = Some 19882%Z) by (vm_compute; reflexivity).
  assert (Hn : noSymbols MoreSamples.majorsRequest) by (left; reflexivity).
  assert (Hk : requestCoverage MoreSamples.majorsRequest = Ok "majors")
    by (vm_compute; reflexivity).
  assert (Hi : inherited "majors" = false) by (vm_compute; reflexivity).
  repeat (split; [assumption|]).
  exact (coverage_request_fetches_every_preset_symbol
           String.compare 0%Z sampleUpstream MoreSamples.majorsRequest
           (VStr "2024-06-08") "2024-06-08" 19882%Z "majors" Hz Hm Hd
           eq_refl Hs Hn Hk Hi).
Defined.

(** ** The loop of the worker pool *)

Module LoopFacts.
Import Js Http Result Batch PoolSpec RunSpec PoolFacts.

Lemma initial_waits q : waitsForSome (initial q).
Proof. unfold waitsForSome. cbn. discriminate. Qed.

Lemma weight_positive p : waitsForSome p -> (1 <= weight p)%nat.
Proof.
  unfold waitsForSome, weight. intros Hw.
  destruct (phase p) as [|[|]]; try lia.
  pose proof (load_length (running p)).
  destruct (running p); [exfalso; apply Hw; reflexivity|cbn in *; lia].
Qed.

Section Run.
Variable upstream : nat -> string -> FetchOutcome.
Variables mdy iso : string.

Local Abbreviation step := (Batch.step upstream mdy iso).
Local Abbreviation steps := (Batch.steps upstream mdy iso).
Local Abbreviation stepsIn := (RunSpec.stepsIn upstream mdy iso).

Lemma stepsIn_steps k p p' : stepsIn k p p' -> steps p p'.
Proof.
  induction 1 as [p|k p1 p2 p3 _ IH H23]; [apply steps_refl|].
  eapply steps_step; eassumption.
Qed.

Lemma stepsIn_weight k p p' :
  stepsIn k p p' -> (weight p' + k <= weight p)%nat.
Proof.
  induction 1 as [p|k p1 p2 p3 _ IH H23]; [lia|].
  pose proof (step_weight upstream mdy iso _ _ H23). lia.
Qed.

Lemma steps_waits p p' : waitsForSome p -> steps p p' -> waitsForSome p'.
Proof.
  intros Hw H. induction H as [p|p1 p2 p3 _ IH H23]; [exact Hw|].
  eapply step_waits; [apply IH; exact Hw|exact H23].
Qed.

Lemma progress p : waitsForSome p -> finished p \/ exists p', step p p'.
Proof.
  intros Hw. destruct (advance upstream mdy iso 0 p) as [p'|] eqn:E.
  - right. exists p'. eapply advance_step. exact E.
  - left. eapply advance_none; eassumption.
Qed.

Lemma finished_stuck p p' : finished p -> ~ step p p'.
Proof.
  intros (Hph & Hq & Hr) H.
  destruct H; cbn [phase queue running] in *; try discriminate.
  contradiction.
Qed.

Lemma step_saturated p p' :
  (List.length (running p) <= CONCURRENCY)%nat ->
  saturated p -> step p p' -> saturated p'.
Proof.
  intros Hcap Hs H. destruct H; unfold saturated in *;
    cbn [phase queue running] in *; try discriminate.
  - intros _. destruct q as [|s q]; [left; reflexivity|right].
    assert (~ (List.length r < CONCURRENCY)%nat)
      by (intros L; apply H; split; [discriminate|exact L]).
    lia.
  - intros E. injection E as ->. specialize (Hs eq_refl).
    rewrite !length_app in *. exact Hs.
Qed.

Lemma steps_saturated q p : steps (initial q) p -> saturated p.
Proof.
  intros H.
  assert (G : forall p0, steps p0 p ->
                (List.length (running p0) <= CONCURRENCY)%nat ->
                saturated p0 -> saturated p).
  { clear. intros p0 H. induction H as [p|p1 p2 p3 H12 IH H23]; [auto|].
    intros Hcap Hs. eapply step_saturated; [|apply IH; assumption|exact H23].
    eapply steps_cap_from; eassumption. }
  apply (G _ H); [cbn; unfold CONCURRENCY; lia|].
  unfold saturated. cbn. discriminate.
Qed.

End Run.

End LoopFacts.

Import RunSpec LoopFacts.

(** X6.  The loop of the worker pool ends under every order in which the
    fetches settle: a run from a queue of [n] symbols has at most [5 * n]
    steps, a state it reaches either has left the loop or can take a step
    (the handler never waits on an empty set of promises), and once the
    loop is left no step remains. *)
Theorem pool_loop_ends_and_never_gets_stuck :
  forall upstream mdy iso queue0 k p,
    stepsIn upstream mdy iso k (initial queue0) p ->
    (k <= 5 * List.length queue0)%nat /\
    (finished p \/ exists p', step upstream mdy iso p p') /\
    (finished p -> forall p', ~ step upstream mdy iso p p').
Proof.
  intros upstream mdy iso queue0 k p H.
  pose proof (stepsIn_weight upstream mdy iso _ _ _ H) as Hw.
  pose proof (steps_waits upstream mdy iso _ _ (initial_waits queue0)
                (stepsIn_steps upstream mdy iso _ _ _ H)) as Hp.
  pose proof (weight_positive p Hp) as H1.
  split; [|split].
  - assert (H0 : weight (initial queue0) = (5 * List.length queue0 + 1)%nat)
      by (unfold weight, initial; cbn [queue running phase load]; lia).
    lia.
  - apply progress. exact Hp.
  - intros Hf p'. apply finished_stuck. exact Hf.
Qed.

Lemma pool_loop_ends_and_never_gets_stuck_witness :
  stepsIn sampleUpstream "06/07/2024" "2024-06-07" 5 (initial ["EURUSD"])
          (mkPool [] 1 []
                  [fst (fetchWSJ (sampleUpstream 0) "EURUSD" "06/07/2024"
                                 "2024-06-07")]
                  [downloadURL "EURUSD" "06/07/2024"] Fill) /\
  (5 <= 5 * List.length ["EURUSD"])%nat.
Proof.
  assert (H : stepsIn sampleUpstream "06/07/2024" "2024-06-07" 5
                (initial ["EURUSD"])
                (mkPool [] 1 []
                   [fst (fetchWSJ (sampleUpstream 0) "EURUSD" "06/07/2024"
                                  "2024-06-07")]
                   [downloadURL "EURUSD" "06/07/2024"] Fill)).
  { eapply stepsIn_S; [eapply stepsIn_S; [eapply stepsIn_S;
      [eapply stepsIn_S; [eapply stepsIn_S; [apply stepsIn_O|]|]|]|]|].
    - apply (step_launch sampleUpstream "06/07/2024" "2024-06-07"
               "EURUSD" [] 0 [] [] []).
      unfold CONCURRENCY. cbn. lia.
    - apply step_wait; [intros [Hq _]; apply Hq; reflexivity|discriminate].
    - apply (step_push sampleUpstream "06/07/2024" "2024-06-07"
               [] 1 [] (mkTask 0 "EURUSD") [] [] _ false).
    - apply (step_delete sampleUpstream "06/07/2024" "2024-06-07"
               [] 1 [] (mkTask 0 "EURUSD") [] _ _ false).
    - apply step_resume. }
  split; [exact H|].
  exact (proj1 (pool_loop_ends_and_never_gets_stuck _ _ _ _ _ _ H)).
Defined.

(** X7.  The pool keeps itself full: in every state a run reaches, the
    handler is waiting only if six promises are running or the queue is
    empty, and then at least one promise is running; and while a symbol is
    queued and fewer than six promises are running, the only step of the
    handler is the launch of the first symbol of the queue. *)
Theorem pool_waits_only_when_full_or_drained :
  forall upstream mdy iso queue0 p,
    steps upstream mdy iso (initial queue0) p ->
    (phase p = Await false ->
     running p <> [] /\
     (queue p = [] \/ List.length (running p) = 6%nat)) /\
    (phase p = Fill -> queue p <> [] ->
     (List.length (running p) < 6)%nat ->
     forall p', step upstream mdy iso p p' ->
       exists sym, queue p = sym :: queue p' /\
                   running p' =
                     (running p ++
                      [mkPromise (mkTask (nextId p) sym) false])%list).
Proof.
  intros upstream mdy iso queue0 p H. split.
  - intros Hph. split.
    + exact (steps_waits upstream mdy iso _ _ (initial_waits queue0) H Hph).
    + exact (steps_saturated upstream mdy iso queue0 p H Hph).
  - intros Hph Hq Hr p' Hstep.
    destruct Hstep; cbn [phase queue running nextId] in *;
      try discriminate.
    + exists sym. split; reflexivity.
    + exfalso. apply H0. split; [exact Hq|exact Hr].
Qed.

Lemma pool_waits_only_when_full_or_drained_witness :
  steps sampleUpstream "06/07/2024" "2024-06-07" (initial twenty)
        (runPool sampleUpstream "06/07/2024" "2024-06-07" 7 []
                 (initial twenty)) /\
  phase (runPool sampleUpstream "06/07/2024" "2024-06-07" 7 []
                 (initial twenty)) = Await false /\
  List.length (running (runPool sampleUpstream "06/07/2024" "2024-06-07" 7 []
                                (initial twenty))) = 6%nat /\
  running (runPool sampleUpstream "06/07/2024" "2024-06-07" 7 []
                   (initial twenty)) <> [].
Proof.
  pose proof (runPool_steps sampleUpstream "06/07/2024" "2024-06-07" 7 []
                (initial twenty)) as H.
  assert (Hph : phase (runPool sampleUpstream "06/07/2024" "2024-06-07" 7 []
                               (initial twenty)) = Await false)
    by (vm_compute; reflexivity).
  split; [exact H|]. split; [exact Hph|].
  split; [vm_compute; reflexivity|].
  exact (proj1 (proj1 (pool_waits_only_when_full_or_drained _ _ _ _ _ H) Hph)).
Defined.

(** ** One answer for distinct symbols *)

Import Js Http Result Batch PoolSpec SortSpec InputSpec.
Import FetchFacts PoolFacts SortFacts HandlerFacts CountFacts LogFacts.
Import ScheduleFacts.

(** X8.  When the symbols of a request are pairwise different once
    upper-cased and trimmed, and the collation tells them apart, the answer
    of the handler of [src/api/fx.js] and the URLs it requests are the same
    in every run: they do not depend on the order in which the fetches
    settle. *)
Theorem distinct_symbols_give_one_answer :
  forall localeCompare tz upstream req d symbols,
    consistent localeCompare ->
    parseInput req = Ok (Some (d, Arr symbols)) ->
    NoDup (map normalize symbols) ->
    (forall a b, In a (map normalize symbols) ->
                 In b (map normalize symbols) ->
                 localeCompare a b = Eq -> a = b) ->
    forall resp1 log1 resp2 log2,
      handler localeCompare tz upstream req resp1 log1 ->
      handler localeCompare tz upstream req resp2 log2 ->
      resp1 = resp2 /\ log1 = log2.
Proof.
  intros cmp tz upstream req d symbols Hc Hp Hn Hsep resp1 log1 resp2 log2
         H1 H2.
  destruct (Batch.prepare tz req) as [code msg|iso mdy symbols'] eqn:Hprep.
  - apply (handler_reply_only cmp tz upstream req code msg _ _ Hprep) in H1.
    apply (handler_reply_only cmp tz upstream req code msg _ _ Hprep) in H2.
    destruct H1 as [-> ->]. destruct H2 as [-> ->]. split; reflexivity.
  - pose proof (handler_log cmp tz upstream req _ _ _ _ _ Hprep H1) as L1.
    pose proof (handler_log cmp tz upstream req _ _ _ _ _ Hprep H2) as L2.
    split; [|rewrite L1, L2; reflexivity].
    destruct (prepare_fanout_inv tz req iso mdy symbols' Hprep)
      as (date & text & Hpi & _).
    rewrite Hp in Hpi. injection Hpi as _ <-.
    destruct (batch_items cmp tz upstream req _ _ _ _ _ Hprep H1)
      as (res1 & P1 & ->).
    destruct (batch_items cmp tz upstream req _ _ _ _ _ Hprep H2)
      as (res2 & P2 & ->).
    unfold respond.
    rewrite (filter_count_perm isOk res1 _ P1),
            (filter_count_perm isOk res2 _ P2).
    rewrite (filter_count_perm (fun r => negb (isOk r)) res1 _ P1),
            (filter_count_perm (fun r => negb (isOk r)) res2 _ P2).
    f_equal.
    apply (sort_unique cmp (perTask upstream mdy iso symbols) res1 res2 Hc);
      try assumption; rewrite perTask_symbols; assumption.
Qed.

Lemma distinct_symbols_give_one_answer_witness :
  consistent String.compare /\
  parseInput descendingRequest = Ok (Some (Some (VStr "2024-06-07"),
                                           Arr ["GBPUSD"; "EURUSD"])) /\
  NoDup (map normalize ["GBPUSD"; "EURUSD"]) /\
  fst (serve String.compare 0 sampleUpstream [0] descendingRequest) =
  fst (serve String.compare 0 sampleUpstream [1] descendingRequest).
Proof.
  assert (Hp : parseInput descendingRequest =
               Ok (Some (Some (VStr "2024-06-07"), Arr ["GBPUSD"; "EURUSD"])))
    by (vm_compute; reflexivity).
  assert (Hn : NoDup (map normalize ["GBPUSD"; "EURUSD"])).
  { vm_compute. constructor; [|constructor; [|constructor]].
    - intros [H|[]]. discriminate H.
    - intros []. }
  assert (Hsep : forall a b, In a (map normalize ["GBPUSD"; "EURUSD"]) ->
                   In b (map normalize ["GBPUSD"; "EURUSD"]) ->
                   String.compare a b = Eq -> a = b)
    by (intros a b _ _; apply String.compare_eq_iff).
  split; [exact string_compare_consistent|]. split; [exact Hp|].
  split; [exact Hn|].
  exact (proj1 (distinct_symbols_give_one_answer
                  String.compare 0%Z sampleUpstream descendingRequest
                  _ _ string_compare_consistent Hp Hn Hsep _ _ _ _
                  (handler_serve String.compare 0%Z sampleUpstream [0]%nat
                                 descendingRequest)
                  (handler_serve String.compare 0%Z sampleUpstream [1]%nat
                                 descendingRequest))).
Defined.

(** ** The text of the provider *)

Module TextFacts.
Import Js Csv TextSpec CsvFacts SymbolFacts InputFacts.

Lemma split_nonempty sep s : split sep s <> [].
Proof.
  destruct s as [|c r]; cbn; [discriminate|].
  destruct (Ascii.eqb c sep); [discriminate|].
  destruct (split sep r); discriminate.
Qed.

(** *** Line ends *)

Lemma isSpace_LF : isSpace LF = true.
Proof. reflexivity. Qed.

Lemma isSpace_CR : isSpace CR = true.
Proof. reflexivity. Qed.

Lemma eqb_LF_space c : Ascii.eqb c LF = true -> isSpace c = true.
Proof. intros H. apply Ascii.eqb_eq in H. subst. reflexivity. Qed.

Lemma crlf_empty s : crlf s = "" -> s = "".
Proof.
  destruct s as [|c r]; [reflexivity|]. cbn [crlf].
  destruct (Ascii.eqb c LF); discriminate.
Qed.

Lemma includes_crlf s : includesChar LF (crlf s) = includesChar LF s.
Proof.
  induction s as [|c r IH]; [reflexivity|]. cbn [crlf].
  destruct (Ascii.eqb c LF) eqn:E; cbn [includesChar].
  - rewrite E. change (Ascii.eqb CR LF) with false.
    apply Ascii.eqb_eq in E. subst c. rewrite Ascii.eqb_refl. reflexivity.
  - rewrite E, IH. reflexivity.
Qed.

Lemma trimStart_crlf s : trimStart (crlf s) = crlf (trimStart s).
Proof.
  induction s as [|c r IH]; [reflexivity|]. cbn [crlf trimStart].
  destruct (Ascii.eqb c LF) eqn:E.
  - rewrite (eqb_LF_space c E). cbn [trimStart].
    rewrite isSpace_CR, isSpace_LF. exact IH.
  - cbn [trimStart]. destruct (isSpace c); [exact IH|].
    cbn [crlf]. rewrite E. reflexivity.
Qed.

Lemma trimEnd_crlf s : trimEnd (crlf s) = crlf (trimEnd s).
Proof.
  induction s as [|c r IH]; [reflexivity|]. cbn [crlf].
  destruct (Ascii.eqb c LF) eqn:E.
  - pose proof (eqb_LF_space c E) as Hc.
    apply Ascii.eqb_eq in E. subst c.
    cbn [trimEnd]. rewrite IH.
    destruct (trimEnd r) as [|x r'] eqn:Er.
    + cbn [crlf]. rewrite isSpace_LF, isSpace_CR. reflexivity.
    + cbn [crlf]. rewrite Ascii.eqb_refl.
      destruct (Ascii.eqb x LF); reflexivity.
  - cbn [trimEnd]. rewrite IH.
    destruct (trimEnd r) as [|x r'] eqn:Er.
    + cbn [crlf]. destruct (isSpace c); [reflexivity|].
      cbn [crlf]. rewrite E. reflexivity.
    + cbn [crlf]. rewrite E.
      destruct (Ascii.eqb x LF); reflexivity.
Qed.

Lemma trim_crlf s : trim (crlf s) = crlf (trim s).
Proof. unfold trim. rewrite trimStart_crlf, trimEnd_crlf. reflexivity. Qed.

(** The pieces of the text with CR LF: those of the text, each but the
    last with a CR at its end. *)
Lemma split_crlf s :
  split LF (crlf s) =
  mapInit (fun x => x ++ String CR EmptyString) (split LF s).
Proof.
  induction s as [|c r IH]; [reflexivity|]. cbn [crlf].
  destruct (Ascii.eqb c LF) eqn:E.
  - cbn [split]. rewrite E. change (Ascii.eqb CR LF) with false.
    rewrite Ascii.eqb_refl. rewrite IH.
    pose proof (split_nonempty LF r) as Hne.
    destruct (split LF r) as [|h t]; [contradiction|]. reflexivity.
  - cbn [split]. rewrite E, IH.
    pose proof (split_nonempty LF r) as Hne.
    destruct (split LF r) as [|h [|h' t]]; [contradiction| |]; reflexivity.
Qed.

Lemma dropLastCR_snoc x : dropLastCR (x ++ String CR EmptyString) = x.
Proof.
  induction x as [|c r IH]; [reflexivity|].
  cbn [append dropLastCR]. rewrite IH.
  destruct r; reflexivity.
Qed.

Lemma mapInit_cons {A : Type} (f : A -> A) x l :
  l <> [] -> mapInit f (x :: l) = f x :: mapInit f l.
Proof. destruct l; [contradiction|reflexivity]. Qed.

Lemma mapInit_nonempty {A : Type} (f : A -> A) l :
  l <> [] -> mapInit f l <> [].
Proof. destruct l as [|x [|y r]]; [contradiction| |]; discriminate. Qed.

Lemma mapInit_mapInit {A : Type} (f g : A -> A) l :
  mapInit f (mapInit g l) = mapInit (fun x => f (g x)) l.
Proof.
  induction l as [|x l IH]; [reflexivity|].
  destruct l as [|y r]; [reflexivity|].
  rewrite (mapInit_cons g x (y :: r)) by discriminate.
  rewrite (mapInit_cons (fun x => f (g x)) x (y :: r)) by discriminate.
  rewrite mapInit_cons by (apply mapInit_nonempty; discriminate).
  rewrite IH. reflexivity.
Qed.

Lemma mapInit_id {A : Type} (f : A -> A) l :
  (forall x, f x = x) -> mapInit f l = l.
Proof.
  intros Hf. induction l as [|x [|y r] IH]; try reflexivity.
  change (mapInit f (x :: y :: r)) with (f x :: mapInit f (y :: r)).
  rewrite Hf, IH. reflexivity.
Qed.

Lemma splitLines_crlf s : splitLines (crlf s) = split LF s.
Proof.
  unfold splitLines. rewrite split_crlf, mapInit_mapInit.
  apply mapInit_id. apply dropLastCR_snoc.
Qed.

(** *** A CR at the end of a line is white space of its last cell *)

Lemma dropLastCR_cases x :
  dropLastCR x = x \/ x = dropLastCR x ++ String CR EmptyString.
Proof.
  induction x as [|c r IH]; [left; reflexivity|].
  destruct r as [|c' r'].
  - cbn [dropLastCR]. destruct (Ascii.eqb c CR) eqn:E;
      [right|left; reflexivity].
    apply Ascii.eqb_eq in E. subst. reflexivity.
  - change (dropLastCR (String c (String c' r')))
      with (String c (dropLastCR (String c' r'))).
    destruct IH as [IH|IH]; [left; rewrite IH; reflexivity|right].
    cbn [append]. rewrite <- IH. reflexivity.
Qed.

Lemma split_snoc sep c s :
  Ascii.eqb c sep = false ->
  split sep (s ++ String c EmptyString) = appLast c (split sep s).
Proof.
  intros Hc. induction s as [|x r IH]; cbn [append split].
  - rewrite Hc. reflexivity.
  - rewrite IH. pose proof (split_nonempty sep r) as Hne.
    destruct (Ascii.eqb x sep).
    + destruct (split sep r); [contradiction|reflexivity].
    + destruct (split sep r) as [|h [|h' t]]; [contradiction| |];
        reflexivity.
Qed.

Lemma trimEnd_snoc_space c s :
  isSpace c = true -> trimEnd (s ++ String c EmptyString) = trimEnd s.
Proof.
  intros Hc. induction s as [|x r IH]; cbn [append trimEnd].
  - rewrite Hc. reflexivity.
  - rewrite IH. reflexivity.
Qed.

Lemma trimStart_snoc_space c s :
  isSpace c = true ->
  trimStart (s ++ String c EmptyString) = trimStart s ++ String c EmptyString
  \/ (trimStart (s ++ String c EmptyString) = "" /\ trimStart s = "").
Proof.
  intros Hc. induction s as [|x r IH]; cbn [append trimStart].
  - rewrite Hc. right. split; reflexivity.
  - destruct (isSpace x); [exact IH|left; reflexivity].
Qed.

Lemma trim_snoc_space c s :
  isSpace c = true -> trim (s ++ String c EmptyString) = trim s.
Proof.
  intros Hc. unfold trim.
  destruct (trimStart_snoc_space c s Hc) as [-> | [-> ->]];
    [apply trimEnd_snoc_space; exact Hc|reflexivity].
Qed.

Lemma map_trim_appLast c l :
  isSpace c = true -> map trim (appLast c l) = map trim l.
Proof.
  intros Hc. induction l as [|x [|y r] IH]; [reflexivity| |].
  - cbn. rewrite (trim_snoc_space c x Hc). reflexivity.
  - change (appLast c (x :: y :: r)) with (x :: appLast c (y :: r)).
    cbn [map] in *. rewrite IH. reflexivity.
Qed.

Lemma cells_dropLastCR x : cells (dropLastCR x) = cells x.
Proof.
  unfold cells. destruct (dropLastCR_cases x) as [->|E]; [reflexivity|].
  rewrite E at 2. rewrite (split_snoc "," CR _ eq_refl).
  rewrite (map_trim_appLast CR _ isSpace_CR). reflexivity.
Qed.

Lemma headerCells_cells x : headerCells x = map toLowerCase (cells x).
Proof. unfold headerCells, cells. rewrite map_map. reflexivity. Qed.

Lemma headerCells_dropLastCR x : headerCells (dropLastCR x) = headerCells x.
Proof. rewrite !headerCells_cells, cells_dropLastCR. reflexivity. Qed.

Lemma scanRows_cells iDate iClose target rows rows' :
  map cells rows = map cells rows' ->
  scanRows iDate iClose target rows = scanRows iDate iClose target rows'.
Proof.
  revert rows'. induction rows as [|l rows IH]; intros [|l' rows'] E;
    try discriminate E; [reflexivity|].
  cbn [map] in E. injection E as El Er. cbn [scanRows].
  rewrite El, (IH rows' Er). reflexivity.
Qed.

Lemma map_cells_mapInit rows :
  map cells (mapInit dropLastCR rows) = map cells rows.
Proof.
  induction rows as [|x [|y r] IH]; try reflexivity.
  change (mapInit dropLastCR (x :: y :: r))
    with (dropLastCR x :: mapInit dropLastCR (y :: r)).
  cbn [map] in *. rewrite IH, cells_dropLastCR. reflexivity.
Qed.

End TextFacts.

Import TextSpec TextFacts.

(** X9.  White space and empty lines before and after the text of the
    provider do not change what [parseWSJCSV] finds in it. *)
Theorem csv_parse_ignores_surrounding_white_space :
  forall csv target,
    parseWSJCSV csv target = parseWSJCSV (trim csv) target.
Proof.
  intros csv target.
  unfold parseWSJCSV.
  destruct (includesChar LF (trim csv)) eqn:Ht.
  - assert (Hc : includesChar LF csv = true)
      by (apply includes_trimStart, includes_trimEnd; exact Ht).
    rewrite Hc, trim_idem.
    assert (String.eqb csv "" = false) as ->
      by (destruct csv; [discriminate Hc|reflexivity]).
    assert (String.eqb (trim csv) "" = false) as ->
      by (destruct (trim csv); [discriminate Ht|reflexivity]).
    reflexivity.
  - rewrite orb_true_r.
    destruct (String.eqb csv "" || negb (includesChar LF csv));
      [reflexivity|].
    unfold splitLines. rewrite (split_none LF _ Ht). cbn [mapInit].
    destruct ((_ <? 0)%Z || (_ <? 0)%Z); reflexivity.
Qed.

(** X10.  [parseWSJCSV] finds the same in a text whose lines end in
    carriage return and line feed as in the text whose lines end in line
    feed alone. *)
Theorem csv_parse_ignores_carriage_returns :
  forall csv target,
    parseWSJCSV (crlf csv) target = parseWSJCSV csv target.
Proof.
  intros csv target. unfold parseWSJCSV.
  rewrite includes_crlf.
  assert (String.eqb (crlf csv) "" = String.eqb csv "") as ->.
  { destruct (String.eqb_spec csv "") as [->|N]; [reflexivity|].
    apply String.eqb_neq. intros E. apply N. apply crlf_empty. exact E. }
  destruct (String.eqb csv "" || negb (includesChar LF csv)); [reflexivity|].
  rewrite trim_crlf, splitLines_crlf. unfold splitLines.
  destruct (split LF (trim csv)) as [|h rows]; [reflexivity|].
  assert (E : exists h',
             mapInit dropLastCR (h :: rows) = h' :: mapInit dropLastCR rows /\
             headerCells h' = headerCells h).
  { destruct rows as [|r rows].
    - exists h. split; reflexivity.
    - exists (dropLastCR h). split; [reflexivity|].
      apply headerCells_dropLastCR. }
  destruct E as (h' & -> & ->).
  destruct ((_ <? 0)%Z || (_ <? 0)%Z); [reflexivity|].
  apply scanRows_cells. symmetry. apply map_cells_mapInit.
Qed.

(** ** The date in the form the provider takes *)

Module FormatFacts.
Import Js JsDate Dates DateSpec Http Csv CsvSpec Result FormatSpec.
Import CalendarFacts IsoFacts ResolverFacts CsvFacts.
Local Open Scope Z_scope.

(** A check of every number below [n]. *)
Lemma below_checked (P : Z -> bool) (n : nat) :
  forallb P (map Z.of_nat (seq 0 n)) = true ->
  forall v, 0 <= v < Z.of_nat n -> P v = true.
Proof.
  intros H v Hv. rewrite forallb_forall in H. apply H.
  apply in_map_iff. exists (Z.to_nat v). split; [lia|].
  apply in_seq. lia.
Qed.

Lemma below_checked2 (P : Z -> bool) :
  forallb (fun a => forallb (fun b => P (100 * a + b))
                            (map Z.of_nat (seq 0 100)))
          (map Z.of_nat (seq 0 100)) = true ->
  forall v, 0 <= v <= 9999 -> P v = true.
Proof.
  intros H v Hv.
  pose proof (below_checked _ 100 H (v / 100) ltac:(lia)) as Ha.
  cbv beta in Ha.
  pose proof (below_checked _ 100 Ha (v mod 100) ltac:(lia)) as Hb.
  cbv beta in Hb. replace (100 * (v / 100) + v mod 100) with v in Hb by lia.
  exact Hb.
Qed.

Lemma ofInt_two v : 0 <= v <= 99 -> padStart 2 "0" (ofInt v) = pad2 v.
Proof.
  intros Hv.
  apply String.eqb_eq.
  apply (below_checked
           (fun v => String.eqb (padStart 2 "0" (ofInt v)) (pad2 v)) 100);
    [vm_compute; reflexivity|lia].
Qed.

(** [String(y)] for a year: four digits from 1000 on, fewer below. *)
Lemma ofInt_year y :
  0 <= y <= 9999 ->
  (1000 <= y -> ofInt y = pad4 y) /\
  (y < 1000 -> (String.length (ofInt y) < 4)%nat) /\
  includesChar "/" (ofInt y) = false /\
  Forall (fun c => isDigit c = true) (chars (ofInt y)).
Proof.
  intros Hy.
  pose proof (below_checked2
    (fun y => (if 1000 <=? y then String.eqb (ofInt y) (pad4 y)
               else (String.length (ofInt y) <? 4)%nat) &&
              negb (includesChar "/" (ofInt y)) &&
              forallb isDigit (chars (ofInt y)))
    ltac:(vm_compute; reflexivity) y Hy) as H.
  cbv beta in H. rewrite !andb_true_iff in H. destruct H as [[H1 H2] H3].
  split; [|split; [|split]].
  - intros L. replace (1000 <=? y) with true in H1
      by (symmetry; apply Z.leb_le; lia).
    apply String.eqb_eq. exact H1.
  - intros L. replace (1000 <=? y) with false in H1
      by (symmetry; apply Z.leb_gt; lia).
    apply Nat.ltb_lt. exact H1.
  - apply negb_true_iff. exact H2.
  - apply Forall_forall. rewrite forallb_forall in H3. exact H3.
Qed.

(** The fields of a formatted date. *)
Lemma fields_isoDateOf y m d :
  0 <= y <= 9999 -> 0 <= m <= 99 -> 0 <= d <= 99 ->
  let s := isoDateOf (y, m, d) in
  yearOf s = y /\ monthOf s = m /\ dayOf s = d /\
  substring 0 4 s = pad4 y /\ substring 5 2 s = pad2 m /\
  substring 8 2 s = pad2 d.
Proof.
  intros Hy Hm Hd s. unfold s, yearOf, monthOf, dayOf, fieldAt.
  unfold isoDateOf, isoYear.
  replace ((0 <=? y) && (y <=? 9999)) with true
    by (symmetry; apply andb_true_iff; split; apply Z.leb_le; lia).
  unfold pad4, pad3, pad2. cbn [append substring chars].
  rewrite (four_digits y Hy), (two_digits m Hm), (two_digits d Hd).
  repeat split; reflexivity.
Qed.

(** The time value [toMMDDYYYY] and [mmddyy] read, and its fields. *)
Lemma utc_fields s y m d :
  parseDateOnly s = Some (y, m, d) -> 0 <= y <= 9999 -> 1 <= m <= 12 ->
  1 <= d <= daysInMonth y m ->
  let t := newDate s 0 in
  numAdd (getUTCMonth t) 1 = Some m /\ getUTCDate t = Some d /\
  getUTCFullYear t = Some y.
Proof.
  intros Hp Hy Hm Hd t.
  assert (Hd31 : 1 <= d <= 31).
  { unfold daysInMonth in Hd. split_ifs; lia. }
  pose proof (days_in_range y m d Hy Hm Hd31) as Hr.
  unfold t. rewrite (newDate_civil s y m d 0 Hp Hm) by lia.
  unfold numAdd, getUTCMonth, getUTCDate, getUTCFullYear, option_map.
  unfold MonthFromTime, DateFromTime, YearFromTime.
  assert (Day (daysFromCivil y m d * msPerDay - 0 * msPerMinute) =
          daysFromCivil y m d) as ->
    by (unfold Day, msPerDay, msPerMinute; lia).
  rewrite (civil_of_days y m d Hm Hd). cbn [fst snd].
  repeat split. f_equal. lia.
Qed.

Lemma toMMDDYYYY_civil s y m d :
  parseDateOnly s = Some (y, m, d) -> 0 <= y <= 9999 -> 1 <= m <= 12 ->
  1 <= d <= daysInMonth y m ->
  toMMDDYYYY s = (pad2 m ++ "/" ++ pad2 d ++ "/" ++ ofInt y)%string.
Proof.
  intros Hp Hy Hm Hd.
  assert (Hd31 : 1 <= d <= 31).
  { unfold daysInMonth in Hd. split_ifs; lia. }
  destruct (utc_fields s y m d Hp Hy Hm Hd) as (E1 & E2 & E3).
  unfold toMMDDYYYY. rewrite E1, E2, E3. cbn [ofNumber].
  rewrite (ofInt_two m) by lia. rewrite (ofInt_two d) by lia. reflexivity.
Qed.

Lemma mmddyy_civil s y m d :
  parseDateOnly s = Some (y, m, d) -> 0 <= y <= 9999 -> 1 <= m <= 12 ->
  1 <= d <= daysInMonth y m ->
  Simple.mmddyy s =
  (pad2 m ++ "/" ++ pad2 d ++ "/" ++ Simple.lastTwo (ofInt y))%string.
Proof.
  intros Hp Hy Hm Hd.
  assert (Hd31 : 1 <= d <= 31).
  { unfold daysInMonth in Hd. split_ifs; lia. }
  destruct (utc_fields s y m d Hp Hy Hm Hd) as (E1 & E2 & E3).
  unfold Simple.mmddyy. rewrite E1, E2, E3. cbn [ofNumber].
  rewrite (ofInt_two m) by lia. rewrite (ofInt_two d) by lia. reflexivity.
Qed.

End FormatFacts.

Import FormatSpec FormatFacts.

(** X11.  For a date of the calendar, [toMMDDYYYY] (and [mmddyyyy] of
    [src/API/fx.js]) returns the two digits of the month, a slash, the two
    digits of the day, a slash and the year as [String] writes the number:
    without leading zeros.  So from the year 1000 on the result is the
    digits of the date rearranged, and before that year its year has fewer
    than four digits.  [mmddyy] returns the same with the last two
    characters of that year. *)
Theorem mdy_rearranges_the_date :
  forall s n,
    isoDay s = Some n ->
    toMMDDYYYY s =
      substring 5 2 s ++ "/" ++ substring 8 2 s ++ "/" ++ ofInt (yearOf s) /\
    Simple.mmddyy s =
      substring 5 2 s ++ "/" ++ substring 8 2 s ++ "/" ++
      Simple.lastTwo (ofInt (yearOf s)) /\
    ((1000 <= yearOf s)%Z ->
     toMMDDYYYY s =
       substring 5 2 s ++ "/" ++ substring 8 2 s ++ "/" ++ substring 0 4 s /\
     Simple.mmddyy s =
       substring 5 2 s ++ "/" ++ substring 8 2 s ++ "/" ++ substring 2 2 s) /\
    ((yearOf s < 1000)%Z -> (String.length (toMMDDYYYY s) < 10)%nat).
Proof.
  intros s n H.
  destruct (isoDay_inv s n H)
    as (y & m & d & -> & Hp & Hy & Hm & Hd & Hd31 & ->).
  destruct (fields_isoDateOf y m d Hy ltac:(lia) ltac:(lia))
    as (Fy & Fm & Fd & S0 & S5 & S8).
  cbv zeta in Fy, Fm, Fd, S0, S5, S8.
  rewrite Fy, S0, S5, S8.
  rewrite (toMMDDYYYY_civil _ y m d Hp Hy Hm Hd).
  rewrite (mmddyy_civil _ y m d Hp Hy Hm Hd).
  destruct (ofInt_year y Hy) as (E4 & E3 & _).
  split; [reflexivity|]. split; [reflexivity|]. split.
  - intros L. rewrite (E4 L). split; [reflexivity|].
    do 4 f_equal. unfold isoDateOf, isoYear.
    replace ((0 <=? y) && (y <=? 9999))%Z with true
      by (symmetry; apply andb_true_iff; split; apply Z.leb_le; lia).
    reflexivity.
  - intros L. specialize (E3 L). unfold pad2.
    cbn [append String.length]. lia.
Qed.

Lemma mdy_rearranges_the_date_witness :
  isoDay "2024-06-07" = Some 19881%Z /\
  toMMDDYYYY "2024-06-07" = "06/07/2024" /\
  Simple.mmddyy "2024-06-07" = "06/07/24".
Proof.
  assert (H : isoDay "2024-06-07" = Some 19881%Z) by (vm_compute; reflexivity).
  split; [exact H|].
  destruct (mdy_rearranges_the_date "2024-06-07" 19881%Z H)
    as (_ & _ & H4 & _).
  exact (H4 ltac:(vm_compute; discriminate)).
Defined.

Module RoundTripFacts.
Import Js JsDate Dates DateSpec Http Csv CsvSpec Result FormatSpec.
Import CalendarFacts IsoFacts ResolverFacts CsvFacts FormatFacts.

Lemma length_app_string a b :
  String.length (a ++ b) = (String.length a + String.length b)%nat.
Proof. induction a as [|c r IH]; cbn; [reflexivity|]. rewrite IH. lia. Qed.

Lemma append_assoc a b c : (a ++ b) ++ c = a ++ (b ++ c).
Proof. induction a as [|x a IH]; cbn; [reflexivity|]. rewrite IH. reflexivity. Qed.

Lemma append_cancel_l p a b : p ++ a = p ++ b -> a = b.
Proof.
  induction p as [|c r IH]; cbn; [exact (fun H => H)|].
  intros [= H]. exact (IH H).
Qed.

Lemma append_cancel_r a b c : a ++ c = b ++ c -> a = b.
Proof.
  revert b. induction a as [|x a IH]; intros [|y b] H; cbn in H.
  - reflexivity.
  - exfalso. apply (f_equal String.length) in H. cbn in H.
    rewrite length_app_string in H. lia.
  - exfalso. apply (f_equal String.length) in H. cbn in H.
    rewrite length_app_string in H. lia.
  - injection H as -> H. f_equal. exact (IH b H).
Qed.

Lemma unreserved_digit c : isDigit c = true -> unreserved c = true.
Proof.
  intros H. unfold unreserved. rewrite H.
  rewrite orb_true_r. reflexivity.
Qed.

Lemma encode_app a b :
  encodeURIComponent (a ++ b) = encodeURIComponent a ++ encodeURIComponent b.
Proof.
  induction a as [|c r IH]; cbn [append encodeURIComponent]; [reflexivity|].
  rewrite IH.
  destruct (unreserved c); [reflexivity|].
  destruct (code c <? 128)%N; rewrite !append_assoc; reflexivity.
Qed.

Lemma encode_digits s :
  Forall (fun c => isDigit c = true) (chars s) -> encodeURIComponent s = s.
Proof.
  induction s as [|c r IH]; cbn [chars encodeURIComponent]; [reflexivity|].
  intros H. inversion H as [|? ? Hc Hr]; subst.
  rewrite (unreserved_digit c Hc), (IH Hr). reflexivity.
Qed.

Lemma encode_pad2 v : encodeURIComponent (pad2 v) = pad2 v.
Proof.
  apply encode_digits. unfold pad2. cbn [chars].
  repeat constructor; apply isDigit_digitChar.
Qed.

Lemma encode_pad4 v : encodeURIComponent (pad4 v) = pad4 v.
Proof.
  apply encode_digits. unfold pad4, pad3, pad2. cbn [chars].
  repeat constructor; apply isDigit_digitChar.
Qed.

Lemma no_slash_digits s :
  Forall (fun c => isDigit c = true) (chars s) -> includesChar "/" s = false.
Proof.
  induction s as [|c r IH]; cbn [chars includesChar]; [reflexivity|].
  intros H. inversion H as [|? ? Hc Hr]; subst. rewrite (IH Hr).
  destruct (Ascii.eqb_spec c "/") as [->|_]; [discriminate Hc|reflexivity].
Qed.

Lemma no_slash_pad2 v : includesChar "/" (pad2 v) = false.
Proof.
  apply no_slash_digits. unfold pad2. cbn [chars].
  repeat constructor; apply isDigit_digitChar.
Qed.

(** What the row matcher makes of a date of two digits, two digits and a
    year. *)
Lemma rowISO_formatted m d yy :
  includesChar "/" yy = false -> twoCharsAreDigits yy ->
  rowISO (pad2 m ++ "/" ++ pad2 d ++ "/" ++ yy) =
  Some (pivotYear yy ++ "-" ++ pad2 m ++ "-" ++ pad2 d).
Proof.
  intros Hy H2.
  change (pad2 m ++ "/" ++ pad2 d ++ "/" ++ yy)
    with (pad2 m ++ String "/" (pad2 d ++ String "/" yy)).
  rewrite (rowISO_mdy (pad2 m) (pad2 d) yy (no_slash_pad2 m) (no_slash_pad2 d)
             Hy H2).
  reflexivity.
Qed.

Lemma rowISO_formatted_iff y m d yy :
  (0 <= y <= 9999)%Z ->
  includesChar "/" yy = false -> twoCharsAreDigits yy ->
  rowISO (pad2 m ++ "/" ++ pad2 d ++ "/" ++ yy) = Some (isoDateOf (y, m, d))
  <-> pivotYear yy = pad4 y.
Proof.
  intros Hy Hs H2. rewrite (rowISO_formatted m d yy Hs H2).
  unfold isoDateOf, isoYear.
  replace ((0 <=? y) && (y <=? 9999))%Z with true
    by (symmetry; apply andb_true_iff; split; apply Z.leb_le; lia).
  split.
  - intros [= H].
    apply (append_cancel_r _ _ ("-" ++ pad2 m ++ "-" ++ pad2 d)). exact H.
  - intros ->. reflexivity.
Qed.

Lemma twoCharsOk_spec yy : twoCharsOk yy = true -> twoCharsAreDigits yy.
Proof.
  unfold twoCharsOk, twoCharsAreDigits.
  destruct (chars yy) as [|a [|b [|c r]]]; auto.
  intros H. apply andb_true_iff in H. exact H.
Qed.

(** The year as the row matcher reads it back: every year of four digits
    from its full form, the years 1951 to 2050 from their last two
    digits. *)
Lemma years_read_back y :
  (0 <= y <= 9999)%Z ->
  includesChar "/" (ofInt y) = false /\ twoCharsAreDigits (ofInt y) /\
  includesChar "/" (Simple.lastTwo (ofInt y)) = false /\
  twoCharsAreDigits (Simple.lastTwo (ofInt y)) /\
  (pivotYear (ofInt y) = pad4 y <-> (1000 <= y)%Z) /\
  (pivotYear (Simple.lastTwo (ofInt y)) = pad4 y <-> (1951 <= y <= 2050)%Z).
Proof.
  intros Hy.
  pose proof (below_checked2
    (fun y => negb (includesChar "/" (ofInt y)) && twoCharsOk (ofInt y) &&
              negb (includesChar "/" (Simple.lastTwo (ofInt y))) &&
              twoCharsOk (Simple.lastTwo (ofInt y)) &&
              Bool.eqb (String.eqb (pivotYear (ofInt y)) (pad4 y))
                       (1000 <=? y)%Z &&
              Bool.eqb (String.eqb (pivotYear (Simple.lastTwo (ofInt y)))
                                   (pad4 y))
                       ((1951 <=? y) && (y <=? 2050))%Z)
    ltac:(vm_compute; reflexivity) y Hy) as H.
  cbv beta in H. rewrite !andb_true_iff in H.
  destruct H as (((((H1 & H2) & H3) & H4) & H5) & H6).
  apply negb_true_iff in H1, H3. apply Bool.eqb_prop in H5, H6.
  split; [exact H1|]. split; [apply twoCharsOk_spec; exact H2|].
  split; [exact H3|]. split; [apply twoCharsOk_spec; exact H4|]. split.
  - rewrite <- String.eqb_eq, H5. apply Z.leb_le.
  - rewrite <- String.eqb_eq, H6, andb_true_iff, !Z.leb_le. reflexivity.
Qed.

End RoundTripFacts.

Import RoundTripFacts.

(** X12.  The URL the fetcher requests for a symbol and a date of the
    calendar from the year 1000 on: the symbol in the path, and the month,
    day and year of the date, their slashes escaped as %2F, as start date
    and as end date, with 50 rows asked for. *)
Theorem download_url_of_a_date :
  forall sym s n,
    isoDay s = Some n -> (1000 <= yearOf s)%Z ->
    downloadURL sym (toMMDDYYYY s) =
    "https://www.wsj.com/market-data/quotes/FX/" ++ sym ++
    "/historical-prices/download?startDate=" ++
    substring 5 2 s ++ "%2F" ++ substring 8 2 s ++ "%2F" ++ substring 0 4 s ++
    "&endDate=" ++
    substring 5 2 s ++ "%2F" ++ substring 8 2 s ++ "%2F" ++ substring 0 4 s ++
    "&num_rows=50".
Proof.
  intros sym s n H L.
  destruct (isoDay_inv s n H)
    as (y & m & d & -> & Hp & Hy & Hm & Hd & Hd31 & ->).
  destruct (fields_isoDateOf y m d Hy ltac:(lia) ltac:(lia))
    as (Fy & _ & _ & S0 & S5 & S8).
  cbv zeta in Fy, S0, S5, S8. rewrite Fy in L. rewrite S0, S5, S8.
  rewrite (toMMDDYYYY_civil _ y m d Hp Hy Hm Hd).
  rewrite (proj1 (ofInt_year y Hy) L).
  unfold downloadURL.
  rewrite !encode_app, !encode_pad2, encode_pad4.
  change (encodeURIComponent "/") with "%2F".
  rewrite !append_assoc. reflexivity.
Qed.

Lemma download_url_of_a_date_witness :
  isoDay "2024-06-07" = Some 19881%Z /\ (1000 <= yearOf "2024-06-07")%Z /\
  downloadURL "EURUSD" (toMMDDYYYY "2024-06-07") =
  "https://www.wsj.com/market-data/quotes/FX/EURUSD/historical-prices/download?startDate=06%2F07%2F2024&endDate=06%2F07%2F2024&num_rows=50".
Proof.
  assert (H : isoDay "2024-06-07" = Some 19881%Z) by (vm_compute; reflexivity).
  assert (L : (1000 <= yearOf "2024-06-07")%Z)
    by (vm_compute; discriminate).
  split; [exact H|]. split; [exact L|].
  exact (download_url_of_a_date "EURUSD" "2024-06-07" 19881%Z H L).
Defined.

(** X13.  For one date, two symbols have the same download URL only if
    they are the same symbol; so in an answer of the handler two items that
    name the same URL carry the same symbol. *)
Theorem items_with_one_url_have_one_symbol :
  (forall s1 s2 mdy, downloadURL s1 mdy = downloadURL s2 mdy -> s1 = s2) /\
  (forall localeCompare tz upstream req resp log a b u,
      handler localeCompare tz upstream req resp log ->
      In a (itemsOf resp) -> In b (itemsOf resp) ->
      source_url a = Some u -> source_url b = Some u ->
      symbol a = symbol b).
Proof.
  assert (Hinj : forall s1 s2 mdy,
             downloadURL s1 mdy = downloadURL s2 mdy -> s1 = s2).
  { intros s1 s2 mdy. unfold downloadURL. intros H.
    apply append_cancel_l in H. apply append_cancel_r in H. exact H. }
  split; [exact Hinj|].
  intros cmp tz upstream req resp log a b u H Ha Hb Ua Ub.
  pose proof (handler_inv cmp tz upstream req resp log H) as Hi.
  destruct (Batch.prepare tz req) as [code msg|iso mdy symbols] eqn:Hp.
  - destruct Hi as [-> _]. destruct Ha.
  - destruct (batch_items cmp tz upstream req _ _ _ resp log Hp H)
      as (res & Hperm & ->).
    cbn [itemsOf respond] in Ha, Hb.
    assert (Hsrc : forall r, In r (sort cmp res) ->
              source_url r = Some u -> u = downloadURL (symbol r) mdy).
    { intros r Hr Ur.
      apply (Permutation_in _ (sort_perm cmp res)) in Hr.
      apply (Permutation_in _ Hperm) in Hr.
      destruct (perTask_source upstream _ _ _ r Hr) as (i & s & _ & ->).
      rewrite fetchWSJ_symbol.
      destruct (fetchWSJ_source_url (upstream i) (normalize s) mdy iso)
        as [[_ E]|[_ E]]; rewrite E in Ur; [discriminate Ur|].
      injection Ur as <-. reflexivity. }
    apply (Hinj _ _ mdy). rewrite <- (Hsrc a Ha Ua), <- (Hsrc b Hb Ub).
    reflexivity.
Qed.

Lemma items_with_one_url_have_one_symbol_witness :
  handler String.compare 0 sampleUpstream sampleRequest
          (fst (serve String.compare 0 sampleUpstream [] sampleRequest))
          (snd (serve String.compare 0 sampleUpstream [] sampleRequest)) /\
  In (mkResult "EURUSD" StatusOk (Some "1.085") (Some "2024-06-07") None
               (Some (downloadURL "EURUSD" "06/07/2024")))
     (itemsOf (fst (serve String.compare 0 sampleUpstream []
                          sampleRequest))) /\
  In (failure "EURUSD" "row not found"
              (Some (downloadURL "EURUSD" "06/07/2024")))
     (itemsOf (fst (serve String.compare 0 sampleUpstream []
                          sampleRequest))) /\
  symbol (mkResult "EURUSD" StatusOk (Some "1.085") (Some "2024-06-07") None
                   (Some (downloadURL "EURUSD" "06/07/2024"))) =
  symbol (failure "EURUSD" "row not found"
                  (Some (downloadURL "EURUSD" "06/07/2024"))).
Proof.
  pose proof (handler_serve String.compare 0%Z sampleUpstream []%list
                sampleRequest) as Hh.
  assert (Ha : In (mkResult "EURUSD" StatusOk (Some "1.085")
                            (Some "2024-06-07") None
                            (Some (downloadURL "EURUSD" "06/07/2024")))
                  (itemsOf (fst (serve String.compare 0 sampleUpstream []
                                       sampleRequest))))
    by (vm_compute; repeat (first [left; reflexivity | right])).
  assert (Hb : In (failure "EURUSD" "row not found"
                           (Some (downloadURL "EURUSD" "06/07/2024")))
                  (itemsOf (fst (serve String.compare 0 sampleUpstream []
                                       sampleRequest))))
    by (vm_compute; repeat (first [left; reflexivity | right])).
  split; [exact Hh|]. split; [exact Ha|]. split; [exact Hb|].
  exact (proj2 items_with_one_url_have_one_symbol
               String.compare 0%Z sampleUpstream sampleRequest _ _ _ _
               (downloadURL "EURUSD" "06/07/2024") Hh Ha Hb eq_refl eq_refl).
Defined.

(** X14.  The row matcher of [src/api/fx.js] reads the date the handler
    asked the provider for back as the resolved date: for a date of the
    calendar, [toMMDDYYYY] followed by the normalisation of a row date
    gives the date again exactly from the year 1000 on. *)
Theorem row_date_reads_back_the_requested_date :
  forall s n,
    isoDay s = Some n ->
    (rowISO (toMMDDYYYY s) = Some s <-> (1000 <= yearOf s)%Z).
Proof.
  intros s n H.
  destruct (isoDay_inv s n H)
    as (y & m & d & -> & Hp & Hy & Hm & Hd & Hd31 & ->).
  destruct (fields_isoDateOf y m d Hy ltac:(lia) ltac:(lia)) as (Fy & _).
  cbv zeta in Fy. rewrite Fy.
  rewrite (toMMDDYYYY_civil _ y m d Hp Hy Hm Hd).
  destruct (years_read_back y Hy) as (N1 & T1 & _ & _ & E & _).
  rewrite (rowISO_formatted_iff y m d (ofInt y) Hy N1 T1). exact E.
Qed.

Lemma row_date_reads_back_the_requested_date_witness :
  isoDay "2024-06-08" = Some 19882%Z /\
  rowISO (toMMDDYYYY "2024-06-08") = Some "2024-06-08".
Proof.
  assert (H : isoDay "2024-06-08" = Some 19882%Z) by (vm_compute; reflexivity).
  split; [exact H|].
  apply (proj2 (row_date_reads_back_the_requested_date "2024-06-08" 19882%Z H)).
  vm_compute. discriminate.
Defined.

(** X15.  A date written with the last two digits of its year, as
    [mmddyy] of [src/API/fx.js] writes it, is read back by the row matcher
    of [src/api/fx.js] as the same date exactly for the years 1951 to 2050:
    the window of the pivot. *)
Theorem two_digit_years_cover_1951_to_2050 :
  forall s n,
    isoDay s = Some n ->
    (rowISO (Simple.mmddyy s) = Some s <-> (1951 <= yearOf s <= 2050)%Z).
Proof.
  intros s n H.
  destruct (isoDay_inv s n H)
    as (y & m & d & -> & Hp & Hy & Hm & Hd & Hd31 & ->).
  destruct (fields_isoDateOf y m d Hy ltac:(lia) ltac:(lia)) as (Fy & _).
  cbv zeta in Fy. rewrite Fy.
  rewrite (mmddyy_civil _ y m d Hp Hy Hm Hd).
  destruct (years_read_back y Hy) as (_ & _ & N2 & T2 & _ & E).
  rewrite (rowISO_formatted_iff y m d _ Hy N2 T2). exact E.
Qed.

Lemma two_digit_years_cover_1951_to_2050_witness :
  isoDay "1950-06-07" = Some (-7148)%Z /\
  Simple.mmddyy "1950-06-07" = "06/07/50" /\
  rowISO "06/07/50" = Some "2050-06-07" /\
  ~ (1951 <= yearOf "1950-06-07" <= 2050)%Z /\
  rowISO (Simple.mmddyy "1950-06-07") <> Some "1950-06-07".
Proof.
  assert (H : isoDay "1950-06-07" = Some (-7148)%Z)
    by (vm_compute; reflexivity).
  assert (N : ~ (1951 <= yearOf "1950-06-07" <= 2050)%Z)
    by (vm_compute; intros [L _]; apply L; reflexivity).
  split; [exact H|]. split; [vm_compute; reflexivity|].
  split; [vm_compute; reflexivity|]. split; [exact N|].
  intros E. apply N.
  exact (proj1 (two_digit_years_cover_1951_to_2050 "1950-06-07" (-7148)%Z H)
               E).
Defined.

(** ** The answer to a request that passes validation *)

Module OutcomeFacts.
Import Js JsDate Dates DateSpec Http Result Batch InputSpec RequestSpec.
Import FormatSpec CalendarFacts IsoFacts ResolverFacts HandlerFacts.
Import InputFacts FormatFacts CoverageFacts.
Local Open Scope Z_scope.

(** The dates the pattern accepts: the format of three numbers, which the
    [Date] constructor takes when they are plausible. *)
Lemma matched_date s :
  matchesDate s = true ->
  exists y m d,
    0 <= y <= 9999 /\ 0 <= m <= 99 /\ 0 <= d <= 99 /\
    parseDateOnly s = (if plausible s then Some (y, m, d) else None) /\
    (plausible s = true -> 1 <= m <= 12 /\ 1 <= d <= 31).
Proof.
  intros H.
  destruct (matchesDate_shape s H) as (y & m & d & Hy & Hm & Hd & -> & Hp).
  exists y, m, d. repeat split; try lia.
  - rewrite Hp. unfold legalFields, plausible.
    destruct (fields_isoDateOf y m d Hy Hm Hd) as (_ & -> & -> & _).
    reflexivity.
  - unfold plausible in H0.
    destruct (fields_isoDateOf y m d Hy Hm Hd) as (_ & Fm & Fd & _).
    cbv zeta in Fm, Fd. rewrite Fm, Fd in H0.
    rewrite !andb_true_iff, !Z.leb_le in H0. lia.
  - unfold plausible in H0.
    destruct (fields_isoDateOf y m d Hy Hm Hd) as (_ & Fm & Fd & _).
    cbv zeta in Fm, Fd. rewrite Fm, Fd in H0.
    rewrite !andb_true_iff, !Z.leb_le in H0. lia.
  - unfold plausible in H0.
    destruct (fields_isoDateOf y m d Hy Hm Hd) as (_ & Fm & Fd & _).
    cbv zeta in Fm, Fd. rewrite Fm, Fd in H0.
    rewrite !andb_true_iff, !Z.leb_le in H0. lia.
  - unfold plausible in H0.
    destruct (fields_isoDateOf y m d Hy Hm Hd) as (_ & Fm & Fd & _).
    cbv zeta in Fm, Fd. rewrite Fm, Fd in H0.
    rewrite !andb_true_iff, !Z.leb_le in H0. lia.
Qed.

Lemma resolver_on_matched tz s :
  zone tz -> matchesDate s = true ->
  if plausible s
  then exists r, priorBizIfWeekend tz s = Ok r
  else priorBizIfWeekend tz s = Throw RangeError_invalid_time.
Proof.
  intros Hz H. unfold zone in Hz.
  destruct (matched_date s H) as (y & m & d & Hy & _ & _ & Hp & Hpl).
  destruct (plausible s).
  - destruct (Hpl eq_refl) as [Hm Hd].
    pose proof (days_in_range y m d Hy Hm Hd) as Hr.
    rewrite (resolver_time tz s y m d Hp Hm) by lia.
    eexists. reflexivity.
  - unfold priorBizIfWeekend, newDate. rewrite Hp. reflexivity.
Qed.

Lemma inherited_not_array k :
  COVERAGE_or_full k = NotArray <-> inherited k = true.
Proof.
  unfold inherited. split.
  - unfold COVERAGE_or_full.
    destruct (String.eqb k "majors"); [discriminate|].
    destruct (String.eqb k "extended"); [discriminate|].
    destruct (String.eqb k "full"); [discriminate|].
    destruct (_ || _); [reflexivity|discriminate].
  - intros H. apply orb_true_iff in H.
    destruct H as [H|H]; apply String.eqb_eq in H; subst k; reflexivity.
Qed.

(** A request the handler can read has a coverage and symbols, given or
    not. *)
Lemma parse_parts req :
  getOrPost req = true -> malformed req = false ->
  exists k g, requestCoverage req = Ok k /\ givenSymbols req = Ok g.
Proof.
  intros Hm Hw. destruct (parseInput_ok req Hm Hw) as (d & s & Hp).
  rewrite parseInput_given, Hm in Hp.
  destruct (requestCoverage req) as [k|e]; [|discriminate].
  destruct (givenSymbols req) as [g|e]; [|discriminate].
  exists k, g. split; reflexivity.
Qed.

(** What is prepared for a request that is read without an exception and
    whose date matches the pattern. *)
Lemma prepare_matched tz req date text coverage symbols :
  getOrPost req = true -> requestDate req = Some date ->
  stringOf date = Ok text -> matchesDate text = true ->
  requestCoverage req = Ok coverage -> givenSymbols req = Ok symbols ->
  Batch.prepare tz req =
  match priorBizIfWeekend tz text with
  | Throw e => Reply 500 (describe e)
  | Ok iso =>
      match orCoverage symbols coverage with
      | NotArray => Reply 500 (describe TypeError_map)
      | Arr l => Fanout iso (toMMDDYYYY iso) l
      end
  end.
Proof.
  intros Hm Hd Ht Hmd Hk Hg. unfold Batch.prepare.
  rewrite parseInput_given, Hm, Hk, Hg, Hd.
  rewrite (validDate_text date text Ht Hmd). reflexivity.
Qed.

End OutcomeFacts.

Import OutcomeFacts.

(** X16.  What the handler of [src/api/fx.js] answers to a GET or POST
    request, on a host in a time zone in use.  Every such request is
    answered.  A request the handler cannot read is answered 500, whatever
    its date: that of a [TypeError] when the coverage is neither absent nor
    a string, and otherwise when the symbols of a GET are neither absent
    nor a string, for an array, which a parameter given twice makes, has no
    [toLowerCase] and no [split].  A request it can read is answered 500
    when its date has no text; and when the text of its date matches the
    pattern, the answer is a 500 "Invalid time value" when the month of the
    date is not 01 to 12 or its day not 01 to 31; otherwise it is a 500
    that says that [map] is no function when the request gives no symbol
    and its coverage, in lower case, is [constructor] or [__proto__]; and
    otherwise it is a 200, also for a day that the month does not have,
    such as 2024-02-30.  Only a 200 has requested anything. *)
Theorem validated_request_is_answered_200_or_500 :
  forall localeCompare tz upstream req,
    zone tz -> getOrPost req = true ->
    (exists resp log, handler localeCompare tz upstream req resp log) /\
    forall resp log,
      handler localeCompare tz upstream req resp log ->
      (malformed req = true -> statusCode resp = 500%Z /\ log = []) /\
      (bodyError req = None ->
       stringOrFalsy (coverageField req) = false ->
       resp = ErrorReply 500 (describe (coverageError req))) /\
      (stringOrFalsy (coverageField req) = true ->
       stringOrFalsy (symbolsField req) = false ->
       resp = ErrorReply 500 "s.split is not a function") /\
      (malformed req = false ->
       forall date,
         requestDate req = Some date ->
         (forall e,
             falsy (Some date) = false -> stringOf date = Throw e ->
             resp = ErrorReply 500 (describe e) /\ log = []) /\
         (forall text coverage,
             stringOf date = Ok text -> matchesDate text = true ->
             requestCoverage req = Ok coverage ->
             (plausible text = false ->
              resp = ErrorReply 500 "Invalid time value" /\ log = []) /\
             (plausible text = true -> noSymbols req ->
              inherited coverage = true ->
              resp = ErrorReply 500 "(symbols || []).map is not a function" /\
              log = []) /\
             (plausible text = true ->
              ~ (noSymbols req /\ inherited coverage = true) ->
              statusCode resp = 200%Z))).
Proof.
  intros cmp tz upstream req Hz Hm.
  split.
  { exists (fst (serve cmp tz upstream [] req)),
           (snd (serve cmp tz upstream [] req)).
    apply handler_serve. }
  intros resp log H.
  pose proof (parseInput_cases req Hm) as Hcases.
  split; [|split; [|split]].
  - intros Hw. destruct (parseInput_throws req Hm Hw) as [e Hp].
    apply (handler_reply_only cmp tz upstream req _ _ resp log
             (prepare_500 tz req _ Hp)) in H.
    destruct H as [-> ->]. split; reflexivity.
  - intros Hb Hc. destruct (parseInput req) as [r|e] eqn:Hp.
    + unfold malformed in Hcases. rewrite Hb, Hc in Hcases.
      discriminate Hcases.
    + apply (handler_reply_only cmp tz upstream req _ _ resp log
               (prepare_500 tz req _ Hp)) in H.
      destruct H as [-> _].
      destruct Hcases as
        [_ [H1|[(_ & _ & ->)|[(H1 & _)|(_ & H1 & _)]]]];
        try congruence; try reflexivity.
  - intros Hc Hs. destruct (parseInput req) as [r|e] eqn:Hp.
    + assert (Hb : bodyError req = None).
      { unfold bodyError, symbolsField in *.
        destruct (String.eqb_spec (method req) "GET") as [E|N];
          [rewrite E; reflexivity|discriminate Hs]. }
      unfold malformed in Hcases. rewrite Hb, Hc, Hs in Hcases.
      discriminate Hcases.
    + apply (handler_reply_only cmp tz upstream req _ _ resp log
               (prepare_500 tz req _ Hp)) in H.
      destruct H as [-> _].
      assert (Hb : bodyError req = None).
      { unfold bodyError, symbolsField in *.
        destruct (String.eqb_spec (method req) "GET") as [E|N];
          [rewrite E; reflexivity|discriminate Hs]. }
      assert (Hps : postedSymbols req = None).
      { unfold postedSymbols, symbolsField in *.
        destruct (String.eqb_spec (method req) "GET") as [E|N];
          [rewrite E; reflexivity|discriminate Hs]. }
      destruct Hcases as
        [_ [H1|[(_ & H1 & _)|[(_ & _ & ->)|(_ & _ & l & H1 & _)]]]];
        try congruence; try reflexivity.
  - intros Hw date Hd.
    destruct (parse_parts req Hm Hw) as (k & g & Hk & Hg).
    split.
    + intros e Hf He.
      assert (Hprep : Batch.prepare tz req = Reply 500 (describe e)).
      { unfold Batch.prepare. rewrite parseInput_given, Hm, Hk, Hg, Hd.
        rewrite (proj2 (validDate_throws (Some date) e)); [reflexivity|].
        exists date. repeat split; assumption. }
      apply (handler_reply_only cmp tz upstream req _ _ resp log Hprep).
      exact H.
    + intros text coverage Ht Hmd Hk'. rewrite Hk in Hk'.
      injection Hk' as <-.
      pose proof (prepare_matched tz req date text k g Hm Hd Ht Hmd Hk Hg)
        as Hprep.
      pose proof (resolver_on_matched tz text Hz Hmd) as Hr.
      destruct (plausible text).
      * destruct Hr as [r Hr]. rewrite Hr in Hprep.
        split; [discriminate|]. split.
        -- intros _ Hno Hinh.
           assert (Ho : orCoverage g k = NotArray).
           { unfold noSymbols in Hno. rewrite Hg in Hno.
             destruct Hno as [[= ->]|[= ->]]; cbn [orCoverage];
               apply inherited_not_array; exact Hinh. }
           rewrite Ho in Hprep.
           apply (handler_reply_only cmp tz upstream req _ _ resp log Hprep).
           exact H.
        -- intros _ Hnot.
           destruct (orCoverage g k) as [l|] eqn:Ho.
           ++ destruct (batch_items cmp tz upstream req _ _ _ resp log
                          Hprep H) as (res & _ & ->). reflexivity.
           ++ exfalso. apply Hnot. unfold noSymbols. rewrite Hg.
              destruct g as [[|x l]|]; cbn [orCoverage] in Ho;
                try discriminate Ho.
              ** split; [right; reflexivity|].
                 apply inherited_not_array. exact Ho.
              ** split; [left; reflexivity|].
                 apply inherited_not_array. exact Ho.
      * rewrite Hr in Hprep. split; [|split; discriminate].
        intros _.
        apply (handler_reply_only cmp tz upstream req _ _ resp log Hprep).
        exact H.
Qed.

Lemma validated_request_is_answered_200_or_500_witness :
  zone 0 /\ getOrPost MoreSamples.rolledRequest = true /\
  malformed MoreSamples.rolledRequest = false /\
  requestCoverage MoreSamples.rolledRequest = Ok "full" /\
  requestDate MoreSamples.rolledRequest = Some (VStr "2024-02-30") /\
  matchesDate "2024-02-30" = true /\ plausible "2024-02-30" = true /\
  statusCode (fst (serve String.compare 0 sampleUpstream []
                         MoreSamples.rolledRequest)) = 200%Z /\
  resolvedDateOf (fst (serve String.compare 0 sampleUpstream []
                             MoreSamples.rolledRequest)) = Some "2024-03-01".
Proof.
  assert (Hz : zone 0) by (unfold zone; lia).
  assert (Hm : getOrPost MoreSamples.rolledRequest = true) by reflexivity.
  assert (Hw : malformed MoreSamples.rolledRequest = false) by reflexivity.
  assert (Hk : requestCoverage MoreSamples.rolledRequest = Ok "full")
    by (vm_compute; reflexivity).
  assert (Hd : requestDate MoreSamples.rolledRequest =
               Some (VStr "2024-02-30")) by reflexivity.
  assert (Hmd : matchesDate "2024-02-30" = true) by reflexivity.
  assert (Hpl : plausible "2024-02-30" = true) by (vm_compute; reflexivity).
  repeat (split; [assumption|]).
  split; [|vm_compute; reflexivity].
  pose proof (proj2 (validated_request_is_answered_200_or_500
                       String.compare 0%Z sampleUpstream
                       MoreSamples.rolledRequest Hz Hm) _ _
                (handler_serve String.compare 0%Z sampleUpstream []
                               MoreSamples.rolledRequest))
    as (_ & _ & _ & H4).
  destruct (H4 Hw (VStr "2024-02-30") Hd) as [_ H5].
  destruct (H5 "2024-02-30" "full" eq_refl Hmd Hk) as (_ & _ & H6).
  apply (H6 Hpl). intros [[H|H] _]; vm_compute in H; discriminate H.
Defined.

(** ** The earlier handler beside the later one *)

Module VersionFacts.
Import Js JsDate Dates DateSpec Http Result Batch InputSpec RequestSpec.
Import FormatSpec SymbolFacts FetchFacts HandlerFacts InputFacts LogFacts.
Import CoverageFacts OutcomeFacts.

Lemma simple_requests fetch d_mdy d_short raw :
  snd (Simple.fetchWSJ fetch d_mdy d_short raw) =
  if accepted (normalize raw) then [downloadURL (normalize raw) d_mdy]
  else [].
Proof.
  unfold Simple.fetchWSJ, accepted.
  change (Simple.normalize raw) with (normalize raw).
  destruct (sixLetters (normalize raw)); [|reflexivity].
  destruct (endsWith "USD" (normalize raw)); reflexivity.
Qed.

Lemma mapFrom_urls (upstream : nat -> string -> FetchOutcome)
    d_mdy d_short l :
  forall i,
    List.concat
      (map snd (Simple.mapFrom i
                  (fun i s => Simple.fetchWSJ (upstream i) d_mdy d_short s) l))
    = urlsOf d_mdy l.
Proof.
  unfold urlsOf.
  induction l as [|x l IH]; intros i;
    cbn [Simple.mapFrom map List.concat filter]; [reflexivity|].
  rewrite IH, simple_requests.
  destruct (accepted (normalize x)); reflexivity.
Qed.

Lemma map_VStr_nil l : map VStr l = [] <-> l = [].
Proof. destruct l; split; intros H; try reflexivity; discriminate H. Qed.

Lemma normalize_trim x : normalize (trim x) = normalize x.
Proof.
  unfold normalize. rewrite toUpperCase_trim. apply trim_idem.
Qed.

Lemma normalize_blank x : trim x = "" -> normalize x = "".
Proof.
  intros H. unfold normalize. rewrite <- toUpperCase_trim, H. reflexivity.
Qed.

(** Cleaning a list takes no URL away. *)
Lemma urlsOf_clean mdy l : urlsOf mdy (clean l) = urlsOf mdy l.
Proof.
  unfold urlsOf, clean.
  induction l as [|x l IH]; cbn [map filter]; [reflexivity|].
  unfold nonEmpty at 1.
  destruct (String.eqb_spec (trim x) "") as [E|N]; cbn [negb].
  - rewrite IH, (normalize_blank x E). reflexivity.
  - cbn [map filter]. rewrite normalize_trim.
    destruct (accepted (normalize x)); cbn [map]; rewrite IH; reflexivity.
Qed.

(** The symbols of the later handler, for a request the earlier one finds
    symbols in. *)
Lemma given_of_simple req d symbols texts :
  Simple.parseInput req = Ok (Some (d, symbols)) ->
  textsOf symbols = Ok texts -> clean texts <> [] ->
  givenSymbols req = Ok (Some (clean texts)).
Proof.
  unfold Simple.parseInput, givenSymbols, bodyField, bind.
  destruct (String.eqb (method req) "GET").
  - unfold parseSymbolList.
    destruct (falsy (q_symbols (query req))) eqn:Hf.
    + intros [= _ <-] [= <-] Hne. exfalso. apply Hne. reflexivity.
    + destruct (q_symbols (query req)) as [[t|a| | | |t|]|];
        try discriminate.
      intros [= _ <-]. rewrite textsOf_VStr. intros [= <-] _.
      fold (clean (split "," t)). rewrite clean_idem. reflexivity.
  - destruct (String.eqb (method req) "POST"); [|discriminate].
    destruct (body req) as [|b|e]; [| |discriminate].
    + intros [= _ <-] [= <-] H. contradiction H. reflexivity.
    + destruct (b_symbols b) as [[t|a| | | |t|]|]; cbn [cleanIfArray];
        try (intros [= _ <-] [= <-] H; contradiction H; reflexivity).
      intros [= _ <-] ->. reflexivity.
Qed.

(** The earlier handler past its parse. *)
Lemma simple_handler_parsed tz upstream req d symbols :
  Simple.parseInput req = Ok (Some (d, symbols)) ->
  Simple.handler tz upstream req =
  match validDate d with
  | Throw e => (ErrorReply 500 (asString e), [])
  | Ok None => (ErrorReply 400 "date must be YYYY-MM-DD", [])
  | Ok (Some date) =>
      match symbols with
      | [] => (ErrorReply 400 "symbols[] required", [])
      | _ :: _ =>
          match priorBizIfWeekend tz date with
          | Throw e => (ErrorReply 500 (asString e), [])
          | Ok iso =>
              (match Simple.all
                       (map fst
                          (Simple.mapFrom 0
                             (fun i s => Simple.call (upstream i)
                                           (toMMDDYYYY iso)
                                           (Simple.mmddyy iso) s)
                             symbols)) with
               | Throw e => ErrorReply 500 (asString e)
               | Ok items =>
                   Plain200 "s-maxage=120, stale-while-revalidate=300" iso
                            items
               end,
               List.concat
                 (map snd
                    (Simple.mapFrom 0
                       (fun i s => Simple.call (upstream i) (toMMDDYYYY iso)
                                               (Simple.mmddyy iso) s)
                       symbols)))
          end
      end
  end.
Proof. intros Hp. unfold Simple.handler. rewrite Hp. reflexivity. Qed.

(** The earlier handler past the test of the date, on symbols that have a
    text each. *)
Lemma simple_handler_validated tz upstream req date text symbols texts :
  Simple.parseInput req = Ok (Some (Some date, symbols)) ->
  stringOf date = Ok text -> matchesDate text = true ->
  textsOf symbols = Ok texts ->
  Simple.handler tz upstream req =
  match symbols with
  | [] => (ErrorReply 400 "symbols[] required", [])
  | _ :: _ =>
      match priorBizIfWeekend tz text with
      | Throw e => (ErrorReply 500 (asString e), [])
      | Ok iso =>
          (Plain200 "s-maxage=120, stale-while-revalidate=300" iso
             (map fst (Simple.mapFrom 0
                         (fun i s => Simple.fetchWSJ (upstream i)
                                       (toMMDDYYYY iso) (Simple.mmddyy iso) s)
                         texts)),
           urlsOf (toMMDDYYYY iso) texts)
      end
  end.
Proof.
  intros Hp Ht Hmd Hx. rewrite (simple_handler_parsed tz upstream req _ _ Hp).
  rewrite (validDate_text date text Ht Hmd).
  destruct symbols as [|s l]; [reflexivity|].
  destruct (priorBizIfWeekend tz text) as [iso|e]; [|reflexivity].
  destruct (SimpleFacts.calls_printable upstream (toMMDDYYYY iso)
              (Simple.mmddyy iso) (s :: l) texts 0 Hx) as [H1 H2].
  rewrite H1, H2, mapFrom_urls. reflexivity.
Qed.

Lemma textsOf_length l texts :
  textsOf l = Ok texts -> List.length texts = List.length l.
Proof.
  revert texts. induction l as [|x l IH]; intros texts; cbn [textsOf].
  - intros [= <-]. reflexivity.
  - destruct (stringOf x); [|discriminate].
    destruct (textsOf l) as [ts|e]; [|discriminate].
    intros [= <-]. cbn [List.length]. rewrite (IH ts eq_refl). reflexivity.
Qed.

End VersionFacts.

Import VersionFacts.

(** X17.  What the handler of [src/API/fx.js] answers to a GET or POST
    request.  A request it cannot read is answered 500 whatever its date:
    a GET whose symbols are neither absent nor a string, as when the
    parameter is given twice, gets the [TypeError] of [split].  A request it
    can read is answered 500 when its date has no text.  When the text of
    the date matches the pattern: without symbols the answer is a 400
    "symbols[] required", whatever the date, and for a GET request these
    are the requests for which the later handler falls back to a coverage;
    with symbols, a date whose month is not 01 to 12 or whose day is not 01
    to 31 gets a 500 that names the error, and any other date a 200 with
    one item for every symbol of the request, the URLs requested being
    those of the symbols that pass validation, unless a symbol has no text,
    which gets a 500. *)
Theorem simple_handler_asks_for_symbols_first :
  forall tz upstream req,
    zone tz -> getOrPost req = true ->
    (malformedSimple req = true ->
     statusCode (fst (Simple.handler tz upstream req)) = 500%Z /\
     snd (Simple.handler tz upstream req) = []) /\
    (stringOrFalsy (symbolsField req) = false ->
     Simple.handler tz upstream req =
       (ErrorReply 500 "TypeError: s.split is not a function", [])) /\
    (malformedSimple req = false ->
     exists symbols,
       Simple.parseInput req = Ok (Some (requestDate req, symbols))) /\
    (forall date symbols,
        Simple.parseInput req = Ok (Some (Some date, symbols)) ->
        (forall e,
            falsy (Some date) = false -> stringOf date = Throw e ->
            Simple.handler tz upstream req =
              (ErrorReply 500 (asString e), [])) /\
        (forall text,
            stringOf date = Ok text -> matchesDate text = true ->
            (symbols = [] ->
             Simple.handler tz upstream req =
               (ErrorReply 400 "symbols[] required", [])) /\
            (String.eqb (method req) "GET" = true ->
             (symbols = [] <-> noSymbols req)) /\
            (symbols <> [] -> plausible text = false ->
             Simple.handler tz upstream req =
               (ErrorReply 500 "RangeError: Invalid time value", [])) /\
            (symbols <> [] -> plausible text = true ->
             forall texts,
               textsOf symbols = Ok texts ->
               exists iso items,
                 priorBizIfWeekend tz text = Ok iso /\
                 Simple.handler tz upstream req =
                   (Plain200 "s-maxage=120, stale-while-revalidate=300" iso
                             items,
                    urlsOf (toMMDDYYYY iso) texts) /\
                 List.length items = List.length symbols) /\
            (symbols <> [] -> plausible text = true ->
             forall e,
               textsOf symbols = Throw e ->
               fst (Simple.handler tz upstream req) =
                 ErrorReply 500 (asString e)))).
Proof.
  intros tz upstream req Hz Hm.
  pose proof (SimpleFacts.simple_parseInput_method req) as Hmeth.
  split; [|split; [|split]].
  - intros Hw. destruct (Simple.parseInput req) as [[[d l]|]|e] eqn:Hp.
    + destruct Hmeth as (_ & _ & Hmeth). congruence.
    + congruence.
    + rewrite (SimpleFacts.handler_500 tz upstream req _ Hp).
      split; reflexivity.
  - intros Hs. destruct (Simple.parseInput req) as [[[d l]|]|e] eqn:Hp.
    + destruct Hmeth as (_ & _ & Hmeth). unfold malformedSimple in Hmeth.
      rewrite Hs in Hmeth. destruct (bodyError req); discriminate Hmeth.
    + congruence.
    + rewrite (SimpleFacts.handler_500 tz upstream req _ Hp).
      destruct Hmeth as (_ & _ & [Hb|[_ ->]]); [|reflexivity].
      exfalso. unfold bodyError, symbolsField in *.
      destruct (String.eqb_spec (method req) "GET") as [E|N];
        [rewrite E in Hb; discriminate Hb|discriminate Hs].
  - intros Hw. apply SimpleFacts.simple_parseInput_ok; assumption.
  - intros date symbols Hp. split.
    + intros e Hf He.
      rewrite (simple_handler_parsed tz upstream req _ _ Hp).
      rewrite (proj2 (validDate_throws (Some date) e)); [reflexivity|].
      exists date. repeat split; assumption.
    + intros text Ht Hmd.
      pose proof (resolver_on_matched tz text Hz Hmd) as Hr.
      pose proof (simple_handler_parsed tz upstream req _ _ Hp) as Hh.
      rewrite (validDate_text date text Ht Hmd) in Hh.
      split; [|split; [|split; [|split]]].
      * intros ->. exact Hh.
      * intros Hget. unfold noSymbols, givenSymbols.
        unfold Simple.parseInput in Hp. rewrite Hget in *.
        unfold parseSymbolList.
        destruct (falsy (q_symbols (query req))) eqn:Hf.
        -- injection Hp as _ <-. split; [left; reflexivity|reflexivity].
        -- destruct (q_symbols (query req)) as [[t|a| | | |t|]|];
             try discriminate.
           injection Hp as _ <-. fold (clean (split "," t)).
           rewrite map_VStr_nil. split; [intros ->; right; reflexivity|].
           intros [H|H]; [discriminate H|]. injection H as ->. reflexivity.
      * intros Hne Hpl. rewrite Hpl in Hr. rewrite Hr in Hh.
        destruct symbols; [contradiction|exact Hh].
      * intros Hne Hpl texts Hx. rewrite Hpl in Hr. destruct Hr as [iso Hr].
        pose proof (simple_handler_validated tz upstream req date text
                      symbols texts Hp Ht Hmd Hx) as Hv.
        rewrite Hr in Hv. destruct symbols as [|s l]; [contradiction|].
        exists iso. eexists. split; [exact Hr|]. split; [exact Hv|].
        rewrite length_map, SimpleFacts.mapFrom_length.
        apply (textsOf_length _ _ Hx).
      * intros Hne Hpl e Hx. rewrite Hpl in Hr. destruct Hr as [iso Hr].
        rewrite Hr in Hh. destruct symbols as [|s l]; [contradiction|].
        rewrite Hh. cbn [fst].
        rewrite (SimpleFacts.calls_rejected upstream _ _ (s :: l) e 0 Hx).
        reflexivity.
Qed.

Lemma simple_handler_asks_for_symbols_first_witness :
  zone 0 /\ getOrPost MoreSamples.majorsRequest = true /\
  Simple.parseInput MoreSamples.majorsRequest =
    Ok (Some (Some (VStr "2024-06-08"), [])) /\
  matchesDate "2024-06-08" = true /\
  Simple.handler 0 sampleUpstream MoreSamples.majorsRequest =
    (ErrorReply 400 "symbols[] required", []).
Proof.
  assert (Hz : zone 0) by (unfold zone; lia).
  assert (Hm : getOrPost MoreSamples.majorsRequest = true) by reflexivity.
  assert (Hp : Simple.parseInput MoreSamples.majorsRequest =
               Ok (Some (Some (VStr "2024-06-08"), [])))
    by (vm_compute; reflexivity).
  assert (Hmd : matchesDate "2024-06-08" = true) by reflexivity.
  repeat (split; [assumption|]).
  pose proof (proj2 (proj2 (proj2 (simple_handler_asks_for_symbols_first
                                     0%Z sampleUpstream
                                     MoreSamples.majorsRequest Hz Hm)))
                (VStr "2024-06-08") [] Hp) as [_ H].
  exact (proj1 (H "2024-06-08" eq_refl Hmd) eq_refl).
Defined.

(** X18.  For a request in which the earlier handler finds symbols that
    have a text each, one of them not blank: when the coverage is absent or
    a string, the two handlers ask the provider for the same URLs in the
    same order, answer with the same status code, and resolve the same
    date, whatever the provider answers to either.  When the coverage is
    anything else, the later handler answers the 500 of the [TypeError] of
    line 34 or 39 and asks for nothing, while the earlier one, which reads
    no coverage, answers as before. *)
Theorem both_versions_request_the_same_urls :
  forall localeCompare tz upstream upstream' req d symbols texts resp log,
    zone tz ->
    Simple.parseInput req = Ok (Some (d, symbols)) ->
    textsOf symbols = Ok texts ->
    clean texts <> [] ->
    handler localeCompare tz upstream req resp log ->
    (stringOrFalsy (coverageField req) = true ->
     log = snd (Simple.handler tz upstream' req) /\
     statusCode resp = statusCode (fst (Simple.handler tz upstream' req)) /\
     resolvedDateOf resp =
       resolvedDateOf (fst (Simple.handler tz upstream' req))) /\
    (stringOrFalsy (coverageField req) = false ->
     resp = ErrorReply 500 (describe (coverageError req)) /\ log = [] /\
     forall c,
       Simple.handler tz upstream' (withCoverage c req) =
       Simple.handler tz upstream' req).
Proof.
  intros cmp tz upstream upstream' req d symbols texts resp log Hz Hp Hx Hne
         H.
  pose proof (SimpleFacts.simple_parseInput_method req) as Hm.
  rewrite Hp in Hm. destruct Hm as (Hm & Hd & Hw).
  assert (Hs : symbols <> []).
  { intros ->. injection Hx as <-. apply Hne. reflexivity. }
  pose proof (given_of_simple req _ _ _ Hp Hx Hne) as Hg.
  pose proof (givenSymbols_body req _ Hg) as Hb.
  split.
  - intros Hcf.
    destruct (requestCoverage_ok req Hm Hb Hcf) as [k Hk].
    assert (Hpi : parseInput req =
                  Ok (Some (d, orCoverage (Some (clean texts)) k))).
    { rewrite parseInput_given, Hm, Hk, Hg, Hd. reflexivity. }
    pose proof (simple_handler_parsed tz upstream' req _ _ Hp) as Hsimple.
    assert (Hprep : Batch.prepare tz req =
              match validDate d with
              | Throw e => Reply 500 (describe e)
              | Ok None => Reply 400 "date must be YYYY-MM-DD"
              | Ok (Some date) =>
                  match priorBizIfWeekend tz date with
                  | Throw e => Reply 500 (describe e)
                  | Ok iso =>
                      match orCoverage (Some (clean texts)) k with
                      | NotArray => Reply 500 (describe TypeError_map)
                      | Arr l => Fanout iso (toMMDDYYYY iso) l
                      end
                  end
              end).
    { unfold Batch.prepare. rewrite Hpi. reflexivity. }
    destruct (validDate d) as [[text|]|e] eqn:Hv.
    + destruct (validDate_inv d text Hv) as (date & -> & Ht & Hmd).
      pose proof (simple_handler_validated tz upstream' req date text
                    symbols texts Hp Ht Hmd Hx) as Hval.
      clear Hsimple.
      destruct (clean texts) as [|x l] eqn:Hc; [contradiction|].
      cbn [orCoverage] in Hprep.
      destruct symbols as [|s0 l0]; [contradiction|].
      pose proof (resolver_on_matched tz text Hz Hmd) as Hres.
      destruct (plausible text).
      * destruct Hres as [iso Hiso]. rewrite Hiso in Hval, Hprep.
        rewrite Hval.
        pose proof (handler_log cmp tz upstream req _ _ _ resp log Hprep H)
          as Hlog.
        destruct (batch_items cmp tz upstream req _ _ _ resp log Hprep H)
          as (res & _ & ->).
        cbn [fst snd respond statusCode resolvedDateOf].
        split; [|split; reflexivity].
        rewrite Hlog, <- Hc. apply urlsOf_clean.
      * rewrite Hres in Hval, Hprep. rewrite Hval.
        apply (handler_reply_only cmp tz upstream req _ _ resp log Hprep)
          in H.
        destruct H as [-> ->]. repeat split.
    + rewrite Hsimple.
      apply (handler_reply_only cmp tz upstream req _ _ resp log Hprep) in H.
      destruct H as [-> ->]. repeat split.
    + rewrite Hsimple.
      apply (handler_reply_only cmp tz upstream req _ _ resp log Hprep) in H.
      destruct H as [-> ->]. repeat split.
  - intros Hcf.
    pose proof (requestCoverage_cases req Hm) as Hcases.
    assert (Hpi : parseInput req = Throw (coverageError req)).
    { rewrite parseInput_given, Hm.
      destruct (requestCoverage req) as [k|e].
      - destruct Hcases as [_ H1]. congruence.
      - destruct Hcases as [H1|(_ & _ & ->)]; [congruence|reflexivity]. }
    apply (handler_reply_only cmp tz upstream req _ _ resp log
             (prepare_500 tz req _ Hpi)) in H.
    destruct H as [-> ->]. split; [reflexivity|]. split; [reflexivity|].
    intros c. unfold Simple.handler, Simple.parseInput, withCoverage,
                bodyField, bind.
    cbn [method query body q_date q_symbols].
    destruct (body req) as [|b|e]; reflexivity.
Qed.

Lemma both_versions_request_the_same_urls_witness :
  zone 0 /\
  Simple.parseInput sampleRequest =
    Ok (Some (Some (VStr "2024-06-08"),
              map VStr ["eurusd"; "GBPUSD"; "USDEUR"; "EU"; "CADUSD";
                        "JPYUSD"; "eurusd"])) /\
  textsOf (map VStr ["eurusd"; "GBPUSD"; "USDEUR"; "EU"; "CADUSD"; "JPYUSD";
                     "eurusd"]) =
    Ok ["eurusd"; "GBPUSD"; "USDEUR"; "EU"; "CADUSD"; "JPYUSD"; "eurusd"] /\
  clean ["eurusd"; "GBPUSD"; "USDEUR"; "EU"; "CADUSD"; "JPYUSD"; "eurusd"]
    <> [] /\
  stringOrFalsy (coverageField sampleRequest) = true /\
  snd (serve String.compare 0 sampleUpstream [2; 0] sampleRequest) =
  snd (Simple.handler 0 (always CsvSpec.sample) sampleRequest).
Proof.
  assert (Hz : zone 0) by (unfold zone; lia).
  assert (Hp : Simple.parseInput sampleRequest =
    Ok (Some (Some (VStr "2024-06-08"),
              map VStr ["eurusd"; "GBPUSD"; "USDEUR"; "EU"; "CADUSD";
                        "JPYUSD"; "eurusd"])))
    by (vm_compute; reflexivity).
  assert (Hx : textsOf (map VStr ["eurusd"; "GBPUSD"; "USDEUR"; "EU";
                                  "CADUSD"; "JPYUSD"; "eurusd"]) =
               Ok ["eurusd"; "GBPUSD"; "USDEUR"; "EU"; "CADUSD"; "JPYUSD";
                   "eurusd"]) by reflexivity.
  assert (Hne : clean ["eurusd"; "GBPUSD"; "USDEUR"; "EU"; "CADUSD";
                       "JPYUSD"; "eurusd"] <> [])
    by (vm_compute; discriminate).
  assert (Hc : stringOrFalsy (coverageField sampleRequest) = true)
    by reflexivity.
  repeat (split; [assumption|]).
  exact (proj1 (proj1 (both_versions_request_the_same_urls
                         String.compare 0%Z sampleUpstream
                         (always CsvSpec.sample)
                         sampleRequest _ _ _ _ _ Hz Hp Hx Hne
                         (handler_serve String.compare 0%Z sampleUpstream
                                        [2; 0]%nat sampleRequest)) Hc)).
Defined.

(** ** The close of an item *)

Module CloseFacts.
Import Js Http Csv Result Batch InputSpec CloseSpec SymbolFacts InputFacts.

(** The text is its trimmed end followed by white space. *)
Lemma trimEnd_prefix s : exists w, s = trimEnd s ++ w.
Proof.
  induction s as [|c r [w IH]]; [exists ""; reflexivity|].
  cbn [trimEnd]. destruct (trimEnd r) as [|x r'] eqn:E.
  - destruct (isSpace c).
    + exists (String c r). reflexivity.
    + exists w. cbn [append] in *. rewrite <- IH. reflexivity.
  - exists w. cbn [append] in *. rewrite <- IH. reflexivity.
Qed.

Lemma chars_app a b : chars (a ++ b) = (chars a ++ chars b)%list.
Proof.
  induction a as [|c r IH]; cbn; [reflexivity|]. rewrite IH. reflexivity.
Qed.

Lemma of_chars s : string_of_list_ascii (chars s) = s.
Proof.
  induction s as [|c r IH]; cbn; [reflexivity|]. rewrite IH. reflexivity.
Qed.

Lemma string_of_app l1 l2 :
  string_of_list_ascii (l1 ++ l2) =
  string_of_list_ascii l1 ++ string_of_list_ascii l2.
Proof.
  induction l1 as [|c r IH]; cbn; [reflexivity|]. rewrite IH. reflexivity.
Qed.

Lemma prefix_app p s w : String.prefix p s = true -> String.prefix p (s ++ w) = true.
Proof.
  revert p. induction s as [|x s IH]; intros [|c p];
    cbn [String.prefix append]; try discriminate.
  - intros _. destruct w; reflexivity.
  - intros _. reflexivity.
  - destruct (ascii_dec c x); [apply IH|discriminate].
Qed.

Lemma startsWithDigit_app l w :
  startsWithDigit l = true -> startsWithDigit (l ++ w) = true.
Proof. destruct l; [discriminate|exact (fun H => H)]. Qed.

Lemma begins_app u w : begins u = true -> begins (u ++ w) = true.
Proof.
  unfold begins. rewrite !orb_true_iff. intros [[H|H]|H].
  - left. left. rewrite string_of_app. apply prefix_app. exact H.
  - left. right. apply startsWithDigit_app. exact H.
  - right. destruct u as [|dot r]; [discriminate|]. cbn [app].
    apply andb_true_iff in H. destruct H as [-> H]. cbn [andb].
    apply startsWithDigit_app. exact H.
Qed.

Lemma dropDigits_none l : startsWithDigit l = false -> dropDigits l = l.
Proof.
  destruct l as [|c r]; [reflexivity|]. cbn. intros ->. reflexivity.
Qed.

Lemma unsignedDecimal_begins l : unsignedDecimal l = true -> begins l = true.
Proof.
  unfold unsignedDecimal, begins.
  destruct (String.eqb_spec (string_of_list_ascii l) "Infinity") as [E|_].
  - intros _. rewrite E. reflexivity.
  - destruct (startsWithDigit l) eqn:Hd;
      [intros _; rewrite orb_true_r; reflexivity|].
    rewrite (dropDigits_none l Hd).
    destruct l as [|dot r1]; [discriminate|].
    destruct (Ascii.eqb dot "."); [|discriminate].
    cbn [orb]. intros H. apply andb_true_iff in H. destruct H as [H _].
    rewrite H. apply orb_true_r.
Qed.

Lemma nonDecimal_begins l : nonDecimalInteger l = true -> begins l = true.
Proof.
  unfold nonDecimalInteger, begins.
  destruct l as [|z [|k r]]; try discriminate.
  intros H. apply andb_true_iff in H. destruct H as [H _].
  apply Ascii.eqb_eq in H. subst z. reflexivity.
Qed.

Lemma parseFloat_begins s :
  isNaN_parseFloat s =
  negb (begins (match chars (trimStart s) with
                | c :: r => if isSign c then r else c :: r
                | [] => []
                end)).
Proof.
  unfold isNaN_parseFloat, begins.
  destruct (chars (trimStart s)) as [|c r]; [reflexivity|].
  destruct (isSign c); reflexivity.
Qed.

(** A piece of a split text holds only characters of the text. *)
Lemma piece_includes sep x s piece :
  In piece (split sep s) -> includesChar x piece = true ->
  includesChar x s = true.
Proof.
  revert piece. induction s as [|c r IH]; intros piece; cbn [split].
  - intros [<-|[]] H. exact H.
  - destruct (Ascii.eqb c sep).
    + intros [<-|Hin] H; [discriminate H|].
      cbn [includesChar]. rewrite (IH piece Hin H). apply orb_true_r.
    + pose proof (TextFacts.split_nonempty sep r) as Hne.
      destruct (split sep r) as [|h t]; [contradiction|].
      intros [<-|Hin] H; cbn [includesChar] in *.
      * apply orb_true_iff in H. destruct H as [->|H]; [reflexivity|].
        rewrite (IH h (or_introl eq_refl) H). apply orb_true_r.
      * rewrite (IH piece (or_intror Hin) H). apply orb_true_r.
Qed.

Lemma includes_dropLastCR x s :
  includesChar x (dropLastCR s) = true -> includesChar x s = true.
Proof.
  induction s as [|c r IH]; [discriminate|].
  destruct r as [|c' r'].
  - cbn [dropLastCR]. destruct (Ascii.eqb c CR); [discriminate|].
    exact (fun H => H).
  - change (dropLastCR (String c (String c' r')))
      with (String c (dropLastCR (String c' r'))).
    cbn [includesChar] in *. intros H. apply orb_true_iff in H.
    destruct H as [->|H]; [reflexivity|]. rewrite (IH H).
    apply orb_true_r.
Qed.

(** No line holds a line feed. *)
Lemma line_pieces s :
  Forall (fun l => includesChar LF l = false) (splitLines s).
Proof.
  unfold splitLines. pose proof (split_pieces LF s) as H.
  induction (split LF s) as [|x l IH]; [constructor|].
  inversion H as [|? ? Hx Hl]; subst.
  destruct l as [|y l']; [constructor; [exact Hx|constructor]|].
  change (mapInit dropLastCR (x :: y :: l'))
    with (dropLastCR x :: mapInit dropLastCR (y :: l')).
  constructor; [|exact (IH Hl)].
  destruct (includesChar LF (dropLastCR x)) eqn:E; [|reflexivity].
  rewrite (includes_dropLastCR _ _ E) in Hx. discriminate Hx.
Qed.

End CloseFacts.

Import CloseFacts.

(** X19.  The close test of the later handler is the stricter one: a cell
    that is not blank and that [Number] reads as a number (line 179 of
    [src/api/fx.js]) also passes the test of the earlier handler, which
    wants it not empty and read as a number by [parseFloat] (line 94 of
    [src/API/fx.js]).  The converse fails: [parseFloat] reads 1.085abc as a
    number and [Number] does not. *)
Theorem close_that_number_reads_parseFloat_reads :
  (forall c, trim c <> "" -> badClose (Some c) = false ->
             String.eqb c "" || isNaN_parseFloat c = false) /\
  (String.eqb "1.085abc" "" || isNaN_parseFloat "1.085abc" = false /\
   badClose (Some "1.085abc") = true).
Proof.
  split; [|split; reflexivity].
  intros c Ht Hb. unfold badClose in Hb. apply orb_false_iff in Hb.
  destruct Hb as [He Hn]. rewrite He. cbn [orb].
  unfold isNaN_Number in Hn. apply negb_false_iff in Hn.
  rewrite parseFloat_begins. apply negb_false_iff.
  unfold numeric, trim in Hn. unfold trim in Ht.
  destruct (trimEnd_prefix (trimStart c)) as [w Hw].
  rewrite Hw, chars_app.
  destruct (chars (trimEnd (trimStart c))) as [|x r] eqn:E.
  - exfalso. apply Ht. rewrite <- (of_chars (trimEnd (trimStart c))), E.
    reflexivity.
  - cbn [app]. destruct (isSign x).
    + apply begins_app, unsignedDecimal_begins. exact Hn.
    + apply (begins_app (x :: r)). apply orb_true_iff in Hn.
      destruct Hn as [Hn|Hn];
        [apply unsignedDecimal_begins|apply nonDecimal_begins]; exact Hn.
Qed.

Lemma close_that_number_reads_parseFloat_reads_witness :
  trim "0x1F" <> "" /\ badClose (Some "0x1F") = false /\
  String.eqb "0x1F" "" || isNaN_parseFloat "0x1F" = false.
Proof.
  assert (Ht : trim "0x1F" <> "") by (vm_compute; discriminate).
  assert (Hb : badClose (Some "0x1F") = false) by (vm_compute; reflexivity).
  split; [exact Ht|]. split; [exact Hb|].
  exact (proj1 close_that_number_reads_parseFloat_reads "0x1F" Ht Hb).
Defined.

(** X20.  An item of the earlier handler with status ok comes from an
    answer of the provider with a status from 200 to 299; its close is the
    fifth comma-separated field, as it stands, of the first line of the
    text that is not empty and begins with the date, in either form,
    followed by a comma; that close is not empty, holds no comma and no
    line feed, and [parseFloat] reads it as a number; and the item has no
    date, names no error and names its URL. *)
Theorem simple_ok_item_carries_the_fifth_field :
  forall fetch d_mdy d_short raw,
    let r := fst (Simple.fetchWSJ fetch d_mdy d_short raw) in
    let url := downloadURL (normalize raw) d_mdy in
    status r = StatusOk ->
    exists st text row c,
      fetch url = Responded st (Text text) /\ ok st = true /\
      find (fun line => startsWith (d_short ++ ",") line ||
                        startsWith (d_mdy ++ ",") line)
           (filter nonEmpty (splitLines (trim text))) = Some row /\
      nth_error (split "," row) 4 = Some c /\
      c <> "" /\ includesChar "," c = false /\ includesChar LF c = false /\
      isNaN_parseFloat c = false /\
      r = mkResult (normalize raw) StatusOk (Some c) None None (Some url).
Proof.
  intros fetch d_mdy d_short raw r url. unfold r, url, Simple.fetchWSJ.
  change (Simple.normalize raw) with (normalize raw).
  destruct (sixLetters (normalize raw)); [|discriminate].
  destruct (endsWith "USD" (normalize raw)); [|discriminate].
  cbn [negb fst].
  destruct (fetch (downloadURL (normalize raw) d_mdy)) as [e|st [text|e]];
    try discriminate.
  - destruct (ok st) eqn:Hok; cbn [negb]; [|discriminate].
    destruct (find _ _) as [row|] eqn:Hrow; [|discriminate].
    destruct (nth_error (split "," row) 4) as [c|] eqn:Hc; [|discriminate].
    destruct (String.eqb_spec c "") as [->|Hne]; cbn [orb]; [discriminate|].
    destruct (isNaN_parseFloat c) eqn:Hn; [discriminate|].
    intros _. exists st, text, row, c.
    pose proof (nth_error_In _ _ Hc) as Hin.
    assert (Hcomma : includesChar "," c = false).
    { pose proof (split_pieces "," row) as Hp.
      rewrite Forall_forall in Hp. exact (Hp c Hin). }
    assert (Hlf : includesChar LF c = false).
    { apply find_some in Hrow. destruct Hrow as [Hrow _].
      apply filter_In in Hrow. destruct Hrow as [Hrow _].
      pose proof (line_pieces (trim text)) as Hp.
      rewrite Forall_forall in Hp. specialize (Hp row Hrow).
      destruct (includesChar LF c) eqn:E; [|reflexivity].
      rewrite (piece_includes "," LF row c Hin E) in Hp. discriminate Hp. }
    repeat split; auto.
  - destruct (ok st); discriminate.
Qed.

Lemma simple_ok_item_carries_the_fifth_field_witness :
  status (fst (Simple.fetchWSJ (always CsvSpec.sample 0) "06/07/2024"
                               "06/07/24" "eurusd")) = StatusOk /\
  exists st text row c,
    always CsvSpec.sample 0 (downloadURL (normalize "eurusd") "06/07/2024") =
      Responded st (Text text) /\ ok st = true /\
    find (fun line => startsWith ("06/07/24" ++ ",") line ||
                      startsWith ("06/07/2024" ++ ",") line)
         (filter nonEmpty (splitLines (trim text))) = Some row /\
    nth_error (split "," row) 4 = Some c /\
    c <> "" /\ includesChar "," c = false /\ includesChar LF c = false /\
    isNaN_parseFloat c = false /\
    fst (Simple.fetchWSJ (always CsvSpec.sample 0) "06/07/2024" "06/07/24"
                         "eurusd") =
    mkResult (normalize "eurusd") StatusOk (Some c) None None
             (Some (downloadURL (normalize "eurusd") "06/07/2024")).
Proof.
  assert (H : status (fst (Simple.fetchWSJ (always CsvSpec.sample 0)
                             "06/07/2024" "06/07/24" "eurusd")) = StatusOk)
    by (vm_compute; reflexivity).
  split; [exact H|].
  exact (simple_ok_item_carries_the_fifth_field
           (always CsvSpec.sample 0) "06/07/2024" "06/07/24" "eurusd" H).
Defined.

(** ** The URLs the handler requests *)

Module UrlFacts.
Import Js Http Result Batch InputSpec UrlSpec.
Import FetchFacts HandlerFacts LogFacts CoverageFacts.

Lemma allChars_app p a b :
  allChars p (a ++ b) = allChars p a && allChars p b.
Proof.
  induction a as [|c r IH]; cbn [append allChars]; [reflexivity|].
  rewrite IH. apply andb_assoc.
Qed.

Lemma hexDigit_safe v : (v < 16)%N -> urlChar (hexDigit v) = true.
Proof.
  intros Hv. 
  assert (H : forallb (fun k => urlChar (hexDigit (N.of_nat k))) (seq 0 16)
              = true) by (vm_compute; reflexivity).
  rewrite forallb_forall in H. specialize (H (N.to_nat v)).
  rewrite N2Nat.id in H. apply H. apply in_seq. lia.
Qed.

Lemma percent_safe v : (v < 256)%N -> allChars urlChar (percent v) = true.
Proof.
  intros Hv. unfold percent. cbn [allChars].
  rewrite (hexDigit_safe (v / 16)), (hexDigit_safe (v mod 16)).
  - reflexivity.
  - apply N.mod_lt. discriminate.
  - apply N.Div0.div_lt_upper_bound. exact Hv.
Qed.

Lemma code_byte c : (code c < 256)%N.
Proof. unfold code. apply N_ascii_bounded. Qed.

(** An escaped text holds unreserved characters and escapes only. *)
Lemma encode_safe s : allChars urlChar (encodeURIComponent s) = true.
Proof.
  induction s as [|c r IH]; [reflexivity|]. cbn [encodeURIComponent].
  rewrite allChars_app, IH, andb_true_r.
  pose proof (code_byte c) as Hc.
  destruct (unreserved c) eqn:Hu.
  - cbn [allChars]. unfold urlChar. rewrite Hu. reflexivity.
  - destruct (code c <? 128)%N.
    + apply percent_safe. exact Hc.
    + rewrite allChars_app, !percent_safe; [reflexivity| |].
      * assert (code c mod 64 < 64)%N by (apply N.mod_lt; discriminate). lia.
      * assert (code c / 64 < 4)%N
          by (apply N.Div0.div_lt_upper_bound; exact Hc).
        lia.
Qed.

Lemma sixLetters_safe s : sixLetters s = true -> allChars urlChar s = true.
Proof.
  unfold sixLetters.
  destruct s as [|a [|b [|c [|d [|e [|f [|g r]]]]]]]; cbn [chars];
    try discriminate.
  rewrite !andb_true_iff. intros (((((Ha & Hb) & Hc) & Hd) & He) & Hf).
  cbn [allChars]. unfold urlChar, unreserved.
  rewrite Ha, Hb, Hc, Hd, He, Hf. reflexivity.
Qed.

Lemma prefix_self_app p s : String.prefix p (p ++ s) = true.
Proof.
  induction p as [|c p IH]; cbn [append String.prefix].
  - destruct s; reflexivity.
  - destruct (ascii_dec c c); [exact IH|contradiction].
Qed.

Lemma downloadURL_safe sym mdy :
  sixLetters sym = true ->
  String.prefix fxPath (downloadURL sym mdy) = true /\
  allChars urlChar (downloadURL sym mdy) = true.
Proof.
  intros H6. split.
  - apply prefix_self_app.
  - unfold downloadURL. rewrite !allChars_app.
    rewrite (sixLetters_safe sym H6), !encode_safe. reflexivity.
Qed.

End UrlFacts.

Import UrlSpec UrlFacts.

(** X21.  Whatever the request names as symbols, every URL the handler of
    [src/api/fx.js] requests is the download URL of six letters A to Z that
    end in USD, for the date it has resolved: it begins with the path of
    the provider for FX pairs and holds only characters that need no escape
    in a URL. *)
Theorem batch_requests_only_provider_urls :
  forall localeCompare tz upstream req resp log u,
    handler localeCompare tz upstream req resp log -> In u log ->
    exists sym iso,
      resolvedDateOf resp = Some iso /\
      sixLetters sym = true /\ endsWith "USD" sym = true /\
      u = downloadURL sym (toMMDDYYYY iso) /\
      String.prefix fxPath u = true /\
      allChars urlChar u = true.
Proof.
  intros cmp tz upstream req resp log u H Hu.
  pose proof (handler_inv cmp tz upstream req resp log H) as Hi.
  destruct (Batch.prepare tz req) as [code msg|iso mdy symbols] eqn:Hp.
  - destruct Hi as [_ ->]. destruct Hu.
  - pose proof (handler_log cmp tz upstream req _ _ _ resp log Hp H) as Hlog.
    destruct (prepare_fanout_inv tz req iso mdy symbols Hp)
      as (date & text & _ & _ & _ & _ & _ & ->).
    destruct (batch_items cmp tz upstream req _ _ _ resp log Hp H)
      as (res & _ & ->).
    rewrite Hlog in Hu. unfold urlsOf in Hu. apply in_map_iff in Hu.
    destruct Hu as (sym & <- & Hsym). apply filter_In in Hsym.
    destruct Hsym as [_ Ha]. destruct (accepted_split _ Ha) as [H6 HU].
    exists sym, iso. split; [reflexivity|].
    destruct (downloadURL_safe sym (toMMDDYYYY iso) H6) as [P S].
    repeat split; assumption.
Qed.

Lemma batch_requests_only_provider_urls_witness :
  handler String.compare 0 sampleUpstream sampleRequest
          (fst (serve String.compare 0 sampleUpstream [] sampleRequest))
          (snd (serve String.compare 0 sampleUpstream [] sampleRequest)) /\
  In (downloadURL "CADUSD" "06/07/2024")
     (snd (serve String.compare 0 sampleUpstream [] sampleRequest)) /\
  exists sym iso,
    resolvedDateOf (fst (serve String.compare 0 sampleUpstream []
                               sampleRequest)) = Some iso /\
    sixLetters sym = true /\ endsWith "USD" sym = true /\
    downloadURL "CADUSD" "06/07/2024" = downloadURL sym (toMMDDYYYY iso) /\
    String.prefix fxPath (downloadURL "CADUSD" "06/07/2024") = true /\
    allChars urlChar (downloadURL "CADUSD" "06/07/2024") = true.
Proof.
  pose proof (handler_serve String.compare 0%Z sampleUpstream []%list
                sampleRequest) as Hh.
  assert (Hin : In (downloadURL "CADUSD" "06/07/2024")
                   (snd (serve String.compare 0 sampleUpstream []
                               sampleRequest)))
    by (vm_compute; right; right; left; reflexivity).
  split; [exact Hh|]. split; [exact Hin|].
  exact (batch_requests_only_provider_urls
           String.compare 0%Z sampleUpstream sampleRequest _ _ _ Hh Hin).
Defined.

(** ** From the request to the quote *)

Module QuoteFacts.
Import Js JsDate Dates DateSpec Http Csv CsvSpec Result Batch.
Import InputSpec FormatSpec UrlSpec QuoteSpec.
Import CalendarFacts IsoFacts CsvFacts SymbolFacts FetchFacts InputFacts.
Import FormatFacts RoundTripFacts CoverageFacts UrlFacts.

Lemma allChars_weaken (p q : ascii -> bool) s :
  (forall c, p c = true -> q c = true) ->
  allChars p s = true -> allChars q s = true.
Proof.
  intros Hpq. induction s as [|c r IH]; cbn [allChars]; [reflexivity|].
  rewrite !andb_true_iff. intros [Hc Hr]. split; [apply Hpq; exact Hc|].
  exact (IH Hr).
Qed.

Lemma allChars_excludes p x s :
  p x = false -> allChars p s = true -> includesChar x s = false.
Proof.
  intros Hx. induction s as [|c r IH]; cbn [allChars includesChar];
    [reflexivity|].
  rewrite andb_true_iff. intros [Hc Hr]. rewrite (IH Hr), orb_false_r.
  destruct (Ascii.eqb_spec c x) as [->|_]; [congruence|reflexivity].
Qed.

Lemma trimEnd_no_space s :
  allChars (fun c => negb (isSpace c)) s = true -> trimEnd s = s.
Proof.
  induction s as [|c r IH]; cbn [allChars trimEnd]; [reflexivity|].
  rewrite andb_true_iff. intros [Hc Hr]. rewrite (IH Hr).
  apply negb_true_iff in Hc. rewrite Hc. destruct r; reflexivity.
Qed.

Lemma trim_no_space s :
  allChars (fun c => negb (isSpace c)) s = true -> trim s = s.
Proof.
  intros H. unfold trim.
  assert (trimStart s = s) as ->.
  { destruct s as [|c r]; [reflexivity|]. cbn [allChars] in H.
    apply andb_true_iff in H. destruct H as [Hc _].
    apply negb_true_iff in Hc. cbn [trimStart]. rewrite Hc. reflexivity. }
  apply trimEnd_no_space. exact H.
Qed.

Lemma dateChar_no_space c : dateChar c = true -> negb (isSpace c) = true.
Proof.
  unfold dateChar. intros H. apply orb_true_iff in H.
  destruct H as [H|H].
  - apply digit_code in H. unfold isSpace.
    replace (code c <=? 13)%N with false by (symmetry; apply N.leb_gt; lia).
    replace (code c =? 32)%N with false by (symmetry; apply N.eqb_neq; lia).
    rewrite andb_false_r. reflexivity.
  - apply Ascii.eqb_eq in H. subst c. reflexivity.
Qed.

Lemma pad2_dateChars v : allChars dateChar (pad2 v) = true.
Proof.
  unfold pad2, dateChar. cbn [allChars].
  rewrite !isDigit_digitChar. reflexivity.
Qed.

(** The end of a text that ends in a trimmed text. *)
Lemma trimEnd_app a b : b <> "" -> trimEnd b = b -> trimEnd (a ++ b) = a ++ b.
Proof.
  intros Hb Ht. induction a as [|c r IH]; cbn [append trimEnd]; [exact Ht|].
  rewrite IH. destruct (r ++ b) eqn:E; [|reflexivity].
  exfalso. destruct r; cbn in E; [contradiction|discriminate E].
Qed.

Lemma includes_app c a b :
  includesChar c (a ++ b) = includesChar c a || includesChar c b.
Proof.
  induction a as [|x r IH]; cbn [append includesChar]; [reflexivity|].
  rewrite IH. apply orb_assoc.
Qed.

(** The row of [quoteText] and its cells. *)
Lemma quote_row_cells mdy close :
  allChars dateChar mdy = true -> plainNumber close ->
  cells (mdy ++ ",1.08,1.09,1.07," ++ close ++ ",1000") =
  [mdy; "1.08"; "1.09"; "1.07"; close; "1000"].
Proof.
  intros Hm (Hne & Ht & Hc & _ & _). unfold cells.
  assert (Hmc : includesChar "," mdy = false)
    by (apply (allChars_excludes dateChar); [reflexivity|exact Hm]).
  change (mdy ++ ",1.08,1.09,1.07," ++ close ++ ",1000")
    with (mdy ++ String ","
            ("1.08" ++ String ","
               ("1.09" ++ String ","
                  ("1.07" ++ String "," (close ++ String "," "1000"))))).
  rewrite (split_app "," mdy _ Hmc).
  rewrite (split_app "," "1.08" _ eq_refl), (split_app "," "1.09" _ eq_refl),
          (split_app "," "1.07" _ eq_refl), (split_app "," close _ Hc).
  rewrite (split_none "," "1000" eq_refl). cbn [map].
  rewrite Ht.
  rewrite (trim_no_space mdy (allChars_weaken _ _ mdy dateChar_no_space Hm)).
  reflexivity.
Qed.

Lemma parse_quoteText mdy iso close :
  allChars dateChar mdy = true -> rowISO mdy = Some iso ->
  plainNumber close ->
  parseWSJCSV (quoteText mdy close) iso = Some (mkParsed iso close).
Proof.
  intros Hm Hrow Hp.
  pose proof Hp as (Hne & Ht & Hc & Hlf & Hn).
  set (row := mdy ++ ",1.08,1.09,1.07," ++ close ++ ",1000").
  assert (Hrowlf : includesChar LF row = false).
  { unfold row. rewrite !includes_app, Hlf.
    rewrite (allChars_excludes dateChar LF mdy eq_refl Hm). reflexivity. }
  assert (Htext : quoteText mdy close =
                  "Date,Open,High,Low,Close,Volume" ++ String LF row)
    by reflexivity.
  assert (Htrim : trim (quoteText mdy close) = quoteText mdy close).
  { unfold trim. rewrite Htext.
    change (trimStart ("Date,Open,High,Low,Close,Volume" ++ String LF row))
      with ("Date,Open,High,Low,Close,Volume" ++ String LF row).
    unfold row.
    replace ("Date,Open,High,Low,Close,Volume" ++
             String LF (mdy ++ ",1.08,1.09,1.07," ++ close ++ ",1000"))
      with (("Date,Open,High,Low,Close,Volume" ++
             String LF (mdy ++ ",1.08,1.09,1.07," ++ close)) ++ ",1000").
    - apply trimEnd_app; [discriminate|reflexivity].
    - cbn [append]. rewrite ?append_assoc. cbn [append].
      rewrite ?append_assoc. reflexivity. }
  unfold parseWSJCSV. rewrite Htrim.
  assert (includesChar LF (quoteText mdy close) = true) as ->.
  { rewrite Htext, includes_app. cbn [includesChar].
    rewrite Ascii.eqb_refl. rewrite orb_true_r. reflexivity. }
  assert (String.eqb (quoteText mdy close) "" = false) as -> by reflexivity.
  cbn [orb negb]. unfold splitLines. rewrite Htext.
  rewrite (split_app LF "Date,Open,High,Low,Close,Volume" row eq_refl).
  rewrite (split_none LF row Hrowlf). cbn [mapInit].
  change (headerCells (dropLastCR "Date,Open,High,Low,Close,Volume"))
    with ["date"; "open"; "high"; "low"; "close"; "volume"].
  change (indexOf "date" ["date"; "open"; "high"; "low"; "close"; "volume"])
    with 0%Z.
  change (indexOf "close" ["date"; "open"; "high"; "low"; "close"; "volume"])
    with 4%Z.
  change (Z.to_nat 0) with 0%nat. change (Z.to_nat 4) with 4%nat.
  cbn [Z.ltb Z.compare orb]. cbn [scanRows]. unfold row. rewrite (quote_row_cells mdy close Hm Hp).
  cbn [List.length Nat.max Nat.add Nat.ltb Nat.leb nth nth_error].
  rewrite Hrow, String.eqb_refl. unfold badClose.
  rewrite Hn. replace (String.eqb close "") with false
    by (symmetry; apply String.eqb_neq; exact Hne).
  reflexivity.
Qed.

Lemma year_dateChars y :
  (0 <= y <= 9999)%Z ->
  allChars dateChar (ofInt y) = true /\
  allChars dateChar (Simple.lastTwo (ofInt y)) = true.
Proof.
  intros Hy.
  pose proof (below_checked2
    (fun y => allChars dateChar (ofInt y) &&
              allChars dateChar (Simple.lastTwo (ofInt y)))
    ltac:(vm_compute; reflexivity) y Hy) as H.
  cbv beta in H. apply andb_true_iff in H. exact H.
Qed.

(** The date in either form of the provider: its characters, and the date
    the row matcher reads from it. *)
Lemma long_date_reads_back s n :
  isoDay s = Some n -> (1000 <= yearOf s)%Z ->
  allChars dateChar (toMMDDYYYY s) = true /\ rowISO (toMMDDYYYY s) = Some s.
Proof.
  intros H L.
  destruct (isoDay_inv s n H)
    as (y & m & d & -> & Hp & Hy & Hm & Hd & Hd31 & ->).
  destruct (fields_isoDateOf y m d Hy ltac:(lia) ltac:(lia)) as (Fy & _).
  cbv zeta in Fy. rewrite Fy in L.
  rewrite (toMMDDYYYY_civil _ y m d Hp Hy Hm Hd).
  destruct (years_read_back y Hy) as (N1 & T1 & _ & _ & E & _).
  split.
  - rewrite !allChars_app, !pad2_dateChars.
    rewrite (proj1 (year_dateChars y Hy)). reflexivity.
  - apply (rowISO_formatted_iff y m d (ofInt y) Hy N1 T1). apply E. exact L.
Qed.

Lemma short_date_reads_back s n :
  isoDay s = Some n -> (1951 <= yearOf s <= 2050)%Z ->
  allChars dateChar (Simple.mmddyy s) = true /\
  rowISO (Simple.mmddyy s) = Some s.
Proof.
  intros H L.
  destruct (isoDay_inv s n H)
    as (y & m & d & -> & Hp & Hy & Hm & Hd & Hd31 & ->).
  destruct (fields_isoDateOf y m d Hy ltac:(lia) ltac:(lia)) as (Fy & _).
  cbv zeta in Fy. rewrite Fy in L.
  rewrite (mmddyy_civil _ y m d Hp Hy Hm Hd).
  destruct (years_read_back y Hy) as (_ & _ & N2 & T2 & _ & E).
  split.
  - rewrite !allChars_app, !pad2_dateChars.
    rewrite (proj2 (year_dateChars y Hy)). reflexivity.
  - apply (rowISO_formatted_iff y m d _ Hy N2 T2). apply E. exact L.
Qed.

End QuoteFacts.

Import QuoteSpec QuoteFacts.

(** X22.  From the request to the quote.  When the provider answers the
    request for an accepted symbol and a date of the calendar with a status
    from 200 to 299 and a table with the usual header whose row carries
    that date, written as the handler asked for it (from the year 1000 on)
    or with a two-digit year (for the years 1951 to 2050), and a close
    that is a plain number, the fetcher of [src/api/fx.js] returns an item
    with status ok, that close as it stands, and that date. *)
Theorem quote_of_the_asked_date_is_found :
  forall fetch raw iso n close st mdy,
    isoDay iso = Some n ->
    (mdy = toMMDDYYYY iso /\ (1000 <= yearOf iso)%Z) \/
    (mdy = Simple.mmddyy iso /\ (1951 <= yearOf iso <= 2050)%Z) ->
    accepted (normalize raw) = true -> plainNumber close ->
    ok st = true ->
    fetch (downloadURL (normalize raw) (toMMDDYYYY iso)) =
      Responded st (Text (quoteText mdy close)) ->
    fst (fetchWSJ fetch raw (toMMDDYYYY iso) iso) =
    mkResult (normalize raw) StatusOk (Some close) (Some iso) None
             (Some (downloadURL (normalize raw) (toMMDDYYYY iso))).
Proof.
  intros fetch raw iso n close st mdy H Hmdy Ha Hc Hok Hf.
  destruct (accepted_split _ Ha) as [H6 HU].
  rewrite (fetchWSJ_accepted fetch raw (toMMDDYYYY iso) iso H6 HU).
  cbn [fst]. rewrite Hf, Hok. cbn [negb].
  assert (Hparse : parseWSJCSV (quoteText mdy close) iso =
                   Some (mkParsed iso close)).
  { destruct Hmdy as [[-> L]|[-> L]].
    - destruct (long_date_reads_back iso n H L) as [Hchars Hrow].
      apply parse_quoteText; assumption.
    - destruct (short_date_reads_back iso n H L) as [Hchars Hrow].
      apply parse_quoteText; assumption. }
  rewrite Hparse. reflexivity.
Qed.

Lemma quote_of_the_asked_date_is_found_witness :
  isoDay "2024-06-07" = Some 19881%Z /\
  ("06/07/24" = toMMDDYYYY "2024-06-07" /\ (1000 <= yearOf "2024-06-07")%Z \/
   "06/07/24" = Simple.mmddyy "2024-06-07" /\
   (1951 <= yearOf "2024-06-07" <= 2050)%Z) /\
  accepted (normalize "eurusd") = true /\ plainNumber "1.085" /\
  ok 200 = true /\
  fst (fetchWSJ (always (quoteText "06/07/24" "1.085") 0) "eurusd"
                (toMMDDYYYY "2024-06-07") "2024-06-07") =
  mkResult (normalize "eurusd") StatusOk (Some "1.085") (Some "2024-06-07")
           None
           (Some (downloadURL (normalize "eurusd")
                              (toMMDDYYYY "2024-06-07"))).
Proof.
  assert (H : isoDay "2024-06-07" = Some 19881%Z) by (vm_compute; reflexivity).
  assert (Hm : "06/07/24" = toMMDDYYYY "2024-06-07" /\
               (1000 <= yearOf "2024-06-07")%Z \/
               "06/07/24" = Simple.mmddyy "2024-06-07" /\
               (1951 <= yearOf "2024-06-07" <= 2050)%Z).
  { right. split; [vm_compute; reflexivity|].
    vm_compute. split; discriminate. }
  assert (Ha : accepted (normalize "eurusd") = true)
    by (vm_compute; reflexivity).
  assert (Hc : plainNumber "1.085").
  { unfold plainNumber. split; [discriminate|]. repeat split. }
  assert (Hok : ok 200 = true) by reflexivity.
  repeat (split; [assumption|]).
  exact (quote_of_the_asked_date_is_found
           (always (quoteText "06/07/24" "1.085") 0) "eurusd" "2024-06-07"
           19881%Z "1.085" 200%Z "06/07/24" H Hm Ha Hc Hok eq_refl).
Defined.

(** X23.  A batch is never empty: a symbol list that is empty or absent is
    replaced by a preset, and no preset is empty, so every answer 200 of
    the handler of [src/api/fx.js] counts at least one symbol and carries
    as many items. *)
Theorem batch_answer_is_never_empty :
  forall localeCompare tz upstream req resp log,
    handler localeCompare tz upstream req resp log ->
    statusCode resp = 200%Z ->
    exists iso total ok fail items,
      resp = Batch200 "no-store" iso total ok fail items /\
      (1 <= total)%nat /\ List.length items = total.
Proof.
  intros cmp tz upstream req resp log H H200.
  pose proof (handler_inv cmp tz upstream req resp log H) as Hi.
  destruct (Batch.prepare tz req) as [code msg|iso mdy symbols] eqn:Hp.
  - destruct Hi as [-> _]. cbn [statusCode] in H200. subst code.
    exfalso. unfold Batch.prepare in Hp.
    destruct (parseInput req) as [[[d s]|]|e];
      [|discriminate Hp|discriminate Hp].
    destruct (validDate d) as [[text|]|e];
      [|discriminate Hp|discriminate Hp].
    destruct (priorBizIfWeekend tz text); [|discriminate Hp].
    destruct s; discriminate Hp.
  - destruct (prepare_fanout_inv tz req iso mdy symbols Hp)
      as (date & text & Hpi & _).
    destruct (batch_items cmp tz upstream req _ _ _ resp log Hp H)
      as (res & Hperm & ->).
    unfold respond. do 5 eexists. split; [reflexivity|].
    split.
    + pose proof (parseInput_given req) as Hg. rewrite Hpi in Hg.
      destruct (RequestSpec.getOrPost req); [|discriminate Hg].
      destruct (requestCoverage req) as [k|e]; [|discriminate Hg].
      destruct (givenSymbols req) as [g|e]; [|discriminate Hg].
      injection Hg as _ Hs.
      destruct g as [[|x l]|]; cbn [orCoverage] in Hs.
      * destruct (presets_ok _ _ (eq_sym Hs)) as (_ & -> & _).
        destruct (String.eqb _ "majors"); [lia|].
        destruct (String.eqb _ "extended"); lia.
      * injection Hs as ->. cbn [List.length]. lia.
      * destruct (presets_ok _ _ (eq_sym Hs)) as (_ & -> & _).
        destruct (String.eqb _ "majors"); [lia|].
        destruct (String.eqb _ "extended"); lia.
    + rewrite (Permutation_length (sort_perm cmp res)).
      rewrite (Permutation_length Hperm). apply perTask_length.
Qed.

Lemma batch_answer_is_never_empty_witness :
  handler String.compare 0 sampleUpstream MoreSamples.majorsRequest
    (fst (serve String.compare 0 sampleUpstream [] MoreSamples.majorsRequest))
    (snd (serve String.compare 0 sampleUpstream [] MoreSamples.majorsRequest))
  /\
  statusCode (fst (serve String.compare 0 sampleUpstream []
                         MoreSamples.majorsRequest)) = 200%Z /\
  exists iso total ok fail items,
    fst (serve String.compare 0 sampleUpstream [] MoreSamples.majorsRequest) =
      Batch200 "no-store" iso total ok fail items /\
    (1 <= total)%nat /\ List.length items = total.
Proof.
  pose proof (handler_serve String.compare 0%Z sampleUpstream []%list
                MoreSamples.majorsRequest) as Hh.
  assert (H200 : statusCode (fst (serve String.compare 0 sampleUpstream []
                                        MoreSamples.majorsRequest)) = 200%Z)
    by (vm_compute; reflexivity).
  split; [exact Hh|]. split; [exact H200|].
  exact (batch_answer_is_never_empty
           String.compare 0%Z sampleUpstream MoreSamples.majorsRequest
           _ _ Hh H200).
Defined.
